(** * Trading core: simulation environment, indicator engine, risk gate,
      order audit and performance summary.

    A shallow embedding of [rl_trading_env.py], [technical_indicators.py],
    [kis_broker.py] and the risk, audit, metrics, account, history, settings
    and amount-order functions of [trading_api.py].

    Numbers.  Python floats are modelled by exact rationals ([Q]); rounding,
    overflow and signed zeros are outside the model.  Where the source relies
    on what IEEE arithmetic does at a zero divisor (the pandas columns of the
    indicator engine) the cells are values of [fval], which adds the
    infinities and NaN to the rationals.  Where the source divides Python
    floats (the simulation, the metrics) a zero divisor raises
    [ZeroDivisionError], as it does in Python. *)

From Stdlib Require Import ZArith QArith Qabs Qminmax String Ascii List Bool Lia Lqa.
From Stdlib Require Import Sorted Permutation.
Import ListNotations.

Set Warnings "-register-all".

Open Scope Q_scope.

(* ------------------------------------------------------------------ *)
(** ** Python values, exceptions and arithmetic helpers                 *)
(* ------------------------------------------------------------------ *)

(** The exceptions the core raises.  The text of an [HTTPException] is kept
    as the data it is formatted from. *)
Inductive exn : Type :=
| ZeroDivisionError
| IndexError
| KeyError
| ValueError
| TypeError
| AttributeError
| UnboundLocalError
| RuntimeError
| ConnectionError
| HTTPException (status_code : Z) (d : detail)
with detail : Type :=
| BadSide
| DailyBuyLimit (remain cap : Q)
| PositionLimit (stock_code : string) (max_shares : Z) (current_qty : Q)
| WeightLimit (stock_code : string) (weight max_weight_pct : Q)
| SellLimit (sellable : Q)
| OrderFailed (e : exn).

Inductive result (A : Type) : Type :=
| Ok (a : A)
| Raise (e : exn).

Arguments Ok {A} a.
Arguments Raise {A} e.

Definition bind {A B : Type} (m : result A) (k : A -> result B) : result B :=
  match m with
  | Ok a => k a
  | Raise e => Raise e
  end.

Notation "x <- m ;; k" := (bind m (fun x => k))
  (at level 61, m at next level, right associativity).

(** [a < b] and [a <= b] on floats, as booleans. *)
Definition Qltb (a b : Q) : bool := (Qnum a * QDen b <? Qnum b * QDen a)%Z.
Definition Qleb (a b : Q) : bool := (Qnum a * QDen b <=? Qnum b * QDen a)%Z.
Definition Qeqb (a b : Q) : bool := (Qnum a * QDen b =? Qnum b * QDen a)%Z.

(** Python's [max(a, b)]: the first argument unless the second is greater. *)
Definition py_max (a b : Q) : Q := if Qltb a b then b else a.

(** Python's [a / b] on floats. *)
Definition py_div (a b : Q) : result Q :=
  if Qeqb b 0 then Raise ZeroDivisionError else Ok (a / b).

(** [np.clip(a, lo, hi)] is [minimum(maximum(a, lo), hi)]. *)
Definition np_clip (a lo hi : Q) : Q := Qmin (Qmax a lo) hi.

(** Indexing [xs[i]] of a list or numpy array: a negative index counts from
    the end, an index out of range raises [IndexError]. *)
Definition py_index {A : Type} (xs : list A) (i : Z) : result A :=
  let n := Z.of_nat (length xs) in
  let j := (if i <? 0 then i + n else i)%Z in
  if (j <? 0)%Z then Raise IndexError
  else match nth_error xs (Z.to_nat j) with
       | Some x => Ok x
       | None => Raise IndexError
       end.

(** Slicing [xs[start:stop]]: negative bounds count from the end, bounds are
    clamped to the length, nothing is raised. *)
Definition slice_bound (i n : Z) : Z :=
  (if i <? 0 then Z.max 0 (i + n) else Z.min i n)%Z.

Definition py_slice {A : Type} (xs : list A) (start stop : Z) : list A :=
  let n := Z.of_nat (length xs) in
  let s := slice_bound start n in
  let e := slice_bound stop n in
  firstn (Z.to_nat (e - s)) (skipn (Z.to_nat s) xs).

Definition eps : Q := 1 # 1000000.


(* ------------------------------------------------------------------ *)
(** ** rl_trading_env.py: the single-instrument simulation              *)
(* ------------------------------------------------------------------ *)

Module TradingEnv.

(** [TradingEnvConfig]; the CSV behind [csv_path] is carried as the loaded
    [prices] and [features] of [Env]. *)
Record TradingEnvConfig : Type := {
  window_size : Z;
  initial_cash : Q;
  max_position : Q;
  transaction_cost : Q;
  reward_scale : Q
}.

(** The defaults of the dataclass. *)
Definition default_config : TradingEnvConfig := {|
  window_size := 60;
  initial_cash := 1000000;
  max_position := 1;
  transaction_cost := 5 # 10000;
  reward_scale := 1
|}.

(** What [__init__] fixes once: the configuration and the two arrays. *)
Record Env : Type := {
  config : TradingEnvConfig;
  prices : list Q;
  features : list (list Q)
}.

Definition n_steps (e : Env) : Z := Z.of_nat (length (features e)).

(** The mutable fields of the instance. *)
Record EnvState : Type := {
  _current_step : Z;
  _position : Q;
  _cash : Q;
  _equity : Q;
  _equity_start : Q
}.

(** The [info] dictionary of [step]. *)
Record StepInfo : Type := {
  info_equity : Q;
  info_position : Q;
  info_price_return : Q;
  info_step_return : Q
}.

(** The local variables of one [step], in the order they are computed. *)
Record StepLocals : Type := {
  target_pos : Q;
  prev_price : Q;
  curr_price : Q;
  pos_change : Q;
  trade_cost : Q;
  price_return : Q;
  prev_equity : Q;
  pnl : Q;
  new_equity : Q;
  step_return : Q;
  reward : Q
}.

Record StepResult : Type := {
  obs : list (list Q);
  res_reward : Q;
  terminated : bool;
  truncated : bool;
  info : StepInfo
}.

(** [_get_observation]: the window of feature rows, each extended by the
    position and the cumulative return.  [np.concatenate] raises when the
    slice does not have [window_size] rows. *)
Definition _get_observation (e : Env) (st : EnvState) : result (list (list Q)) :=
  let w := window_size (config e) in
  let start := (_current_step st - w)%Z in
  let stop := _current_step st in
  let feats := py_slice (features e) start stop in
  if (w <? 0)%Z then Raise ValueError
  else
    q <- py_div (_equity st) (_equity_start st) ;;
    let cum_return := q - 1 in
    if (Z.of_nat (length feats) =? w)%Z
    then Ok (map (fun row => row ++ [_position st; cum_return]) feats)
    else Raise ValueError.

Definition reset (e : Env) : result (EnvState * list (list Q)) :=
  let st := {| _current_step := window_size (config e);
               _position := 0;
               _cash := initial_cash (config e);
               _equity := initial_cash (config e);
               _equity_start := initial_cash (config e) |} in
  o <- _get_observation e st ;;
  Ok (st, o).

(** Lines 94-119 of [step]: everything up to the reward. *)
Definition step_locals (e : Env) (st : EnvState) (action0 : Q) : result StepLocals :=
  let cfg := config e in
  let target_pos := np_clip action0 (- max_position cfg) (max_position cfg) in
  prev_price <- py_index (prices e) (_current_step st - 1) ;;
  curr_price <- py_index (prices e) (_current_step st) ;;
  let pos_change := Qabs (target_pos - _position st) in
  let trade_cost := _equity st * pos_change * transaction_cost cfg in
  let position' := target_pos in
  price_return <-
    (if Qleb prev_price 0 then Ok 0
     else py_div (curr_price - prev_price) prev_price) ;;
  let prev_equity := _equity st in
  let pnl := prev_equity * position' * price_return - trade_cost in
  let new_equity := py_max (prev_equity + pnl) eps in
  step_return <- py_div (new_equity - prev_equity) (py_max prev_equity eps) ;;
  let reward := reward_scale cfg * step_return in
  Ok {| target_pos := target_pos; prev_price := prev_price;
        curr_price := curr_price; pos_change := pos_change;
        trade_cost := trade_cost; price_return := price_return;
        prev_equity := prev_equity; pnl := pnl; new_equity := new_equity;
        step_return := step_return; reward := reward |}.

Definition step (e : Env) (st : EnvState) (action0 : Q)
  : result (EnvState * StepResult) :=
  l <- step_locals e st action0 ;;
  let st' := {| _current_step := _current_step st + 1;
                _position := target_pos l;
                _cash := _cash st;
                _equity := new_equity l;
                _equity_start := _equity_start st |} in
  let terminated := (_current_step st' >=? n_steps e - 1)%Z in
  o <- _get_observation e st' ;;
  Ok (st', {| obs := o; res_reward := reward l; terminated := terminated;
              truncated := false;
              info := {| info_equity := _equity st';
                         info_position := _position st';
                         info_price_return := price_return l;
                         info_step_return := step_return l |} |}).

(** A run: [reset], then one [step] per action; the states after each step. *)
Fixpoint steps (e : Env) (st : EnvState) (actions : list Q)
  : result (list EnvState) :=
  match actions with
  | [] => Ok []
  | a :: rest =>
      r <- step e st a ;;
      sts <- steps e (fst r) rest ;;
      Ok (fst r :: sts)
  end.

Definition run (e : Env) (actions : list Q) : result (list EnvState) :=
  r <- reset e ;;
  steps e (fst r) actions.

End TradingEnv.

(* ------------------------------------------------------------------ *)
(** ** database.py: the rows the core reads and writes                  *)
(* ------------------------------------------------------------------ *)

(** A parsed JSON document, as [resp.json()] returns it.  An object keeps its
    members as a list; a parsed object has no repeated key. *)
Inductive json : Type :=
| JNull
| JBool (b : bool)
| JNum (q : Q)
| JStr (s : string)
| JArr (items : list json)
| JObj (members : list (string * json)).

(** Python built-ins whose text-level behaviour is not part of this
    repository: [float] on a [str] ([None] when it raises [ValueError]) and
    [json.dumps(_, ensure_ascii=False)]. *)
Record PyLib : Type := {
  str_float : string -> option Q;
  json_dumps : json -> string
}.

Module Database.

(** Times are seconds since the epoch, UTC. *)
Record TradeOrder : Type := {
  order_created_at : Z;
  order_stock_code : string;
  order_stock_name : json;
  order_side : string;
  order_quantity : Z;
  order_price : option Q;
  order_amount : option Q;
  order_status : string;
  order_raw_response : string
}.

Record AccountSnapshot : Type := {
  snap_created_at : Z;
  snap_total_value : option Q;
  snap_cash : option Q;
  snap_total_buy_amount : option Q;
  snap_total_eval_amount : option Q;
  snap_total_pnl : option Q
}.

Record RiskSetting : Type := {
  rs_stock_code : option string;
  rs_max_position_shares : option Z;
  rs_max_weight_pct : option Q;
  rs_max_daily_buy_amount : option Q;
  rs_active : bool
}.

Record Db : Type := {
  trade_orders : list TradeOrder;
  account_snapshots : list AccountSnapshot;
  risk_settings : list RiskSetting
}.

End Database.

(** [x or 0.0] on a nullable float column: [None] and [0.0] are falsy. *)
Definition or_zero (x : option Q) : Q :=
  match x with
  | Some q => if Qeqb q 0 then 0 else q
  | None => 0
  end.

(** [ORDER BY key ASC] / [DESC] as a stable insertion sort. *)
Fixpoint insert_by {A : Type} (before : A -> A -> bool) (r : A) (l : list A) : list A :=
  match l with
  | [] => [r]
  | x :: xs => if before r x then r :: l else x :: insert_by before r xs
  end.

Definition order_by {A : Type} (before : A -> A -> bool) (l : list A) : list A :=
  fold_right (insert_by before) [] l.

(* ------------------------------------------------------------------ *)
(** ** trading_api.py: performance summary                              *)
(* ------------------------------------------------------------------ *)

Module Metrics.
Import Database.

Record PerformanceSnapshot : Type := {
  timestamp : Z;
  total_value : Q;
  cash : Q;
  total_buy_amount : Q;
  total_eval_amount : Q;
  total_pnl : Q
}.

Record PerformanceSummary : Type := {
  start_value : Q;
  end_value : Q;
  total_return_pct : Q;
  max_drawdown_pct : Q;
  pnl_sum : Q
}.

Record PerformanceResponse : Type := {
  summary : PerformanceSummary;
  snapshots : list PerformanceSnapshot
}.

(** The query of [get_performance]: snapshots not older than [days] days,
    oldest first. *)
Definition recent_snapshots (db : Db) (now days : Z) : list AccountSnapshot :=
  let cutoff := (now - days * 86400)%Z in
  order_by (fun a b => (snap_created_at a <=? snap_created_at b)%Z)
           (filter (fun r => (cutoff <=? snap_created_at r)%Z) (account_snapshots db)).

Definition to_snapshot (r : AccountSnapshot) : PerformanceSnapshot := {|
  timestamp := snap_created_at r;
  total_value := or_zero (snap_total_value r);
  cash := or_zero (snap_cash r);
  total_buy_amount := or_zero (snap_total_buy_amount r);
  total_eval_amount := or_zero (snap_total_eval_amount r);
  total_pnl := or_zero (snap_total_pnl r)
|}.

(** The drawdown loop: [for v in equity: ...], threading [max_peak] and
    [max_dd]. *)
Fixpoint drawdown_loop (equity : list Q) (max_peak max_dd : Q) : Q :=
  match equity with
  | [] => max_dd
  | v :: rest =>
      let max_peak := if Qltb max_peak v then v else max_peak in
      let max_dd :=
        if Qltb 0 max_peak then
          let dd := (max_peak - v) / max_peak * 100 in
          if Qltb max_dd dd then dd else max_dd
        else max_dd in
      drawdown_loop rest max_peak max_dd
  end.

(** [get_performance] after the query. *)
Definition summarize (rows : list AccountSnapshot) : PerformanceResponse :=
  match rows with
  | [] =>
      {| summary := {| start_value := 0; end_value := 0; total_return_pct := 0;
                       max_drawdown_pct := 0; pnl_sum := 0 |};
         snapshots := [] |}
  | r0 :: _ =>
      let snaps := map to_snapshot rows in
      let equity := map (fun r => or_zero (snap_total_value r)) rows in
      let start_val := nth 0 equity 0 in
      let end_val := last equity 0 in
      let total_return_pct :=
        if Qeqb start_val 0 then 0
        else (end_val - start_val) / start_val * 100 in
      let max_dd := drawdown_loop equity (nth 0 equity 0) 0 in
      let pnl_sum := fold_left Qplus (map total_pnl snaps) 0 in
      {| summary := {| start_value := start_val; end_value := end_val;
                       total_return_pct := total_return_pct;
                       max_drawdown_pct := max_dd; pnl_sum := pnl_sum |};
         snapshots := snaps |}
  end.

Definition get_performance (db : Db) (now days : Z) : PerformanceResponse :=
  summarize (recent_snapshots db now days).

(** The drawdown of the specification: at each snapshot, the fall from the
    running peak (the largest value so far, the snapshot included) as a
    percentage of that peak; the summary reports the largest one.  A
    quotient by a peak of 0 reads 0, as every quotient by 0 in [Q]. *)
Fixpoint drawdowns_from (peak : Q) (values : list Q) : list Q :=
  match values with
  | [] => []
  | v :: rest =>
      let peak := Qmax peak v in
      (peak - v) / peak * 100 :: drawdowns_from peak rest
  end.

Definition drawdowns (values : list Q) : list Q :=
  match values with
  | [] => []
  | v0 :: _ => drawdowns_from v0 values
  end.

Definition Qlist_max (xs : list Q) : Q :=
  match xs with
  | [] => 0
  | x :: rest => fold_left Qmax rest x
  end.

Definition Qsum (xs : list Q) : Q := fold_right Qplus 0 xs.

End Metrics.

(* ------------------------------------------------------------------ *)
(** ** technical_indicators.py: EMA and RSI                             *)
(* ------------------------------------------------------------------ *)

Module TechnicalIndicators.

(** A float64 cell of a pandas column: a finite number, an infinity or NaN.
    Division in a column raises nothing; it follows IEEE 754. *)
Inductive fval : Type :=
| Fin (q : Q)
| Inf (negative : bool)
| NaN.

Definition fneg (a : fval) : fval :=
  match a with
  | Fin q => Fin (- q)
  | Inf s => Inf (negb s)
  | NaN => NaN
  end.

Definition fadd (a b : fval) : fval :=
  match a, b with
  | NaN, _ | _, NaN => NaN
  | Inf s, Inf t => if Bool.eqb s t then Inf s else NaN
  | Inf s, Fin _ => Inf s
  | Fin _, Inf t => Inf t
  | Fin x, Fin y => Fin (x + y)
  end.

Definition fsub (a b : fval) : fval := fadd a (fneg b).

Definition fdiv (a b : fval) : fval :=
  match a, b with
  | NaN, _ | _, NaN => NaN
  | Inf _, Inf _ => NaN
  | Inf s, Fin y => Inf (xorb s (Qltb y 0))
  | Fin _, Inf _ => Fin 0
  | Fin x, Fin y =>
      if Qeqb y 0 then
        if Qeqb x 0 then NaN else Inf (Qltb x 0)
      else Fin (x / y)
  end.

(** [cell > 0] and [cell < 0]; a comparison with NaN is false. *)
Definition fgt0 (a : fval) : bool :=
  match a with
  | Fin q => Qltb 0 q
  | Inf s => negb s
  | NaN => false
  end.

Definition flt0 (a : fval) : bool :=
  match a with
  | Fin q => Qltb q 0
  | Inf s => s
  | NaN => false
  end.

(** [Series.diff()]: NaN first, then the difference to the previous row. *)
Fixpoint diff_from (prev : Q) (xs : list Q) : list fval :=
  match xs with
  | [] => []
  | x :: rest => Fin (x - prev) :: diff_from x rest
  end.

Definition diff (xs : list Q) : list fval :=
  match xs with
  | [] => []
  | x :: rest => NaN :: diff_from x rest
  end.

(** [Series.where(cond, other)]: the cell where [cond] holds, else [other]. *)
Definition where_ (cond : fval -> bool) (other : fval) (xs : list fval) : list fval :=
  map (fun x => if cond x then x else other) xs.

(** The rows [i - period + 1 .. i]. *)
Definition window_at {A : Type} (period : nat) (xs : list A) (i : nat) : list A :=
  firstn period (skipn (S i - period) xs).

Fixpoint finite_values (w : list fval) : option (list Q) :=
  match w with
  | [] => Some []
  | Fin q :: rest =>
      match finite_values rest with
      | Some qs => Some (q :: qs)
      | None => None
      end
  | _ :: _ => None
  end.

Definition Qtotal (qs : list Q) : Q := fold_right Qplus 0 qs.

(** [Series.rolling(window=period).mean()]: NaN until [period] rows are
    there and wherever the window holds a cell that is not finite. *)
Definition rolling_mean (period : nat) (xs : list fval) : list fval :=
  map (fun i =>
         if (S i <? period)%nat || (period =? 0)%nat then NaN
         else match finite_values (window_at period xs i) with
              | Some qs => Fin (Qtotal qs / inject_Z (Z.of_nat period))
              | None => NaN
              end)
      (seq 0 (length xs)).

Fixpoint zip_with {A B C : Type} (f : A -> B -> C) (xs : list A) (ys : list B) : list C :=
  match xs, ys with
  | x :: xs', y :: ys' => f x y :: zip_with f xs' ys'
  | _, _ => []
  end.

(** [Series.ewm(span=span, adjust=False).mean()]: alpha = 2 / (span + 1),
    y_0 = x_0 and y_t = (1 - alpha) * y_(t-1) + alpha * x_t; pandas refuses a
    span below 1. *)
Definition ewm_alpha (span : Z) : Q := 2 / (inject_Z span + 1).

Fixpoint ewm_from (alpha prev : Q) (xs : list Q) : list Q :=
  match xs with
  | [] => []
  | x :: rest =>
      let y := (1 - alpha) * prev + alpha * x in
      y :: ewm_from alpha y rest
  end.

Definition ewm_mean (span : Z) (xs : list Q) : result (list Q) :=
  if (span <? 1)%Z then Raise ValueError
  else Ok match xs with
          | [] => []
          | x0 :: rest => x0 :: ewm_from (ewm_alpha span) x0 rest
          end.

(** [add_exponential_moving_averages]: the columns [EMA_<period>] added to the
    frame, in the order of [periods]. *)
Fixpoint add_exponential_moving_averages (close : list Q) (periods : list Z)
  : result (list (Z * list Q)) :=
  match periods with
  | [] => Ok []
  | period :: rest =>
      col <- ewm_mean period close ;;
      cols <- add_exponential_moving_averages close rest ;;
      Ok ((period, col) :: cols)
  end.

Definition default_ema_periods : list Z := [12; 26]%Z.

(** The two rolling means of [add_rsi]. *)
Definition rsi_gain (close : list Q) (period : nat) : list fval :=
  rolling_mean period (where_ fgt0 (Fin 0) (diff close)).

Definition rsi_loss (close : list Q) (period : nat) : list fval :=
  rolling_mean period (map fneg (where_ flt0 (Fin 0) (diff close))).

(** One cell of [100 - (100 / (1 + rs))]. *)
Definition rsi_cell (rs : fval) : fval :=
  fsub (Fin 100) (fdiv (Fin 100) (fadd (Fin 1) rs)).

(** [add_rsi]: the column [RSI]. *)
Definition add_rsi (close : list Q) (period : nat) : list fval :=
  let gain := rsi_gain close period in
  let loss := rsi_loss close period in
  let rs := zip_with fdiv gain loss in
  map rsi_cell rs.

End TechnicalIndicators.

(** Two lists of numbers agree row by row up to [tol]. *)
Definition close_to (tol : Q) (xs ys : list Q) : Prop :=
  Forall2 (fun x y => Qabs (x - y) <= tol) xs ys.

(** The recursion of the specification for an EMA column: it starts at the
    first close and moves towards each next close by the fraction [alpha]. *)
Definition ema_recursion (alpha : Q) (close ema : list Q) : Prop :=
  length ema = length close /\
  nth_error ema 0 = nth_error close 0 /\
  forall t y x,
    nth_error ema t = Some y -> nth_error close (S t) = Some x ->
    exists y', nth_error ema (S t) = Some y' /\ y' == y + alpha * (x - y).

(* ------------------------------------------------------------------ *)
(** ** Python's view of a JSON value                                    *)
(* ------------------------------------------------------------------ *)

(** [d.get(k)] on the members of a dict: [None] when the key is absent. *)
Fixpoint assoc (k : string) (members : list (string * json)) : json :=
  match members with
  | [] => JNull
  | (k', v) :: rest => if String.eqb k k' then v else assoc k rest
  end.

(** [x.get(k)]: only a dict has the method. *)
Definition get (x : json) (k : string) : result json :=
  match x with
  | JObj members => Ok (assoc k members)
  | _ => Raise AttributeError
  end.

Definition truthy (x : json) : bool :=
  match x with
  | JNull => false
  | JBool b => b
  | JNum q => negb (Qeqb q 0)
  | JStr s => negb (String.eqb s "")
  | JArr items => match items with [] => false | _ => true end
  | JObj members => match members with [] => false | _ => true end
  end.

(** [a or b]. *)
Definition py_or (a b : json) : json := if truthy a then a else b.

(** [float(x)]: [ValueError] on text that is no number, [TypeError] on
    [None], a list or a dict. *)
Definition py_float (py : PyLib) (x : json) : result Q :=
  match x with
  | JNum q => Ok q
  | JBool b => Ok (if b then 1 else 0)
  | JStr s => match str_float py s with
              | Some q => Ok q
              | None => Raise ValueError
              end
  | _ => Raise TypeError
  end.

(** [try: v = float(x or 0) except (TypeError, ValueError): v = fallback];
    [float] raises nothing else. *)
Definition float_or_else {A : Type} (py : PyLib) (x : json) (some : Q -> A) (fallback : A) : A :=
  match py_float py (py_or x (JNum 0)) with
  | Ok q => some q
  | Raise _ => fallback
  end.

(** [x in (None, "0")]. *)
Definition none_or_zero_code (x : json) : bool :=
  match x with
  | JNull => true
  | JStr s => String.eqb s "0"
  | _ => false
  end.

(** [x == s] for a string [s]. *)
Definition is_str (x : json) (s : string) : bool :=
  match x with
  | JStr t => String.eqb t s
  | _ => false
  end.

(** [str.upper()] on ASCII text. *)
Definition upper_ascii (c : ascii) : ascii :=
  let n := nat_of_ascii c in
  if ((97 <=? n) && (n <=? 122))%nat then ascii_of_nat (n - 32) else c.

Fixpoint upper (s : string) : string :=
  match s with
  | EmptyString => EmptyString
  | String c rest => String (upper_ascii c) (upper rest)
  end.

(* ------------------------------------------------------------------ *)
(** ** kis_broker.py: orders and balance                                *)
(* ------------------------------------------------------------------ *)

Module KISBroker.

(** The transaction ids of [KISConfig]; the keys and the account number only
    travel in the request. *)
Record KISConfig : Type := {
  tr_id_order_cash_buy : string;
  tr_id_order_cash_sell : string;
  tr_id_inquire_balance : string
}.

(** What the network does with one request: the token or the request raises,
    or a response arrives with its status, its text and, when the text is
    JSON, the parsed document. *)
Inductive http_outcome : Type :=
| HttpRaise (e : exn)
| HttpResponse (status_code : Z) (text : string) (parsed : option json).

(** The tail shared by [place_cash_order] and [get_balance]. *)
Definition checked_response (http : http_outcome) : result json :=
  match http with
  | HttpRaise e => Raise e
  | HttpResponse status_code text parsed =>
      let js := match parsed with
                | Some j => j
                | None => JObj [("raw"%string, JStr text)]
                end in
      if negb (status_code =? 200)%Z then Raise RuntimeError
      else
        rt_cd <- get js "rt_cd" ;;
        if negb (none_or_zero_code rt_cd) then Raise RuntimeError else Ok js
  end.

Definition place_cash_order (cfg : KISConfig) (http : http_outcome)
    (side stock_code : string) (quantity : Z) : result json :=
  if negb (String.eqb side "BUY" || String.eqb side "SELL") then Raise ValueError
  else if (quantity <=? 0)%Z then Raise ValueError
  else
    let tr_id := if String.eqb side "BUY" then tr_id_order_cash_buy cfg
                 else tr_id_order_cash_sell cfg in
    if String.eqb tr_id "" then Raise ValueError
    else checked_response http.

Definition buy_market (cfg : KISConfig) (http : http_outcome)
    (stock_code : string) (quantity : Z) : result json :=
  place_cash_order cfg http "BUY" stock_code quantity.

Definition sell_market (cfg : KISConfig) (http : http_outcome)
    (stock_code : string) (quantity : Z) : result json :=
  place_cash_order cfg http "SELL" stock_code quantity.

Definition get_balance (cfg : KISConfig) (http : http_outcome) : result json :=
  if String.eqb (tr_id_inquire_balance cfg) "" then Raise ValueError
  else checked_response http.

End KISBroker.

(* ------------------------------------------------------------------ *)
(** ** trading_api.py: the risk gate and the audited order              *)
(* ------------------------------------------------------------------ *)

Module TradingApi.
Import Database KISBroker.

(** [DEFAULT_MAX_POSITION_SHARES], [DEFAULT_MAX_WEIGHT_PCT] and
    [DEFAULT_MAX_DAILY_BUY_AMOUNT], read from the environment at import. *)
Record RiskDefaults : Type := {
  DEFAULT_MAX_POSITION_SHARES : Z;
  DEFAULT_MAX_WEIGHT_PCT : Q;
  DEFAULT_MAX_DAILY_BUY_AMOUNT : Q
}.

(** The defaults when the environment sets none of the three. *)
Definition unset_env_defaults : RiskDefaults := {|
  DEFAULT_MAX_POSITION_SHARES := 10;
  DEFAULT_MAX_WEIGHT_PCT := 1 # 2;
  DEFAULT_MAX_DAILY_BUY_AMOUNT := 0
|}.

(** Everything outside the process that one request meets: the database,
    the clock, the broker and what its two endpoints answer, and whether the
    commit of the audit row goes through. *)
Record World : Type := {
  db : Db;
  now : Z;
  defaults : RiskDefaults;
  broker_config : KISConfig;
  balance_http : http_outcome;
  order_http : http_outcome;
  commit_ok : bool
}.

Record Limits : Type := {
  max_shares : Z;
  max_weight_pct : Q;
  max_daily_buy_amount : Q
}.

Definition setting_code (r : RiskSetting) : string :=
  match rs_stock_code r with
  | Some c => c
  | None => ""%string
  end.

(** The query of lines 124-130: the active rows for the instrument or "ALL",
    [ORDER BY stock_code DESC], the first one.  Text is ordered byte by
    byte; every PostgreSQL collation puts digits before letters as well. *)
Definition select_risk_setting (d : Db) (stock_code : string) : option RiskSetting :=
  let rows :=
    filter (fun r =>
              rs_active r &&
              match rs_stock_code r with
              | Some c => String.eqb c stock_code || String.eqb c "ALL"
              | None => false
              end)
           (risk_settings d) in
  hd_error (order_by (fun a b => String.leb (setting_code b) (setting_code a)) rows).

(** Lines 134-143. *)
Definition resolve_limits (dflt : RiskDefaults) (setting : option RiskSetting) : Limits :=
  let from {A : Type} (field : option A) (d : A) : A :=
    match field with Some v => v | None => d end in
  match setting with
  | Some s =>
      {| max_shares := from (rs_max_position_shares s) (DEFAULT_MAX_POSITION_SHARES dflt);
         max_weight_pct := from (rs_max_weight_pct s) (DEFAULT_MAX_WEIGHT_PCT dflt);
         max_daily_buy_amount :=
           from (rs_max_daily_buy_amount s) (DEFAULT_MAX_DAILY_BUY_AMOUNT dflt) |}
  | None =>
      {| max_shares := DEFAULT_MAX_POSITION_SHARES dflt;
         max_weight_pct := DEFAULT_MAX_WEIGHT_PCT dflt;
         max_daily_buy_amount := DEFAULT_MAX_DAILY_BUY_AMOUNT dflt |}
  end.

(** The variables the loop over the holdings maintains. *)
Record Scan : Type := {
  total_eval : Q;
  current_qty : Q;
  sellable : Q;
  current_eval : Q;
  current_price : option Q
}.

Definition scan_start : Scan := {|
  total_eval := 0; current_qty := 0; sellable := 0; current_eval := 0;
  current_price := None
|}.

(** One round of [for h in holdings]. *)
Definition scan_holding (py : PyLib) (stock_code : string) (acc : Scan) (h : json)
  : result Scan :=
  match h with
  | JObj members =>
      let ev := float_or_else py (assoc "evlu_amt" members) (fun q => q) 0 in
      let total := total_eval acc + ev in
      if is_str (assoc "pdno" members) stock_code then
        let qty := float_or_else py (assoc "hldg_qty" members) (fun q => q) 0 in
        Ok {| total_eval := total;
              current_qty := qty;
              sellable := float_or_else py (assoc "ord_psbl_qty" members) (fun q => q) qty;
              current_eval := ev;
              current_price := float_or_else py (assoc "prpr" members) Some None |}
      else
        Ok {| total_eval := total;
              current_qty := current_qty acc;
              sellable := sellable acc;
              current_eval := current_eval acc;
              current_price := current_price acc |}
  | _ => Raise AttributeError
  end.

Fixpoint scan_holdings (py : PyLib) (stock_code : string) (acc : Scan) (hs : list json)
  : result Scan :=
  match hs with
  | [] => Ok acc
  | h :: rest =>
      acc' <- scan_holding py stock_code acc h ;;
      scan_holdings py stock_code acc' rest
  end.

(** [raw.get("output1") or []], as the loop iterates it: a list gives its
    items; the keys of a dict and the characters of a string have no [get];
    a number is not iterable. *)
Definition holdings_of (raw : list (string * json)) : result (list json) :=
  match py_or (assoc "output1" raw) (JArr []) with
  | JArr items => Ok items
  | JObj _ | JStr _ => Raise AttributeError
  | _ => Raise TypeError
  end.

(** [summary_list[0] if summary_list else {}] on
    [raw.get("output2") or []]: the first item of a list, the first
    character of a string; a dict has no key 0 and a number no items. *)
Definition summary_of (raw : list (string * json)) : result json :=
  match py_or (assoc "output2" raw) (JArr []) with
  | JArr [] => Ok (JObj [])
  | JArr (x :: _) => Ok x
  | JStr EmptyString => Ok (JObj [])
  | JStr (String c _) => Ok (JStr (String c EmptyString))
  | JObj _ => Raise KeyError
  | _ => Raise TypeError
  end.

(** Lines 173-177. *)
Definition cash_of (py : PyLib) (summary : json) : result Q :=
  a <- get summary "dnca_tot_amt" ;;
  b <- get summary "nass_amt" ;;
  let cash_raw := py_or a (py_or b (JNum 0)) in
  Ok match py_float py cash_raw with
     | Ok q => q
     | Raise _ => 0
     end.

(** Midnight UTC of the day of [now]. *)
Definition today_start (t : Z) : Z := (t / 86400 * 86400)%Z.

(** The query of lines 190-198: today's BUY orders with status OK. *)
Definition todays_ok_buys (d : Db) (t : Z) : list TradeOrder :=
  filter (fun o =>
            (today_start t <=? order_created_at o)%Z &&
            String.eqb (order_side o) "BUY" &&
            String.eqb (order_status o) "OK")
         (trade_orders d).

(** [spent], summed in the order of the rows. *)
Definition spent_amount (orders : list TradeOrder) : Q :=
  fold_left (fun spent o => spent + or_zero (order_amount o)) orders 0.

(** [est_amount] of lines 206-207. *)
Definition estimated_amount (price : option Q) (quantity : Z) : Q :=
  let est_price := or_zero price in
  if Qltb 0 est_price then est_price * inject_Z quantity else 0.

(** Lines 183-219: the daily cap on purchases. *)
Definition check_daily_cap (w : World) (lim : Limits) (s : Scan) (quantity : Z)
  : result unit :=
  if negb (Qeqb (max_daily_buy_amount lim) 0) && Qltb 0 (max_daily_buy_amount lim) then
    let spent := spent_amount (todays_ok_buys (db w) (now w)) in
    let est_amount := estimated_amount (current_price s) quantity in
    if Qltb 0 est_amount && Qltb (max_daily_buy_amount lim + eps) (spent + est_amount) then
      let remain := py_max 0 (max_daily_buy_amount lim - spent) in
      Raise (HTTPException 400 (DailyBuyLimit remain (max_daily_buy_amount lim)))
    else Ok tt
  else Ok tt.

(** Lines 222-226: the cap on the number of shares. *)
Definition check_position_cap (stock_code : string) (lim : Limits) (s : Scan)
    (quantity : Z) : result unit :=
  if Qltb (inject_Z (max_shares lim)) (current_qty s + inject_Z quantity) then
    Raise (HTTPException 400 (PositionLimit stock_code (max_shares lim) (current_qty s)))
  else Ok tt.

(** Lines 229-246: the cap on the weight.  [weight] is only bound when the
    projected total is positive. *)
Definition check_weight_cap (stock_code : string) (lim : Limits) (s : Scan)
    (total_value : Q) (quantity : Z) : result unit :=
  if Qltb 0 total_value then
    let price :=
      if (match current_price s with
          | None => true
          | Some p => Qleb p 0
          end) && Qltb 0 (current_qty s)
      then Some (current_eval s / py_max (current_qty s) 1)
      else current_price s in
    match price with
    | Some p =>
        if negb (Qeqb p 0) && Qltb 0 p then
          let projected_stock_value := current_eval s + p * inject_Z quantity in
          let projected_total_value :=
            total_value - current_eval s + projected_stock_value in
          if Qltb 0 projected_total_value then
            let weight := projected_stock_value / projected_total_value in
            if Qltb (max_weight_pct lim + (1 # 1000000000)) weight then
              Raise (HTTPException 400 (WeightLimit stock_code weight (max_weight_pct lim)))
            else Ok tt
          else Raise UnboundLocalError
        else Ok tt
    | None => Ok tt
    end
  else Ok tt.

(** [raw = bal if isinstance(bal, dict) else {}]. *)
Definition raw_of (bal : json) : list (string * json) :=
  match bal with
  | JObj members => members
  | _ => []
  end.

(** Lines 114-118 and 145-179: the balance, the loop over the holdings and
    the cash; the result is the state of the loop and [total_value]. *)
Definition read_account (py : PyLib) (w : World) (stock_code : string)
  : result (Scan * Q) :=
  bal <- get_balance (broker_config w) (balance_http w) ;;
  let raw := raw_of bal in
  summary <- summary_of raw ;;
  hs <- holdings_of raw ;;
  s <- scan_holdings py stock_code scan_start hs ;;
  cash <- cash_of py summary ;;
  Ok (s, total_eval s + cash).

Definition check_risk_limit (py : PyLib) (w : World)
    (stock_code side : string) (quantity : Z) : result unit :=
  acct <- read_account py w stock_code ;;
  let s := fst acct in
  let total_value := snd acct in
  let lim := resolve_limits (defaults w) (select_risk_setting (db w) stock_code) in
  if String.eqb side "BUY" then
    _ <- check_daily_cap w lim s quantity ;;
    _ <- check_position_cap stock_code lim s quantity ;;
    check_weight_cap stock_code lim s total_value quantity
  else
    if Qltb (sellable s) (inject_Z quantity) then
      Raise (HTTPException 400 (SellLimit (sellable s)))
    else Ok tt.

(** Whether a holding of the instrument is listed in the balance. *)
Definition listed (hs : list json) (stock_code : string) : bool :=
  existsb (fun h => match h with
                    | JObj members => is_str (assoc "pdno" members) stock_code
                    | _ => false
                    end) hs.

(** The [TradeOrder] row of lines 1476-1496. *)
Definition audit_row (py : PyLib) (t : Z) (stock_code side_up : string)
    (quantity : Z) (res : json) : TradeOrder :=
  let output := match res with JObj members => assoc "output" members | _ => JNull end in
  let stock_name := match output with JObj o => assoc "PDNAME" o | _ => JNull end in
  let priced : option Q * option Q :=
    match output with
    | JObj o =>
        match py_float py (py_or (assoc "ORD_UNPR" o) (JNum 0)) with
        | Raise _ => (None, None)
        | Ok order_price =>
            match py_float py (py_or (assoc "ORD_QTY" o) (JNum (inject_Z quantity))) with
            | Raise _ => (Some order_price, None)
            | Ok qty => (Some order_price, Some (order_price * qty))
            end
        end
    | _ => (None, None)
    end in
  {| order_created_at := t;
     order_stock_code := stock_code;
     order_stock_name := stock_name;
     order_side := side_up;
     order_quantity := quantity;
     order_price := fst priced;
     order_amount := snd priced;
     order_status :=
       (match res with
        | JObj members => if none_or_zero_code (assoc "rt_cd" members) then "OK" else "ERROR"
        | _ => "ERROR"
        end)%string;
     order_raw_response := json_dumps py res |}.

(** [session.add(order); session.commit()], rolled back when it fails. *)
Definition add_order (w : World) (o : TradeOrder) : Db :=
  if commit_ok w then
    {| trade_orders := trade_orders (db w) ++ [o];
       account_snapshots := account_snapshots (db w);
       risk_settings := risk_settings (db w) |}
  else db w.

(** [_place_market_order_internal]: what the caller gets and the database
    afterwards. *)
Definition _place_market_order_internal (py : PyLib) (w : World)
    (stock_code side : string) (quantity : Z) : result json * Db :=
  let side_up := upper side in
  if negb (String.eqb side_up "BUY" || String.eqb side_up "SELL") then
    (Raise (HTTPException 400 BadSide), db w)
  else
    match check_risk_limit py w stock_code side_up quantity with
    | Raise e => (Raise e, db w)
    | Ok _ =>
        match (if String.eqb side_up "BUY"
               then buy_market (broker_config w) (order_http w) stock_code quantity
               else sell_market (broker_config w) (order_http w) stock_code quantity) with
        | Raise e => (Raise (HTTPException 500 (OrderFailed e)), db w)
        | Ok res =>
            (Ok res, add_order w (audit_row py (now w) stock_code side_up quantity res))
        end
    end.

(** The sum the specification describes for the daily cap: today's BUY
    orders with status OK for one instrument only. *)
Definition spent_on (stock_code : string) (d : Db) (t : Z) : Q :=
  spent_amount (filter (fun o => String.eqb (order_stock_code o) stock_code)
                       (todays_ok_buys d t)).

End TradingApi.

(* ------------------------------------------------------------------ *)
(** ** Concrete data for the examples                                   *)
(* ------------------------------------------------------------------ *)

(** [float] on the unsigned decimal integers the examples use. *)
Fixpoint digits_value (s : string) (acc : Z) : option Z :=
  match s with
  | EmptyString => Some acc
  | String c rest =>
      let n := Z.of_nat (nat_of_ascii c) in
      if ((48 <=? n) && (n <=? 57))%Z then digits_value rest (acc * 10 + (n - 48))%Z
      else None
  end.

Definition demo_py : PyLib := {|
  str_float := fun s =>
    match s with
    | EmptyString => None
    | _ => option_map inject_Z (digits_value s 0)
    end;
  json_dumps := fun _ => "<json>"%string
|}.

Module Demo.
Import Database KISBroker TradingApi.

Definition holding (code qty sell_qty eval price : string) : json :=
  JObj [("pdno", JStr code); ("hldg_qty", JStr qty); ("ord_psbl_qty", JStr sell_qty);
        ("evlu_amt", JStr eval); ("prpr", JStr price)]%string.

(** A balance answer: the holdings and a cash of 1,000,000. *)
Definition balance (holdings : list json) : http_outcome :=
  HttpResponse 200 ""
    (Some (JObj [("rt_cd", JStr "0"); ("output1", JArr holdings);
                 ("output2", JArr [JObj [("dnca_tot_amt", JStr "1000000")]])]%string)).

Definition setting (code : string) (shares : Z) (daily : Q) : RiskSetting := {|
  rs_stock_code := Some code;
  rs_max_position_shares := Some shares;
  rs_max_weight_pct := None;
  rs_max_daily_buy_amount := Some daily;
  rs_active := true
|}.

Definition filled_buy (t : Z) (code : string) (amount : Q) : TradeOrder := {|
  order_created_at := t; order_stock_code := code; order_stock_name := JNull;
  order_side := "BUY"; order_quantity := 1; order_price := None;
  order_amount := Some amount; order_status := "OK"; order_raw_response := ""
|}.

Definition config : KISConfig := {|
  tr_id_order_cash_buy := "VTTC0802U";
  tr_id_order_cash_sell := "VTTC0801U";
  tr_id_inquire_balance := "VTTC8434R"
|}.

Definition world (orders : list TradeOrder) (settings : list RiskSetting)
    (holdings : list json) (order_answer : http_outcome) : World := {|
  db := {| trade_orders := orders; account_snapshots := []; risk_settings := settings |};
  now := 1700000000;
  defaults := unset_env_defaults;
  broker_config := config;
  balance_http := balance holdings;
  order_http := order_answer;
  commit_ok := true
|}.

(** The broker accepts the order. *)
Definition accepted : http_outcome :=
  HttpResponse 200 ""
    (Some (JObj [("rt_cd", JStr "0");
                 ("output", JObj [("ORD_UNPR", JStr "0"); ("ORD_QTY", JStr "1")])]%string)).

(** The broker refuses the order with a business code. *)
Definition refused : http_outcome :=
  HttpResponse 200 ""
    (Some (JObj [("rt_cd", JStr "1"); ("msg1", JStr "insufficient funds")]%string)).

(** The answer is no JSON. *)
Definition garbled (status_code : Z) : http_outcome :=
  HttpResponse status_code "<html>" None.

End Demo.

(* ------------------------------------------------------------------ *)
(** ** Vocabulary of the statements and data of the examples            *)
(* ------------------------------------------------------------------ *)

Section Vocabulary.
Import TradingEnv Database Metrics TechnicalIndicators.

(** The price return of a step, as lines 107-110 compute it. *)
Definition price_return_of (pp cp : Q) : Q :=
  if Qleb pp 0 then 0 else (cp - pp) / pp.

(** What [__init__] guarantees: both arrays come from the same frame, and
    the assertion on the length of the data. *)
Definition well_formed (e : Env) : Prop :=
  length (prices e) = length (features e) /\
  (0 <= window_size (config e))%Z /\
  (window_size (config e) + 1 < n_steps e)%Z.

(** Four bars, one of them with a zero close, window 1, no costs. *)
Definition demo_env (cash : Q) : Env := {|
  config := {| window_size := 1; initial_cash := cash; max_position := 1;
               transaction_cost := 0; reward_scale := 1 |};
  prices := [100; 110; 0; 121];
  features := [[100]; [110]; [0]; [121]]
|}.

(** The same bars with the default cost rate. *)
Definition demo_env_costs : Env := {|
  config := {| window_size := 1; initial_cash := 1000000; max_position := 1;
               transaction_cost := 5 # 10000; reward_scale := 1 |};
  prices := [100; 110; 0; 121];
  features := [[100]; [110]; [0]; [121]]
|}.

(** A flat position on an equity of 1,000,000, with the cursor at [c]. *)
Definition demo_state (c : Z) : EnvState := {|
  _current_step := c; _position := 0; _cash := 1000000;
  _equity := 1000000; _equity_start := 1000000
|}.

(** The value and the pnl a snapshot contributes: an absent one counts 0. *)
Definition value_of (r : AccountSnapshot) : Q := or_zero (snap_total_value r).

Definition pnl_of (r : AccountSnapshot) : Q := or_zero (snap_total_pnl r).

(** Snapshots that carry the given total values and nothing else. *)
Definition snapshots_of (values : list Q) : list AccountSnapshot :=
  map (fun v => {| snap_created_at := 0; snap_total_value := Some v;
                   snap_cash := None; snap_total_buy_amount := None;
                   snap_total_eval_amount := None; snap_total_pnl := None |})
      values.

(** Fourteen closes that only rise. *)
Definition rising_closes : list Q :=
  [100; 101; 102; 103; 104; 105; 106; 107; 108; 109; 110; 111; 112; 113].

(** Fourteen closes that do not move. *)
Definition flat_closes : list Q :=
  [100; 100; 100; 100; 100; 100; 100; 100; 100; 100; 100; 100; 100; 100].

End Vocabulary.

Section Accounts.
Import Database KISBroker TradingApi.
Open Scope string_scope.

(** Eight shares of 005930 at 100 are held; 900 was spent today on another
    instrument, 000660; the wildcard row caps the day at 1000. *)
Definition capped_world : World :=
  Demo.world [Demo.filled_buy 1700000000 "000660" 900]
             [Demo.setting "ALL" 100 1000]
             [Demo.holding "005930" "8" "8" "800" "100"]
             Demo.accepted.

(** What the loop over those holdings leaves for 005930. *)
Definition capped_scan : Scan := {|
  total_eval := 800; current_qty := 8; sellable := 8; current_eval := 800;
  current_price := Some 100
|}.

(** Nothing of 035720 is held; 5000 was spent today against a cap of 1000. *)
Definition unpriced_world : World :=
  Demo.world [Demo.filled_buy 1700000000 "035720" 5000]
             [Demo.setting "ALL" 100 1000]
             [Demo.holding "005930" "8" "8" "800" "100"]
             Demo.accepted.

(** The balance document of that world. *)
Definition unpriced_balance : json :=
  JObj [("rt_cd", JStr "0");
        ("output1", JArr [Demo.holding "005930" "8" "8" "800" "100"]);
        ("output2", JArr [JObj [("dnca_tot_amt", JStr "1000000")]])].

(** One row for 005930 with a cap of 5 shares, the wildcard row with 100. *)
Definition two_settings : list RiskSetting :=
  [Demo.setting "005930" 5 0; Demo.setting "ALL" 100 0].

End Accounts.

(* ------------------------------------------------------------------ *)
(** ** technical_indicators.py: moving averages and MACD                *)
(* ------------------------------------------------------------------ *)

Module MovingAverages.
Import TechnicalIndicators.

(** [add_moving_averages]: the columns [MA_<period>], each the rolling mean
    of the closes. *)
Definition add_moving_averages (close : list Q) (periods : list nat)
  : list (nat * list fval) :=
  map (fun period => (period, rolling_mean period (map Fin close))) periods.

Definition default_ma_periods : list nat := [5; 10; 20; 60]%nat.

(** The three columns [add_macd] adds. *)
Record Macd : Type := {
  MACD : list Q;
  MACD_Signal : list Q;
  MACD_Hist : list Q
}.

(** [add_macd]: the difference of the fast and the slow EMA, its own EMA as
    the signal line, and their difference as the histogram. *)
Definition add_macd (close : list Q) (fast slow signal : Z) : result Macd :=
  ema_fast <- ewm_mean fast close ;;
  ema_slow <- ewm_mean slow close ;;
  let macd := zip_with Qminus ema_fast ema_slow in
  sig <- ewm_mean signal macd ;;
  Ok {| MACD := macd; MACD_Signal := sig; MACD_Hist := zip_with Qminus macd sig |}.

End MovingAverages.

Section BrokerVocabulary.
Open Scope string_scope.

(** The document the broker works on: the parsed answer, or the text
    wrapped as [{"raw": text}] when the answer is no JSON. *)
Definition answered (text : string) (parsed : option json) : json :=
  match parsed with
  | Some j => j
  | None => JObj [("raw", JStr text)]
  end.

End BrokerVocabulary.

Section SettingVocabulary.
Import Database.
Open Scope string_scope.

(** The rows the query of the gate considers. *)
Definition applicable (stock_code : string) (r : RiskSetting) : Prop :=
  rs_active r = true /\
  (rs_stock_code r = Some stock_code \/ rs_stock_code r = Some "ALL").

End SettingVocabulary.

Section IndicatorVocabulary.
Import TechnicalIndicators.

(** A cell that is finite and not negative, as are the cells from which the
    rolling gain and the rolling loss are averaged. *)
Definition nonneg_cell (c : fval) : Prop := exists q, c = Fin q /\ 0 <= q.

End IndicatorVocabulary.

Section MetricsVocabulary.
Import Database Metrics.

(** A series that never falls from one value to the next. *)
Fixpoint nondecreasing (xs : list Q) : Prop :=
  match xs with
  | [] => True
  | x :: rest =>
      match rest with
      | [] => True
      | y :: _ => x <= y
      end /\ nondecreasing rest
  end.

(** The rows the query of [get_performance] keeps. *)
Definition in_window (now days : Z) (r : AccountSnapshot) : bool :=
  (now - days * 86400 <=? snap_created_at r)%Z.

End MetricsVocabulary.


(* ------------------------------------------------------------------ *)
(** ** trading_api.py: history, account page, balance snapshot,
       risk settings and orders by amount                               *)
(* ------------------------------------------------------------------ *)

Module Endpoints.
Import Database KISBroker TradingApi Metrics.
Open Scope string_scope.

(** *** [get_order_history] *)

Record OrderHistoryItem : Type := {
  item_created_at : Z;
  item_stock_code : string;
  item_stock_name : json;
  item_side : string;
  item_quantity : Z;
  item_order_price : option Q;
  item_order_amount : option Q;
  item_status : string
}.

Definition to_item (r : TradeOrder) : OrderHistoryItem := {|
  item_created_at := order_created_at r;
  item_stock_code := order_stock_code r;
  item_stock_name := order_stock_name r;
  item_side := order_side r;
  item_quantity := order_quantity r;
  item_order_price := order_price r;
  item_order_amount := order_amount r;
  item_status := order_status r
|}.

(** [if stock_code: q = q.filter(...)]: an absent or empty code filters
    nothing. *)
Definition wanted (stock_code : option string) (r : TradeOrder) : bool :=
  match stock_code with
  | Some c => if String.eqb c "" then true else String.eqb (order_stock_code r) c
  | None => true
  end.

(** The rows of the statement before its [LIMIT]: the wanted rows, newest
    first. *)
Definition history_rows (d : Db) (stock_code : option string) : list TradeOrder :=
  order_by (fun a b => (order_created_at b <=? order_created_at a)%Z)
           (filter (wanted stock_code) (trade_orders d)).

(** [None] when the validation of [limit] ([ge=1, le=1000]) refuses the
    request before the function runs. *)
Definition get_order_history (d : Db) (stock_code : option string) (limit : Z)
  : option (list OrderHistoryItem) :=
  if ((1 <=? limit) && (limit <=? 1000))%Z then
    Some (map to_item (firstn (Z.to_nat limit) (history_rows d stock_code)))
  else None.

(** *** [api_account_info] and [get_account_balance] *)

(** How an endpoint that asks for the balance ends: it returns, it answers
    status 500 because [get_balance] raised, or an exception escapes it. *)
Inductive outcome (A : Type) : Type :=
| Returned (a : A)
| BalanceFailed (e : exn)
| Escaped (e : exn).

Arguments Returned {A} a.
Arguments BalanceFailed {A} e.
Arguments Escaped {A} e.

Definition after_balance {A : Type} (w : World) (k : json -> result A) : outcome A :=
  match get_balance (broker_config w) (balance_http w) with
  | Raise e => BalanceFailed e
  | Ok bal =>
      match k bal with
      | Ok a => Returned a
      | Raise e => Escaped e
      end
  end.

Record AccountInfo : Type := {
  info_balance : Q;
  info_cash : Q;
  info_holdings : list json
}.

(** The loop of [api_account_info]: a holding whose amount is no number is
    skipped. *)
Fixpoint info_scan (py : PyLib) (total_eval : Q) (hs : list json) : result Q :=
  match hs with
  | [] => Ok total_eval
  | JObj members :: rest =>
      info_scan py
        (float_or_else py (assoc "evlu_amt" members) (fun q => total_eval + q) total_eval)
        rest
  | _ :: _ => Raise AttributeError
  end.

Definition api_account_info (py : PyLib) (w : World) : outcome AccountInfo :=
  after_balance w (fun bal =>
    let raw := raw_of bal in
    summary <- summary_of raw ;;
    hs <- holdings_of raw ;;
    total_eval <- info_scan py 0 hs ;;
    cash <- cash_of py summary ;;
    Ok {| info_balance := total_eval + cash; info_cash := cash; info_holdings := hs |}).





(** *** [upsert_risk_setting] *)

Record RiskSettingIn : Type := {
  in_max_position_shares : option Z;
  in_max_weight_pct : option Q;
  in_max_daily_buy_amount : option Q;
  in_active : option bool
}.

Inductive upsert_outcome : Type :=
| Saved (r : RiskSetting) (d : Db)
| Unauthorized
| SaveFailed.

(** [expected_key and x_api_key != expected_key]. *)
Definition key_refused (expected_key x_api_key : option string) : bool :=
  match expected_key with
  | None => false
  | Some k =>
      negb (String.eqb k "") &&
      negb match x_api_key with
           | Some x => String.eqb x k
           | None => false
           end
  end.

Definition has_code (stock_code : string) (r : RiskSetting) : bool :=
  match rs_stock_code r with
  | Some c => String.eqb c stock_code
  | None => false
  end.

(** The fields of the body that are given replace those of the row. *)
Definition apply_body (body : RiskSettingIn) (r : RiskSetting) : RiskSetting :=
  let over {A : Type} (given : option A) (old : option A) : option A :=
    match given with Some v => Some v | None => old end in
  {| rs_stock_code := rs_stock_code r;
     rs_max_position_shares := over (in_max_position_shares body) (rs_max_position_shares r);
     rs_max_weight_pct := over (in_max_weight_pct body) (rs_max_weight_pct r);
     rs_max_daily_buy_amount := over (in_max_daily_buy_amount body) (rs_max_daily_buy_amount r);
     rs_active := match in_active body with Some b => b | None => rs_active r end |}.

(** A row that is not in the table yet: the limits are null and [active]
    takes the default of the column at the insert. *)
Definition new_setting (stock_code : string) : RiskSetting := {|
  rs_stock_code := Some stock_code;
  rs_max_position_shares := None;
  rs_max_weight_pct := None;
  rs_max_daily_buy_amount := None;
  rs_active := true
|}.

(** The first row with the code is updated where it stands; without one a
    row is inserted. *)
Fixpoint put_setting (stock_code : string) (body : RiskSettingIn)
    (rows : list RiskSetting) : list RiskSetting :=
  match rows with
  | [] => [apply_body body (new_setting stock_code)]
  | r :: rest =>
      if has_code stock_code r then apply_body body r :: rest
      else r :: put_setting stock_code body rest
  end.

Definition upsert_risk_setting (expected_key x_api_key : option string) (w : World)
    (stock_code : string) (body : RiskSettingIn) : upsert_outcome :=
  if key_refused expected_key x_api_key then Unauthorized
  else
    let setting :=
      match find (has_code stock_code) (risk_settings (db w)) with
      | Some r => r
      | None => new_setting stock_code
      end in
    if commit_ok w then
      Saved (apply_body body setting)
            {| trade_orders := trade_orders (db w);
               account_snapshots := account_snapshots (db w);
               risk_settings := put_setting stock_code body (risk_settings (db w)) |}
    else SaveFailed.

(** *** [_infer_quantity_from_amount] and the orders by amount *)

(** A row of [stock_prices], with the columns the function reads. *)
Record StockPrice : Type := {
  sp_stock_code : string;
  sp_datetime : Z;
  sp_close : Q
}.

(** The three refusals, all with status 400. *)
Inductive quantity_error : Type :=
| NoPriceData
| InvalidClose
| AmountTooSmall.

(** [int(x)] on a float: the fraction is cut off, towards zero. *)
Definition py_int (x : Q) : Z := Z.quot (Qnum x) (Zpos (Qden x)).

(** The newest price row of the instrument. *)
Definition latest_price (prices : list StockPrice) (stock_code : string)
  : option StockPrice :=
  hd_error (order_by (fun a b => (sp_datetime b <=? sp_datetime a)%Z)
                     (filter (fun r => String.eqb (sp_stock_code r) stock_code) prices)).

Definition _infer_quantity_from_amount (prices : list StockPrice)
    (stock_code : string) (amount : Q) : quantity_error + Z :=
  match latest_price prices stock_code with
  | None => inl NoPriceData
  | Some row =>
      if Qeqb (sp_close row) 0 || Qleb (sp_close row) 0 then inl InvalidClose
      else
        let qty := py_int (amount / sp_close row) in
        if (qty <=? 0)%Z then inl AmountTooSmall else inr qty
  end.

(** What [api_trade_buy] and [api_trade_sell] answer: the quantity and the
    broker's response. *)
Definition api_trade (side : string) (prices : list StockPrice) (py : PyLib) (w : World)
    (stock_code : string) (amount : Q)
  : (quantity_error + result (Z * json)) * Db :=
  match _infer_quantity_from_amount prices stock_code amount with
  | inl refusal => (inl refusal, db w)
  | inr qty =>
      let (res, d') := _place_market_order_internal py w stock_code side qty in
      (inr (r <- res ;; Ok (qty, r)), d')
  end.

Definition api_trade_buy := api_trade "BUY".
Definition api_trade_sell := api_trade "SELL".

End Endpoints.


Section EndpointData.
Import Database KISBroker TradingApi Endpoints.
Open Scope string_scope.

(** The account of [capped_world] with one snapshot taken 10,000 seconds
    before the request. *)
Definition watched_world : World := {|
  db := {| trade_orders := [];
           account_snapshots :=
             [{| snap_created_at := 1699990000; snap_total_value := Some 1000500;
                 snap_cash := Some 1000000; snap_total_buy_amount := Some 0;
                 snap_total_eval_amount := Some 500; snap_total_pnl := Some 0 |}];
           risk_settings := two_settings |};
  now := 1700000000;
  defaults := unset_env_defaults;
  broker_config := Demo.config;
  balance_http := Demo.balance [Demo.holding "005930" "8" "8" "800" "100"];
  order_http := Demo.accepted;
  commit_ok := true
|}.

(** The row an update of the settings starts from. *)
Definition row_before (stock_code : string) (rows : list RiskSetting) : RiskSetting :=
  match find (has_code stock_code) rows with
  | Some r => r
  | None => new_setting stock_code
  end.


(** Price rows of two instruments, not in the order of their time. *)
Definition demo_prices : list StockPrice :=
  [{| sp_stock_code := "005930"; sp_datetime := 1699900000; sp_close := 90 |};
   {| sp_stock_code := "005930"; sp_datetime := 1699990000; sp_close := 100 |};
   {| sp_stock_code := "000660"; sp_datetime := 1699995000; sp_close := 7 |};
   {| sp_stock_code := "005930"; sp_datetime := 1699950000; sp_close := 95 |}].

End EndpointData.


(* ================================================================== *)
(** * Properties                                                          *)
(* ================================================================== *)

Lemma Qltb_lt (a b : Q) : Qltb a b = true <-> a < b.
Proof. unfold Qltb, Qlt. apply Z.ltb_lt. Qed.

Lemma Qleb_le (a b : Q) : Qleb a b = true <-> a <= b.
Proof. unfold Qleb, Qle. apply Z.leb_le. Qed.

Lemma Qeqb_eq (a b : Q) : Qeqb a b = true <-> a == b.
Proof. unfold Qeqb, Qeq. apply Z.eqb_eq. Qed.

Lemma Qltb_ge (a b : Q) : Qltb a b = false <-> b <= a.
Proof.
  rewrite <- Bool.not_true_iff_false, Qltb_lt. split; intro H.
  - now apply Qnot_lt_le.
  - now apply Qle_not_lt.
Qed.

Lemma Qleb_gt (a b : Q) : Qleb a b = false <-> b < a.
Proof.
  rewrite <- Bool.not_true_iff_false, Qleb_le. split; intro H.
  - now apply Qnot_le_lt.
  - now apply Qlt_not_le.
Qed.

Lemma Qeqb_neq (a b : Q) : Qeqb a b = false <-> ~ a == b.
Proof. now rewrite <- Bool.not_true_iff_false, Qeqb_eq. Qed.

Lemma py_max_Qmax (a b : Q) : py_max a b == Qmax a b.
Proof.
  unfold py_max. destruct (Qltb a b) eqn:E.
  - apply Qltb_lt in E. symmetry. apply Q.max_r. now apply Qlt_le_weak.
  - apply Qltb_ge in E. symmetry. now apply Q.max_l.
Qed.

Lemma py_max_lower (a b : Q) : b <= py_max a b.
Proof. rewrite py_max_Qmax. apply Q.le_max_r. Qed.

Lemma py_div_ok (a b : Q) : ~ b == 0 -> py_div a b = Ok (a / b).
Proof. intro H. unfold py_div. apply Qeqb_neq in H. now rewrite H. Qed.

Lemma py_slice_length {A : Type} (xs : list A) (start stop : Z) :
  (0 <= start <= stop)%Z -> (stop <= Z.of_nat (length xs))%Z ->
  length (py_slice xs start stop) = Z.to_nat (stop - start).
Proof.
  intros H1 H2. unfold py_slice, slice_bound.
  replace (start <? 0)%Z with false by (symmetry; apply Z.ltb_ge; lia).
  replace (stop <? 0)%Z with false by (symmetry; apply Z.ltb_ge; lia).
  rewrite !Z.min_l by lia.
  rewrite length_firstn, length_skipn. lia.
Qed.

(* ------------------------------------------------------------------ *)
(** ** The simulation step                                              *)
(* ------------------------------------------------------------------ *)

Section StepFacts.
Import TradingEnv.

Variable e : Env.

Lemma eps_pos : 0 < eps.
Proof. reflexivity. Qed.

Lemma py_max_eps_nonzero (x : Q) : ~ py_max x eps == 0.
Proof.
  intro H. pose proof (py_max_lower x eps) as L. rewrite H in L.
  apply (Qlt_not_le _ _ eps_pos L).
Qed.

Lemma price_return_ok (pp cp : Q) :
  (if Qleb pp 0 then Ok 0 else py_div (cp - pp) pp) = Ok (price_return_of pp cp).
Proof.
  unfold price_return_of. destruct (Qleb pp 0) eqn:E; [reflexivity|].
  apply py_div_ok. apply Qleb_gt in E. intro H. rewrite H in E.
  now apply Qlt_irrefl in E.
Qed.

(** With both prices readable the arithmetic of [step] never raises, and the
    locals are the ones below. *)
Lemma step_locals_ok (st : EnvState) (a pp cp : Q) :
  py_index (prices e) (_current_step st - 1) = Ok pp ->
  py_index (prices e) (_current_step st) = Ok cp ->
  let p := np_clip a (- max_position (config e)) (max_position (config e)) in
  let E := _equity st in
  let tc := E * Qabs (p - _position st) * transaction_cost (config e) in
  let r := price_return_of pp cp in
  let g := E * p * r - tc in
  let E' := py_max (E + g) eps in
  let sr := (E' - E) / py_max E eps in
  step_locals e st a =
  Ok {| target_pos := p; prev_price := pp; curr_price := cp;
        pos_change := Qabs (p - _position st); trade_cost := tc;
        price_return := r; prev_equity := E; pnl := g; new_equity := E';
        step_return := sr; reward := reward_scale (config e) * sr |}.
Proof.
  intros Hp Hc. cbv zeta. unfold step_locals.
  rewrite Hp, Hc. cbn [bind]. rewrite price_return_ok. cbn [bind].
  rewrite py_div_ok by apply py_max_eps_nonzero. reflexivity.
Qed.

Lemma step_installs (st st' : EnvState) (a : Q) (r : StepResult) :
  step e st a = Ok (st', r) ->
  exists l, step_locals e st a = Ok l /\
            _equity st' = new_equity l /\ _position st' = target_pos l /\
            _current_step st' = (_current_step st + 1)%Z /\
            _equity_start st' = _equity_start st /\
            info_equity (info r) = new_equity l /\
            res_reward r = reward l.
Proof.
  unfold step. destruct (step_locals e st a) as [l|x]; cbn [bind]; [|discriminate].
  match goal with |- context [_get_observation e ?s] =>
    destruct (_get_observation e s) as [o|x] end; cbn [bind]; [|discriminate].
  intro H. injection H as <- <-. exists l. cbn. repeat split; reflexivity.
Qed.

(** C5.  In a step whose two prices are readable (the RUNNING state), with
    clipped target position p, previous position q, previous equity E (of
    any sign, so in particular E > 0) and price return r: the trade cost is
    E * |p - q| * transaction_cost, the pnl is E * p * r minus the trade
    cost, and the new equity is max(E + pnl, 1e-6); a completed [step]
    stores that equity and p. *)
Theorem C5_step_accounting (st : EnvState) (a pp cp : Q) :
  py_index (prices e) (_current_step st - 1) = Ok pp ->
  py_index (prices e) (_current_step st) = Ok cp ->
  let p := np_clip a (- max_position (config e)) (max_position (config e)) in
  let q := _position st in
  let E := _equity st in
  exists l,
    step_locals e st a = Ok l /\
    target_pos l = p /\
    price_return l = price_return_of pp cp /\
    trade_cost l = E * Qabs (p - q) * transaction_cost (config e) /\
    pnl l = E * p * price_return l - trade_cost l /\
    new_equity l == Qmax (E + pnl l) eps /\
    (forall st' r, step e st a = Ok (st', r) ->
                   _equity st' = new_equity l /\ _position st' = p).
Proof.
  intros Hp Hc p q E.
  pose proof (step_locals_ok st a pp cp Hp Hc) as Hl. cbv zeta in Hl.
  eexists. split; [exact Hl|]. cbn.
  repeat split; try reflexivity.
  - apply py_max_Qmax.
  - apply step_installs in H. destruct H as (l & Hl' & He & _).
    rewrite Hl in Hl'. injection Hl' as <-. exact He.
  - apply step_installs in H. destruct H as (l & Hl' & _ & Hq & _).
    rewrite Hl in Hl'. injection Hl' as <-. exact Hq.
Qed.

(** C9.  When the previous bar's price is <= 0 the price return is 0 and the
    quotient by that price is not computed: the step raises nothing and its
    pnl, equity and reward are the finite numbers obtained from a zero
    return. *)
Theorem C9_nonpositive_prev_price (st : EnvState) (a pp cp : Q) :
  py_index (prices e) (_current_step st - 1) = Ok pp ->
  py_index (prices e) (_current_step st) = Ok cp ->
  pp <= 0 ->
  exists l,
    step_locals e st a = Ok l /\
    price_return l = 0 /\
    pnl l == - trade_cost l /\
    new_equity l == Qmax (_equity st - trade_cost l) eps /\
    reward l == reward_scale (config e) *
                ((new_equity l - _equity st) / Qmax (_equity st) eps).
Proof.
  intros Hp Hc Hle.
  pose proof (step_locals_ok st a pp cp Hp Hc) as Hl. cbv zeta in Hl.
  assert (R : price_return_of pp cp = 0).
  { unfold price_return_of. apply Qleb_le in Hle. now rewrite Hle. }
  rewrite R in Hl.
  eexists. split; [exact Hl|]. cbn.
  split; [reflexivity|]. split; [ring|]. split.
  - rewrite py_max_Qmax. apply Q.max_compat; [ring|reflexivity].
  - rewrite (py_max_Qmax (_equity st) eps). reflexivity.
Qed.

End StepFacts.

(* ------------------------------------------------------------------ *)
(** ** Runs of the simulation                                           *)
(* ------------------------------------------------------------------ *)

Section RunFacts.
Import TradingEnv.

Lemma py_index_wrap_ok {A : Type} (xs : list A) (i : Z) :
  (- Z.of_nat (length xs) <= i < Z.of_nat (length xs))%Z ->
  exists x, py_index xs i = Ok x.
Proof.
  intros [H0 H1]. unfold py_index.
  destruct (i <? 0)%Z eqn:Ei.
  - apply Z.ltb_lt in Ei.
    replace (i + Z.of_nat (length xs) <? 0)%Z with false
      by (symmetry; apply Z.ltb_ge; lia).
    destruct (nth_error xs (Z.to_nat (i + Z.of_nat (length xs)))) eqn:E.
    + now exists a.
    + apply nth_error_None in E. lia.
  - rewrite Ei. apply Z.ltb_ge in Ei.
    destruct (nth_error xs (Z.to_nat i)) eqn:E.
    + now exists a.
    + apply nth_error_None in E. lia.
Qed.

Lemma observation_ok (e : Env) (st : EnvState) :
  (0 <= window_size (config e))%Z ->
  (window_size (config e) <= _current_step st <= n_steps e)%Z ->
  ~ _equity_start st == 0 ->
  exists o, _get_observation e st = Ok o.
Proof.
  intros Hw Hc Hs. unfold _get_observation.
  replace (window_size (config e) <? 0)%Z with false
    by (symmetry; apply Z.ltb_ge; lia).
  rewrite py_div_ok by exact Hs. cbn [bind].
  rewrite py_slice_length by (unfold n_steps in Hc; lia).
  replace (Z.of_nat (Z.to_nat (_current_step st -
             (_current_step st - window_size (config e)))) =?
           window_size (config e))%Z with true
    by (symmetry; apply Z.eqb_eq; lia).
  eexists. reflexivity.
Qed.

(** One step from a flat position to a flat position, free of costs, on an
    equity that is at least the floor. *)
Lemma flat_step_equity (e : Env) (st : EnvState) (a pp cp : Q) :
  transaction_cost (config e) == 0 ->
  np_clip a (- max_position (config e)) (max_position (config e)) == 0 ->
  eps <= _equity st ->
  py_max (_equity st +
          (_equity st *
           np_clip a (- max_position (config e)) (max_position (config e)) *
           price_return_of pp cp -
           _equity st *
           Qabs (np_clip a (- max_position (config e)) (max_position (config e))
                 - _position st) *
           transaction_cost (config e))) eps == _equity st.
Proof.
  intros Htc Hp He.
  rewrite py_max_Qmax.
  assert (G : _equity st +
          (_equity st *
           np_clip a (- max_position (config e)) (max_position (config e)) *
           price_return_of pp cp -
           _equity st *
           Qabs (np_clip a (- max_position (config e)) (max_position (config e))
                 - _position st) *
           transaction_cost (config e)) == _equity st).
  { rewrite Htc, Hp. ring. }
  rewrite G. now apply Q.max_l.
Qed.

Lemma flat_steps (e : Env) (actions : list Q) :
  well_formed e ->
  transaction_cost (config e) == 0 ->
  eps <= initial_cash (config e) ->
  Forall (fun a => np_clip a (- max_position (config e))
                     (max_position (config e)) == 0) actions ->
  forall st,
    _equity st == initial_cash (config e) ->
    _equity_start st = initial_cash (config e) ->
    (window_size (config e) <= _current_step st)%Z ->
    (_current_step st + Z.of_nat (length actions) <= n_steps e)%Z ->
    exists sts,
      steps e st actions = Ok sts /\
      length sts = length actions /\
      Forall (fun s => _equity s == initial_cash (config e) /\ _position s == 0) sts.
Proof.
  intros (Hlen & Hw & Hn) Htc Hcash Hall.
  induction Hall as [|a rest Ha Hrest IH]; intros st HE HS Hlo Hhi.
  - exists []. cbn. repeat split. constructor.
  - cbn [length] in Hhi.
    destruct (py_index_wrap_ok (prices e) (_current_step st - 1)) as [pp Hpp].
    { rewrite Hlen. fold (n_steps e). lia. }
    destruct (py_index_wrap_ok (prices e) (_current_step st)) as [cp Hcp].
    { rewrite Hlen. fold (n_steps e). lia. }
    pose proof (step_locals_ok e st a pp cp Hpp Hcp) as Hl. cbv zeta in Hl.
    assert (HE' : eps <= _equity st) by (now rewrite HE).
    pose proof (flat_step_equity e st a pp cp Htc Ha HE') as Hflat.
    cbn [steps]. unfold step. rewrite Hl. cbn [bind].
    match goal with |- context [_get_observation e ?s] =>
      destruct (observation_ok e s) as [o Ho] end.
    { exact Hw. }
    { cbn. lia. }
    { cbn. rewrite HS. intro H0. rewrite H0 in Hcash.
      exact (Qlt_not_le _ _ eps_pos Hcash). }
    cbn [target_pos new_equity] in Ho |- *. rewrite Ho. cbn [bind fst].
    match goal with |- context [steps e ?s rest] =>
      destruct (IH s) as (sts & Hsts & Hl1 & Hf) end.
    { cbn. rewrite Hflat. exact HE. }
    { cbn. exact HS. }
    { cbn. lia. }
    { cbn. lia. }
    rewrite Hsts. cbn [bind]. eexists. split; [reflexivity|]. split.
    + cbn. now rewrite Hl1.
    + constructor; [|exact Hf]. cbn. split.
      * rewrite Hflat. exact HE.
      * exact Ha.
Qed.

(** C8, as the code has it.  With transaction_cost = 0, an initial cash of
    at least the floor 1e-6 and every action clipped to position 0, a run of
    at most n_steps - window_size steps completes and the equity after every
    step equals the initial equity. *)
Theorem C8_flat_run_conserves_equity (e : Env) (actions : list Q) :
  well_formed e ->
  transaction_cost (config e) == 0 ->
  eps <= initial_cash (config e) ->
  Forall (fun a => np_clip a (- max_position (config e))
                     (max_position (config e)) == 0) actions ->
  (Z.of_nat (length actions) <= n_steps e - window_size (config e))%Z ->
  exists sts,
    run e actions = Ok sts /\
    length sts = length actions /\
    Forall (fun s => _equity s == initial_cash (config e) /\ _position s == 0) sts.
Proof.
  intros Hwf Htc Hcash Hall Hlen.
  pose proof Hwf as (Hl & Hw & Hn).
  unfold run, reset.
  match goal with |- context [_get_observation e ?s] =>
    destruct (observation_ok e s) as [o Ho] end.
  { exact Hw. }
  { cbn. lia. }
  { cbn. intro H0. rewrite H0 in Hcash. exact (Qlt_not_le _ _ eps_pos Hcash). }
  rewrite Ho. cbn [bind fst].
  apply flat_steps; try assumption; cbn; try reflexivity; lia.
Qed.

(** Action 0 is clipped to position 0 whenever max_position is not negative. *)
Lemma clip_zero (m : Q) : 0 <= m -> np_clip 0 (- m) m == 0.
Proof.
  intro Hm. unfold np_clip.
  rewrite (Q.max_l 0 (- m)) by lra.
  now apply Q.min_l.
Qed.

End RunFacts.

(* ------------------------------------------------------------------ *)
(** ** The simulation on concrete data                                  *)
(* ------------------------------------------------------------------ *)

Section EnvExamples.
Import TradingEnv.

Lemma C5_step_accounting_witness :
  exists l,
    step_locals demo_env_costs (demo_state 1) (1 # 2) = Ok l /\
    target_pos l = np_clip (1 # 2) (- (1)) 1 /\
    price_return l = price_return_of 100 110 /\
    trade_cost l =
      1000000 * Qabs (np_clip (1 # 2) (- (1)) 1 - 0) * (5 # 10000) /\
    pnl l = 1000000 * np_clip (1 # 2) (- (1)) 1 * price_return l - trade_cost l /\
    new_equity l == Qmax (1000000 + pnl l) eps /\
    (forall st' r, step demo_env_costs (demo_state 1) (1 # 2) = Ok (st', r) ->
                   _equity st' = new_equity l /\
                   _position st' = np_clip (1 # 2) (- (1)) 1).
Proof.
  apply (C5_step_accounting demo_env_costs (demo_state 1) (1 # 2) 100 110);
    reflexivity.
Defined.

(** The step of the witness, evaluated: half the equity long over a 10% rise,
    paying 0.05% on the half that is traded. *)
Example step_half_long :
  exists l, step_locals demo_env_costs (demo_state 1) (1 # 2) = Ok l /\
            trade_cost l == 250 /\ pnl l == 49750 /\ new_equity l == 1049750.
Proof. eexists. split; [reflexivity|]. cbn. repeat split; reflexivity. Qed.

Lemma C9_nonpositive_prev_price_witness :
  exists l,
    step_locals demo_env_costs (demo_state 3) 1 = Ok l /\
    price_return l = 0 /\
    pnl l == - trade_cost l /\
    new_equity l == Qmax (1000000 - trade_cost l) eps /\
    reward l == 1 * ((new_equity l - 1000000) / Qmax 1000000 eps).
Proof.
  apply (C9_nonpositive_prev_price demo_env_costs (demo_state 3) 1 0 121);
    [reflexivity | reflexivity | discriminate].
Defined.

Lemma C8_flat_run_conserves_equity_witness :
  exists sts,
    run (demo_env 1000000) [0; 0; 0] = Ok sts /\
    length sts = 3%nat /\
    Forall (fun s => _equity s == 1000000 /\ _position s == 0) sts.
Proof.
  apply (C8_flat_run_conserves_equity (demo_env 1000000) [0; 0; 0]).
  - repeat split; cbn; lia.
  - reflexivity.
  - discriminate.
  - repeat constructor.
  - cbn. lia.
Defined.

(** C8 as stated fails below the floor: with an initial cash of 1e-7, no
    costs and action 0, the position stays 0 and the first step lifts the
    equity to the floor 1e-6. *)
Lemma C8_tiny_initial_cash :
  let e := demo_env (1 # 10000000) in
  transaction_cost (config e) == 0 /\
  exists st, run e [0] = Ok [st] /\
             _position st == 0 /\
             _equity st == 1 # 1000000 /\
             ~ _equity st == initial_cash (config e).
Proof.
  cbv zeta. split; [reflexivity|].
  eexists. split; [reflexivity|]. cbn. repeat split; discriminate.
Qed.

End EnvExamples.

(* ------------------------------------------------------------------ *)
(** ** The performance summary                                          *)
(* ------------------------------------------------------------------ *)

Section MetricsFacts.
Import Database Metrics.

Lemma Qinv_nonpos (a : Q) : a <= 0 -> / a <= 0.
Proof.
  destruct a as [n d]. unfold Qle, Qinv. cbn.
  destruct n; cbn; intros H; lia.
Qed.

(** Below a peak that is not positive a drawdown term is never positive. *)
Lemma drawdown_term_nonpos (p v : Q) : p <= 0 -> v <= p -> (p - v) / p * 100 <= 0.
Proof.
  intros Hp Hv. unfold Qdiv.
  pose proof (Qinv_nonpos p Hp) as Hi.
  set (i := / p) in *. nra.
Qed.

Lemma fold_Qmax_proper (l : list Q) (m m' : Q) :
  m == m' -> fold_left Qmax l m == fold_left Qmax l m'.
Proof.
  revert m m'. induction l as [|x l IH]; intros m m' H; cbn; [exact H|].
  apply IH. now rewrite H.
Qed.

Lemma drawdown_loop_spec (values : list Q) :
  forall peak peak' m m',
    peak == peak' -> m == m' -> 0 <= m ->
    drawdown_loop values peak m == fold_left Qmax (drawdowns_from peak' values) m'.
Proof.
  induction values as [|v rest IH]; intros peak peak' m m' Hp Hm H0; cbn.
  - exact Hm.
  - assert (P : (if Qltb peak v then v else peak) == Qmax peak' v).
    { change (py_max peak v == Qmax peak' v). rewrite py_max_Qmax. now rewrite Hp. }
    set (p := if Qltb peak v then v else peak) in *.
    set (p' := Qmax peak' v) in *.
    assert (T : (p - v) / p * 100 == (p' - v) / p' * 100) by (now rewrite P).
    destruct (Qltb 0 p) eqn:Epos.
    + apply IH; [exact P| |].
      * change (py_max m ((p - v) / p * 100) == Qmax m' ((p' - v) / p' * 100)).
        rewrite py_max_Qmax. now rewrite T, Hm.
      * change (0 <= py_max m ((p - v) / p * 100)).
        rewrite py_max_Qmax. apply Q.max_le_iff. now left.
    + apply Qltb_ge in Epos. apply IH; [exact P| |exact H0].
      symmetry. rewrite <- Hm. apply Q.max_l.
      apply Qle_trans with 0; [|exact H0].
      apply drawdown_term_nonpos.
      * now rewrite <- P.
      * apply Q.le_max_r.
Qed.

Lemma first_drawdown_zero (v : Q) : (Qmax v v - v) / Qmax v v * 100 == 0.
Proof.
  assert (H : Qmax v v == v) by (apply Q.max_id).
  rewrite H. unfold Qdiv. ring.
Qed.

Lemma max_drawdown_spec (v0 : Q) (rest : list Q) :
  drawdown_loop (v0 :: rest) v0 0 == Qlist_max (drawdowns (v0 :: rest)).
Proof.
  rewrite (drawdown_loop_spec (v0 :: rest) v0 v0 0 0) by (reflexivity || discriminate).
  cbn. apply fold_Qmax_proper.
  rewrite first_drawdown_zero. reflexivity.
Qed.

Lemma fold_left_Qplus (xs : list Q) (a : Q) : fold_left Qplus xs a == a + Qsum xs.
Proof.
  revert a. induction xs as [|x xs IH]; intro a; unfold Qsum; cbn [fold_left fold_right].
  - ring.
  - rewrite IH. unfold Qsum. ring.
Qed.

Lemma nth_0_map {A B : Type} (f : A -> B) (x : A) (xs : list A) (d : B) :
  nth 0 (map f (x :: xs)) d = f x.
Proof. reflexivity. Qed.

Lemma last_cons {A : Type} (xs : list A) (x d : A) : last (x :: xs) d = last xs x.
Proof.
  revert x d. induction xs as [|y ys IH]; intros x d; [reflexivity|].
  change (last (x :: y :: ys) d) with (last (y :: ys) d).
  now rewrite !IH.
Qed.

Lemma last_map_default {A B : Type} (f : A -> B) (xs : list A) (x : A) :
  last (map f xs) (f x) = f (last xs x).
Proof.
  revert x. induction xs as [|y ys IH]; intro x; [reflexivity|].
  cbn [map]. rewrite !last_cons. apply IH.
Qed.

Lemma last_map {A B : Type} (f : A -> B) (xs : list A) (x : A) (d : B) :
  last (map f (x :: xs)) d = f (last xs x).
Proof. cbn [map]. rewrite last_cons. apply last_map_default. Qed.

(** C7.  For a non-empty ordered sequence of snapshots the summary has
    start_value = the first total_value, end_value = the last one,
    total_return_pct = (end - start) / start * 100, or 0 when start is 0 or
    absent, max_drawdown_pct = the largest drawdown from the running peak,
    pnl_sum = the sum of total_pnl.  For total_value = [100, 120, 90, 130]
    this is start 100, end 130, return 30, max drawdown 25.  For no snapshot
    the summary is all zeros. *)
Theorem C7_performance_summary :
  (forall (r : AccountSnapshot) (rows : list AccountSnapshot),
     let s := summary (summarize (r :: rows)) in
     let first := value_of r in
     let final := value_of (last rows r) in
     start_value s = first /\
     end_value s = final /\
     (first == 0 -> total_return_pct s = 0) /\
     (~ first == 0 -> total_return_pct s = (final - first) / first * 100) /\
     max_drawdown_pct s == Qlist_max (drawdowns (map value_of (r :: rows))) /\
     pnl_sum s == Qsum (map pnl_of (r :: rows))) /\
  (let s := summary (summarize (snapshots_of [100; 120; 90; 130])) in
   start_value s == 100 /\ end_value s == 130 /\
   total_return_pct s == 30 /\ max_drawdown_pct s == 25) /\
  summarize [] =
    {| summary := {| start_value := 0; end_value := 0; total_return_pct := 0;
                     max_drawdown_pct := 0; pnl_sum := 0 |};
       snapshots := [] |}.
Proof.
  split; [|split].
  - intros r rows s first final. subst s first final. unfold value_of.
    cbn [summarize summary start_value end_value total_return_pct
         max_drawdown_pct pnl_sum].
    rewrite !nth_0_map, !last_map.
    repeat split.
    + intro H. apply Qeqb_eq in H. now rewrite H.
    + intro H. apply Qeqb_neq in H. now rewrite H.
    + change (map (fun r0 => or_zero (snap_total_value r0)) (r :: rows))
        with (or_zero (snap_total_value r) ::
              map (fun r0 => or_zero (snap_total_value r0)) rows).
      apply max_drawdown_spec.
    + rewrite fold_left_Qplus, map_map. unfold pnl_of. cbn [to_snapshot total_pnl].
      ring.
  - cbv zeta. repeat split; vm_compute; reflexivity.
  - reflexivity.
Qed.

(** The query hands [summarize] the snapshots of the window, oldest first. *)
Example performance_window :
  let snap t v := {| snap_created_at := t; snap_total_value := Some v;
                     snap_cash := None; snap_total_buy_amount := None;
                     snap_total_eval_amount := None; snap_total_pnl := Some 1 |} in
  let db := {| trade_orders := [];
               account_snapshots := [snap 300%Z 90; snap 100%Z 100; snap 200%Z 120;
                                     snap 400%Z 130; snap (-90000)%Z 7];
               risk_settings := [] |} in
  let s := summary (get_performance db 500%Z 1%Z) in
  start_value s == 100 /\ end_value s == 130 /\ total_return_pct s == 30 /\
  max_drawdown_pct s == 25 /\ pnl_sum s == 4.
Proof. cbv zeta. repeat split; vm_compute; reflexivity. Qed.

End MetricsFacts.

(* ------------------------------------------------------------------ *)
(** ** The indicator engine: EMA                                        *)
(* ------------------------------------------------------------------ *)

Section EmaFacts.
Import TechnicalIndicators.

Lemma ewm_from_length (alpha : Q) (xs : list Q) :
  forall prev, length (ewm_from alpha prev xs) = length xs.
Proof. induction xs as [|x xs IH]; intro prev; cbn; [reflexivity|]. now rewrite IH. Qed.

Lemma ewm_from_step (alpha : Q) (rest : list Q) :
  forall prev c0 t y x,
    nth_error (prev :: ewm_from alpha prev rest) t = Some y ->
    nth_error (c0 :: rest) (S t) = Some x ->
    exists y', nth_error (prev :: ewm_from alpha prev rest) (S t) = Some y' /\
               y' == y + alpha * (x - y).
Proof.
  induction rest as [|x1 rest IH]; intros prev c0 t y x Hy Hx.
  - cbn in Hx. destruct t; discriminate.
  - destruct t as [|t].
    + cbn in Hy, Hx. injection Hy as <-. injection Hx as <-.
      eexists. split; [reflexivity|]. ring.
    + cbn [nth_error ewm_from] in Hy, Hx |- *.
      exact (IH _ x1 t y x Hy Hx).
Qed.

Lemma ewm_mean_recursion (span : Z) (close : list Q) :
  (1 <= span)%Z ->
  exists ema, ewm_mean span close = Ok ema /\
              ema_recursion (ewm_alpha span) close ema.
Proof.
  intro Hs. unfold ewm_mean.
  replace (span <? 1)%Z with false by (symmetry; apply Z.ltb_ge; lia).
  eexists. split; [reflexivity|].
  destruct close as [|x0 rest].
  - repeat split. intros t y x Hy. destruct t; discriminate.
  - repeat split.
    + cbn. now rewrite ewm_from_length.
    + intros t y x Hy Hx. exact (ewm_from_step _ rest x0 x0 t y x Hy Hx).
Qed.

(** C6, with the example as the code computes it.  Every EMA column of
    [add_exponential_moving_averages] obeys EMA_0 = close_0 and
    EMA_t = EMA_(t-1) + alpha * (close_t - EMA_(t-1)), alpha = 2 / (span + 1);
    for closes [100, 102, 101, 105] and span 2 the column is, to two
    decimals, [100, 101.33, 101.11, 103.70]. *)
Theorem C6_ema_recursion (close : list Q) (periods : list Z) :
  Forall (fun span => (1 <= span)%Z) periods ->
  (exists cols,
     add_exponential_moving_averages close periods = Ok cols /\
     map fst cols = periods /\
     Forall (fun col => ema_recursion (2 / (inject_Z (fst col) + 1)) close (snd col))
            cols) /\
  (exists ema,
     add_exponential_moving_averages [100; 102; 101; 105] [2%Z] = Ok [(2%Z, ema)] /\
     close_to (1 # 200) ema [100; 101.33; 101.11; 103.70]).
Proof.
  intro Hall. split.
  - induction Hall as [|span rest Hs Hrest (cols & Hc & Hf & Hr)].
    + exists []. repeat split. constructor.
    + destruct (ewm_mean_recursion span close Hs) as (ema & He & Hrec).
      exists ((span, ema) :: cols). cbn [add_exponential_moving_averages].
      rewrite He, Hc. cbn [bind]. repeat split.
      * cbn. now rewrite Hf.
      * constructor; [exact Hrec | exact Hr].
  - eexists. split; [reflexivity|].
    repeat constructor; discriminate.
Qed.

Lemma C6_ema_recursion_witness :
  (exists cols,
     add_exponential_moving_averages [100; 102; 101; 105] [12%Z; 26%Z] = Ok cols /\
     map fst cols = [12%Z; 26%Z] /\
     Forall (fun col => ema_recursion (2 / (inject_Z (fst col) + 1))
                          [100; 102; 101; 105] (snd col))
            cols) /\
  (exists ema,
     add_exponential_moving_averages [100; 102; 101; 105] [2%Z] = Ok [(2%Z, ema)] /\
     close_to (1 # 200) ema [100; 101.33; 101.11; 103.70]).
Proof.
  apply (C6_ema_recursion [100; 102; 101; 105] [12%Z; 26%Z]).
  repeat constructor; discriminate.
Defined.

(** The example of C6 as stated: the fourth value is 2800/27 = 103.7037...,
    not 103.04; the column is not within 0.5 of the stated one. *)
Lemma C6_fourth_value_off :
  exists ema,
    add_exponential_moving_averages [100; 102; 101; 105] [2%Z] = Ok [(2%Z, ema)] /\
    nth 3 ema 0 == 2800 # 27 /\
    ~ close_to (1 # 2) ema [100; 101.33; 101.11; 103.04].
Proof.
  eexists. split; [reflexivity|]. split; [vm_compute; reflexivity|].
  intro H.
  inversion H as [|? ? ? ? _ H1]; subst; clear H.
  inversion H1 as [|? ? ? ? _ H2]; subst; clear H1.
  inversion H2 as [|? ? ? ? _ H3]; subst; clear H2.
  inversion H3 as [|? ? ? ? H4 _]; subst; clear H3.
  vm_compute in H4. exact (H4 eq_refl).
Qed.

End EmaFacts.

(* ------------------------------------------------------------------ *)
(** ** The indicator engine: RSI                                        *)
(* ------------------------------------------------------------------ *)

Section RsiFacts.
Import TechnicalIndicators.

Lemma nth_error_zip_with {A B C : Type} (f : A -> B -> C) (xs : list A) (ys : list B) :
  forall i x y,
    nth_error xs i = Some x -> nth_error ys i = Some y ->
    nth_error (zip_with f xs ys) i = Some (f x y).
Proof.
  revert ys. induction xs as [|x0 xs IH]; intros ys i x y Hx Hy.
  - destruct i; discriminate.
  - destruct ys as [|y0 ys]; [destruct i; discriminate|].
    destruct i as [|i]; cbn in *.
    + now injection Hx as <-; injection Hy as <-.
    + now apply IH.
Qed.

Lemma add_rsi_cell (close : list Q) (period i : nat) (g l : fval) :
  nth_error (rsi_gain close period) i = Some g ->
  nth_error (rsi_loss close period) i = Some l ->
  nth_error (add_rsi close period) i = Some (rsi_cell (fdiv g l)).
Proof.
  intros Hg Hl. unfold add_rsi.
  rewrite nth_error_map, (nth_error_zip_with fdiv _ _ i g l Hg Hl). reflexivity.
Qed.

(** Whatever the sign of the infinity, an infinite RS gives exactly 100. *)
Lemma rsi_cell_inf (s : bool) : rsi_cell (Inf s) = Fin 100.
Proof. destruct s; reflexivity. Qed.

(** C4, as the code has it.  Where the rolling loss is zero, the RSI of
    [add_rsi] is the ordinary number 100 when the rolling gain is positive
    (RS is infinite), and NaN when the gain is zero as well (RS is 0/0). *)
Theorem C4_zero_loss_rsi (close : list Q) (period i : nat) (g l : Q) :
  nth_error (rsi_gain close period) i = Some (Fin g) ->
  nth_error (rsi_loss close period) i = Some (Fin l) ->
  l == 0 ->
  (0 < g -> nth_error (add_rsi close period) i = Some (Fin 100)) /\
  (g == 0 -> nth_error (add_rsi close period) i = Some NaN).
Proof.
  intros Hg Hl Hz.
  rewrite (add_rsi_cell close period i _ _ Hg Hl).
  apply Qeqb_eq in Hz. cbn [fdiv]. rewrite Hz.
  split; intro H.
  - assert (N : Qeqb g 0 = false).
    { apply Qeqb_neq. intro E. rewrite E in H. now apply Qlt_irrefl in H. }
    rewrite N. now rewrite rsi_cell_inf.
  - apply Qeqb_eq in H. now rewrite H.
Qed.

Lemma diff_from_length (xs : list Q) : forall prev, length (diff_from prev xs) = length xs.
Proof. induction xs as [|x xs IH]; intro prev; cbn; [reflexivity|]. now rewrite IH. Qed.

Lemma diff_length (xs : list Q) : length (diff xs) = length xs.
Proof. destruct xs; cbn; [reflexivity|]. now rewrite diff_from_length. Qed.

Lemma window_at_map {A B : Type} (h : A -> B) (period : nat) (xs : list A) (i : nat) :
  window_at period (map h xs) i = map h (window_at period xs i).
Proof. unfold window_at. now rewrite skipn_map, firstn_map. Qed.

Lemma finite_values_const (c : Q) {A : Type} (w : list A) :
  finite_values (map (fun _ => Fin c) w) = Some (map (fun _ => c) w).
Proof. induction w as [|x w IH]; cbn; [reflexivity|]. now rewrite IH. Qed.

Lemma Qtotal_zeros {A : Type} (w : list A) : Qtotal (map (fun _ => - 0) w) == 0.
Proof. induction w as [|x w IH]; cbn; [reflexivity|]. rewrite IH. reflexivity. Qed.

(** A window in which no close falls has a rolling loss of zero: the rows of
    [period] consecutive close diffs that are not negative (the first diff of
    the series, NaN, counts as 0). *)
Lemma rsi_loss_zero_window (close : list Q) (period i : nat) :
  (0 < period)%nat -> (period <= S i)%nat -> (i < length close)%nat ->
  Forall (fun d => flt0 d = false) (window_at period (diff close) i) ->
  exists l, nth_error (rsi_loss close period) i = Some (Fin l) /\ l == 0.
Proof.
  intros Hp Hi Hlen Hall. unfold rsi_loss, rolling_mean, where_.
  rewrite nth_error_map.
  rewrite nth_error_nth' with (d := 0%nat)
    by (rewrite length_seq, !length_map, diff_length; exact Hlen).
  rewrite seq_nth by (rewrite !length_map, diff_length; exact Hlen).
  cbn [option_map Nat.add].
  replace (S i <? period)%nat with false by (symmetry; apply Nat.ltb_ge; lia).
  replace (period =? 0)%nat with false by (symmetry; apply Nat.eqb_neq; lia).
  cbn [orb]. rewrite map_map, window_at_map.
  rewrite (map_ext_Forall _ (fun _ => Fin (- 0))).
  - rewrite finite_values_const. eexists. split; [reflexivity|].
    rewrite Qtotal_zeros. unfold Qdiv. ring.
  - eapply Forall_impl; [|exact Hall]. cbn. intros d Hd. now rewrite Hd.
Qed.

Lemma C4_zero_loss_rsi_witness :
  nth_error (add_rsi rising_closes 14) 13 = Some (Fin 100) /\
  nth_error (add_rsi flat_closes 14) 13 = Some NaN.
Proof.
  split.
  - refine (proj1 (C4_zero_loss_rsi rising_closes 14 13 _ _ _ _ _) _);
      [vm_compute; reflexivity | vm_compute; reflexivity
       | vm_compute; reflexivity | vm_compute; reflexivity].
  - refine (proj2 (C4_zero_loss_rsi flat_closes 14 13 _ _ _ _ _) _);
      [vm_compute; reflexivity | vm_compute; reflexivity
       | vm_compute; reflexivity | vm_compute; reflexivity].
Defined.

(** C4 as stated fails on a rising series: the rolling loss of the first full
    window is zero and the RSI there is the plain number 100, the value the
    claim excludes. *)
Lemma C4_rising_window_is_100 :
  (exists l, nth_error (rsi_loss rising_closes 14) 13 = Some (Fin l) /\ l == 0) /\
  (exists g, nth_error (rsi_gain rising_closes 14) 13 = Some (Fin g) /\ g == 13 # 14) /\
  nth_error (add_rsi rising_closes 14) 13 = Some (Fin 100).
Proof.
  split; [|split].
  - eexists. split; vm_compute; reflexivity.
  - eexists. split; vm_compute; reflexivity.
  - vm_compute. reflexivity.
Qed.

End RsiFacts.

(* ------------------------------------------------------------------ *)
(** ** The risk gate                                                    *)
(* ------------------------------------------------------------------ *)

Section GateFacts.
Import Database KISBroker TradingApi.
Open Scope string_scope.

Variable py : PyLib.

(** A BUY request on a readable account goes through the three caps in
    order. *)
Lemma check_risk_limit_buy (w : World) (stock_code : string) (quantity : Z)
    (s : Scan) (total_value : Q) :
  read_account py w stock_code = Ok (s, total_value) ->
  check_risk_limit py w stock_code "BUY" quantity =
  let lim := resolve_limits (defaults w) (select_risk_setting (db w) stock_code) in
  (_ <- check_daily_cap w lim s quantity ;;
   _ <- check_position_cap stock_code lim s quantity ;;
   check_weight_cap stock_code lim s total_value quantity).
Proof. intro H. unfold check_risk_limit. rewrite H. reflexivity. Qed.

(** The caps on shares and weight raise their own rejections only. *)
Lemma later_caps_not_daily (stock_code : string) (lim : Limits) (s : Scan)
    (total_value : Q) (quantity : Z) (remain cap : Q) :
  (_ <- check_position_cap stock_code lim s quantity ;;
   check_weight_cap stock_code lim s total_value quantity)
  <> Raise (HTTPException 400 (DailyBuyLimit remain cap)).
Proof.
  unfold check_position_cap, check_weight_cap.
  repeat match goal with
         | |- context [if ?b then _ else _] => destruct b
         | |- context [match ?x with Some _ => _ | None => _ end] => destruct x
         end; cbn [bind]; discriminate.
Qed.

(** What the daily cap decides. *)
Lemma check_daily_cap_spec (w : World) (lim : Limits) (s : Scan) (quantity : Z) :
  0 < max_daily_buy_amount lim ->
  let spent := spent_amount (todays_ok_buys (db w) (now w)) in
  let est := estimated_amount (current_price s) quantity in
  (0 < est /\ max_daily_buy_amount lim + eps < spent + est ->
   check_daily_cap w lim s quantity =
   Raise (HTTPException 400
            (DailyBuyLimit (py_max 0 (max_daily_buy_amount lim - spent))
                           (max_daily_buy_amount lim)))) /\
  (~ (0 < est /\ max_daily_buy_amount lim + eps < spent + est) ->
   check_daily_cap w lim s quantity = Ok tt).
Proof.
  intros Hcap spent est. unfold check_daily_cap. fold spent. fold est.
  assert (N : Qeqb (max_daily_buy_amount lim) 0 = false).
  { apply Qeqb_neq. intro E. rewrite E in Hcap. now apply Qlt_irrefl in Hcap. }
  apply Qltb_lt in Hcap. rewrite N, Hcap. cbn [negb andb].
  split.
  - intros [H1 H2]. apply Qltb_lt in H1, H2. now rewrite H1, H2.
  - intro H.
    destruct (Qltb 0 est) eqn:E1; [|reflexivity].
    destruct (Qltb (max_daily_buy_amount lim + eps) (spent + est)) eqn:E2; [|reflexivity].
    exfalso. apply H. split; now apply Qltb_lt.
Qed.

(** C2, as the code has it.  For a BUY request with a positive daily cap the
    amount held against the cap is today's OK-status BUY amount of all
    instruments plus the estimated new amount at the last known price of the
    requested one; the request is rejected by the daily cap exactly when
    that estimate is positive and the sum exceeds the cap by more than
    1e-6. *)
Theorem C2_daily_cap_all_instruments (w : World) (stock_code : string)
    (quantity : Z) (s : Scan) (total_value : Q) :
  read_account py w stock_code = Ok (s, total_value) ->
  let cap := max_daily_buy_amount
               (resolve_limits (defaults w) (select_risk_setting (db w) stock_code)) in
  0 < cap ->
  let spent := spent_amount (todays_ok_buys (db w) (now w)) in
  let est := estimated_amount (current_price s) quantity in
  (exists remain,
     check_risk_limit py w stock_code "BUY" quantity =
     Raise (HTTPException 400 (DailyBuyLimit remain cap)))
  <-> (0 < est /\ cap + eps < spent + est).
Proof.
  intros Hacct cap Hcap spent est.
  rewrite (check_risk_limit_buy w stock_code quantity s total_value Hacct). cbv zeta.
  destruct (check_daily_cap_spec w _ s quantity Hcap) as [Hyes Hno].
  fold cap spent est in Hyes, Hno.
  split.
  - intros [remain H].
    destruct (Qltb 0 est) eqn:E1; destruct (Qltb (cap + eps) (spent + est)) eqn:E2;
      try (split; now apply Qltb_lt); exfalso;
      rewrite Hno in H
        by (intros [A B]; apply Qltb_lt in A, B; congruence);
      cbn [bind] in H; exact (later_caps_not_daily _ _ _ _ _ _ _ H).
  - intro H. rewrite (Hyes H). cbn [bind]. eexists. reflexivity.
Qed.

(** The estimate is the last known price times the quantity when that price
    is positive, and 0 when there is no price or it is not positive. *)
Lemma estimated_amount_spec (price : option Q) (quantity : Z) :
  (forall p, price = Some p -> 0 < p ->
             estimated_amount price quantity == p * inject_Z quantity) /\
  (price = None -> estimated_amount price quantity = 0) /\
  (forall p, price = Some p -> p <= 0 -> estimated_amount price quantity = 0).
Proof.
  unfold estimated_amount, or_zero. repeat split.
  - intros p -> Hp.
    assert (N : Qeqb p 0 = false).
    { apply Qeqb_neq. intro E. rewrite E in Hp. now apply Qlt_irrefl in Hp. }
    rewrite N. apply Qltb_lt in Hp. rewrite Hp. reflexivity.
  - intros ->. reflexivity.
  - intros p -> Hp. destruct (Qeqb p 0); [reflexivity|].
    apply Qltb_ge in Hp. now rewrite Hp.
Qed.

(** A holding of another instrument leaves the price of the requested one
    untouched. *)
Lemma scan_holdings_unlisted (stock_code : string) (hs : list json) :
  listed hs stock_code = false ->
  forall acc s,
    scan_holdings py stock_code acc hs = Ok s ->
    current_price s = current_price acc.
Proof.
  induction hs as [|h hs IH]; intros Hl acc s Hs.
  - cbn in Hs. now injection Hs as <-.
  - cbn [listed existsb] in Hl. apply Bool.orb_false_iff in Hl. destruct Hl as [Hh Hrest].
    cbn [scan_holdings] in Hs.
    destruct h; cbn [scan_holding bind] in Hs; try discriminate.
    rewrite Hh in Hs. cbn [bind] in Hs.
    rewrite (IH Hrest _ _ Hs). reflexivity.
Qed.

Lemma read_account_inv (w : World) (stock_code : string) (s : Scan) (total_value : Q) :
  read_account py w stock_code = Ok (s, total_value) ->
  exists bal hs,
    get_balance (broker_config w) (balance_http w) = Ok bal /\
    holdings_of (raw_of bal) = Ok hs /\
    scan_holdings py stock_code scan_start hs = Ok s.
Proof.
  unfold read_account.
  destruct (get_balance _ _) as [bal|] eqn:Eb; cbn [bind]; [|discriminate].
  destruct (summary_of _) as [sm|]; cbn [bind]; [|discriminate].
  destruct (holdings_of _) as [hs|] eqn:Eh; cbn [bind]; [|discriminate].
  destruct (scan_holdings _ _ _ _) as [s'|] eqn:Es; cbn [bind]; [|discriminate].
  destruct (cash_of _ _) as [c|]; cbn [bind]; [|discriminate].
  intro H. injection H as <- _. exists bal, hs. repeat split; assumption.
Qed.

Lemma scan_holdings_raises (stock_code : string) (hs : list json) :
  forall acc x, scan_holdings py stock_code acc hs = Raise x -> x = AttributeError.
Proof.
  induction hs as [|h hs IH]; intros acc x Hx; cbn [scan_holdings] in Hx; [discriminate|].
  destruct (scan_holding py stock_code acc h) as [acc'|y] eqn:E; cbn [bind] in Hx.
  - exact (IH _ _ Hx).
  - injection Hx as <-. unfold scan_holding in E.
    destruct h; try (now injection E as <-).
    destruct (is_str _ _); discriminate.
Qed.

Lemma summary_of_raises (raw : list (string * json)) (e : exn) :
  summary_of raw = Raise e -> e = KeyError \/ e = TypeError.
Proof.
  unfold summary_of.
  destruct (py_or _ _) as [| | |t|items|]; try destruct t; try destruct items;
    intro H; try discriminate; injection H as <-; tauto.
Qed.

Lemma holdings_of_raises (raw : list (string * json)) (e : exn) :
  holdings_of raw = Raise e -> e = AttributeError \/ e = TypeError.
Proof.
  unfold holdings_of.
  destruct (py_or _ _); intro H; try discriminate; injection H as <-; tauto.
Qed.

Lemma cash_of_raises (summary : json) (e : exn) :
  cash_of py summary = Raise e -> e = AttributeError.
Proof.
  unfold cash_of, get.
  destruct summary; cbn [bind]; intro H; try discriminate; now injection H as <-.
Qed.

Lemma read_account_raises (w : World) (stock_code : string) (e : exn) (bal : json) :
  get_balance (broker_config w) (balance_http w) = Ok bal ->
  read_account py w stock_code = Raise e ->
  e = KeyError \/ e = TypeError \/ e = AttributeError.
Proof.
  intro Hb. unfold read_account. rewrite Hb. cbn [bind].
  destruct (summary_of _) as [sm|x] eqn:E1; cbn [bind].
  2:{ intro H. injection H as <-. apply summary_of_raises in E1. tauto. }
  destruct (holdings_of _) as [hs|x] eqn:E2; cbn [bind].
  2:{ intro H. injection H as <-. apply holdings_of_raises in E2. tauto. }
  destruct (scan_holdings _ _ _ _) as [s|x] eqn:E3; cbn [bind].
  2:{ intro H. injection H as <-. apply scan_holdings_raises in E3. tauto. }
  destruct (cash_of _ _) as [c|x] eqn:E4; cbn [bind]; [discriminate|].
  intro H. injection H as <-. apply cash_of_raises in E4. tauto.
Qed.

(** C10.  When the instrument is not among the holdings the gate has no
    price for it, the estimated amount of a BUY is 0, and the daily cap never
    rejects the request, whatever was spent today and whatever the cap. *)
Theorem C10_unpriced_buy_skips_daily_cap (w : World) (stock_code : string)
    (quantity : Z) (bal : json) (hs : list json) :
  get_balance (broker_config w) (balance_http w) = Ok bal ->
  holdings_of (raw_of bal) = Ok hs ->
  listed hs stock_code = false ->
  (forall s total_value,
     read_account py w stock_code = Ok (s, total_value) ->
     current_price s = None /\
     estimated_amount (current_price s) quantity = 0 /\
     check_daily_cap w (resolve_limits (defaults w)
                          (select_risk_setting (db w) stock_code)) s quantity = Ok tt) /\
  (forall remain cap,
     check_risk_limit py w stock_code "BUY" quantity
     <> Raise (HTTPException 400 (DailyBuyLimit remain cap))).
Proof.
  intros Hb Hh Hl.
  assert (P : forall s total_value,
             read_account py w stock_code = Ok (s, total_value) ->
             current_price s = None).
  { intros s total_value Hacct.
    destruct (read_account_inv w stock_code s total_value Hacct) as (bal' & hs' & Hb' & Hh' & Hs).
    rewrite Hb in Hb'. injection Hb' as <-. rewrite Hh in Hh'. injection Hh' as <-.
    now rewrite (scan_holdings_unlisted stock_code hs Hl _ _ Hs). }
  assert (D : forall s total_value,
             read_account py w stock_code = Ok (s, total_value) ->
             check_daily_cap w (resolve_limits (defaults w)
                                  (select_risk_setting (db w) stock_code)) s quantity = Ok tt).
  { intros s total_value Hacct. unfold check_daily_cap.
    rewrite (P s total_value Hacct). cbn [estimated_amount or_zero].
    change (Qltb 0 0) with false. cbn [andb].
    now destruct (negb _ && _). }
  split.
  - intros s total_value Hacct. split; [now apply (P s total_value)|]. split.
    + now rewrite (P s total_value Hacct).
    + now apply (D s total_value).
  - intros remain cap H.
    destruct (read_account py w stock_code) as [[s total_value]|e] eqn:Hacct.
    + rewrite (check_risk_limit_buy w stock_code quantity s total_value Hacct) in H.
      cbv zeta in H. rewrite (D s total_value eq_refl) in H. cbn [bind] in H.
      exact (later_caps_not_daily _ _ _ _ _ _ _ H).
    + unfold check_risk_limit in H. rewrite Hacct in H. cbn [bind] in H.
      injection H as ->.
      destruct (read_account_raises w stock_code _ bal Hb Hacct) as [E|[E|E]]; discriminate.
Qed.

End GateFacts.

(* ------------------------------------------------------------------ *)
(** ** The risk gate on concrete accounts                               *)
(* ------------------------------------------------------------------ *)

Section GateExamples.
Import Database KISBroker TradingApi.
Open Scope string_scope.

Lemma C2_daily_cap_all_instruments_witness :
  (exists remain,
     check_risk_limit demo_py capped_world "005930" "BUY" 2 =
     Raise (HTTPException 400 (DailyBuyLimit remain 1000)))
  <-> (0 < estimated_amount (Some 100) 2 /\
       1000 + eps < spent_amount (todays_ok_buys (db capped_world) (now capped_world))
                    + estimated_amount (Some 100) 2).
Proof.
  refine (C2_daily_cap_all_instruments demo_py capped_world "005930" 2
            capped_scan 1000800 _ _).
  - vm_compute. reflexivity.
  - vm_compute. reflexivity.
Defined.

(** C2 as stated fails when another instrument was bought today: nothing was
    spent on 005930, the estimate of 200 is far below the cap of 1000, and
    the request is rejected because the 900 spent on 000660 count. *)
Lemma C2_other_instrument_counts :
  let w := capped_world in
  let cap := max_daily_buy_amount
               (resolve_limits (defaults w) (select_risk_setting (db w) "005930")) in
  cap == 1000 /\
  spent_on "005930" (db w) (now w) == 0 /\
  estimated_amount (Some 100) 2 == 200 /\
  ~ cap < spent_on "005930" (db w) (now w) + estimated_amount (Some 100) 2 /\
  check_risk_limit demo_py w "005930" "BUY" 2 =
  Raise (HTTPException 400 (DailyBuyLimit 100 1000)).
Proof.
  cbv zeta. repeat split; try (vm_compute; reflexivity).
  vm_compute. intro H. discriminate H.
Qed.

(** Repeating one BUY under a tight cap: the first two pass, and once their
    amounts are on record the third is rejected. *)
Example repeated_buys_hit_the_cap :
  let w n := Demo.world (repeat (Demo.filled_buy 1700000000 "005930" 200) n)
                        [Demo.setting "005930" 100 500]
                        [Demo.holding "005930" "0" "0" "0" "100"]
                        Demo.accepted in
  check_risk_limit demo_py (w 0%nat) "005930" "BUY" 2 = Ok tt /\
  check_risk_limit demo_py (w 1%nat) "005930" "BUY" 2 = Ok tt /\
  check_risk_limit demo_py (w 2%nat) "005930" "BUY" 2 =
  Raise (HTTPException 400 (DailyBuyLimit 100 500)).
Proof. cbv zeta. repeat split; vm_compute; reflexivity. Qed.

(** The example of the specification: a cap of 10 shares, 8 held, BUY 3. *)
Example position_cap_example :
  check_risk_limit demo_py
    (Demo.world [] [] [Demo.holding "005930" "8" "8" "800" "100"] Demo.accepted)
    "005930" "BUY" 3 =
  Raise (HTTPException 400 (PositionLimit "005930" 10 8)).
Proof. vm_compute. reflexivity. Qed.

Lemma C10_unpriced_buy_skips_daily_cap_witness :
  (forall s total_value,
     read_account demo_py unpriced_world "035720" = Ok (s, total_value) ->
     current_price s = None /\
     estimated_amount (current_price s) 3 = 0 /\
     check_daily_cap unpriced_world
       (resolve_limits (defaults unpriced_world)
          (select_risk_setting (db unpriced_world) "035720")) s 3 = Ok tt) /\
  (forall remain cap,
     check_risk_limit demo_py unpriced_world "035720" "BUY" 3
     <> Raise (HTTPException 400 (DailyBuyLimit remain cap))).
Proof.
  refine (C10_unpriced_buy_skips_daily_cap demo_py unpriced_world "035720" 3
            unpriced_balance [Demo.holding "005930" "8" "8" "800" "100"] _ _ _);
    reflexivity.
Defined.

(** In that world the request indeed passes the whole gate. *)
Example unpriced_buy_passes :
  check_risk_limit demo_py unpriced_world "035720" "BUY" 3 = Ok tt.
Proof. vm_compute. reflexivity. Qed.

End GateExamples.

(* ------------------------------------------------------------------ *)
(** ** Which risk setting applies                                       *)
(* ------------------------------------------------------------------ *)

Section SettingFacts.
Import Database KISBroker TradingApi.
Open Scope string_scope.

(** With no active row for the instrument or for "ALL" the process defaults
    apply. *)
Lemma no_setting_gives_defaults (d : Db) (dflt : RiskDefaults) (stock_code : string) :
  (forall r, In r (risk_settings d) -> rs_active r = true ->
             rs_stock_code r <> Some stock_code /\ rs_stock_code r <> Some "ALL") ->
  resolve_limits dflt (select_risk_setting d stock_code) =
  {| max_shares := DEFAULT_MAX_POSITION_SHARES dflt;
     max_weight_pct := DEFAULT_MAX_WEIGHT_PCT dflt;
     max_daily_buy_amount := DEFAULT_MAX_DAILY_BUY_AMOUNT dflt |}.
Proof.
  intro H. unfold select_risk_setting.
  replace (filter _ (risk_settings d)) with (@nil RiskSetting); [reflexivity|].
  symmetry. induction (risk_settings d) as [|r rs IH]; [reflexivity|].
  cbn [filter].
  assert (Hr : rs_active r &&
               match rs_stock_code r with
               | Some c => String.eqb c stock_code || String.eqb c "ALL"
               | None => false
               end = false).
  { destruct (rs_active r) eqn:Ea; [|reflexivity]. cbn [andb].
    destruct (H r (or_introl eq_refl) Ea) as [H1 H2].
    destruct (rs_stock_code r) as [c|]; [|reflexivity].
    apply Bool.orb_false_iff. split; apply String.eqb_neq; congruence. }
  rewrite Hr. apply IH. intros r' Hin. apply H. now right.
Qed.

(** C3 at a six-digit code.  Both an active row for 005930 and an active
    "ALL" row exist; the descending order puts "ALL" first, so the wildcard
    limits are applied: the cap is 100 shares, not 5, and a BUY of 10 shares
    passes the gate.  A code that sorts after "ALL" gets its own row. *)
Theorem C3_wildcard_row_shadows_instrument_row :
  let w := Demo.world [] two_settings [] Demo.accepted in
  select_risk_setting (db w) "005930" = Some (Demo.setting "ALL" 100 0) /\
  max_shares (resolve_limits (defaults w) (select_risk_setting (db w) "005930")) = 100%Z /\
  (forall py, check_risk_limit py w "005930" "BUY" 10 = Ok tt) /\
  select_risk_setting
    {| trade_orders := []; account_snapshots := [];
       risk_settings := [Demo.setting "TSLA" 5 0; Demo.setting "ALL" 100 0] |} "TSLA"
  = Some (Demo.setting "TSLA" 5 0).
Proof.
  cbv zeta. split; [reflexivity|]. split; [reflexivity|]. split; [|reflexivity].
  intro py. unfold check_risk_limit, read_account.
  cbn -[py_float Qltb Qeqb Qleb].
  destruct (py_float py (JStr "1000000")) as [c|]; cbn -[Qltb];
    change (check_position_cap "005930"
              {| max_shares := 100; max_weight_pct := 1 # 2; max_daily_buy_amount := 0 |}
              scan_start 10) with (@Ok unit tt);
    cbn [bind]; unfold check_weight_cap;
    match goal with |- context [Qltb 0 ?t] => destruct (Qltb 0 t) end; reflexivity.
Qed.

(** Had the row of the instrument been applied, the same request would have
    been rejected: with that row alone the cap is 5 shares. *)
Example instrument_row_alone_rejects :
  check_risk_limit demo_py
    (Demo.world [] [Demo.setting "005930" 5 0] [] Demo.accepted) "005930" "BUY" 10 =
  Raise (HTTPException 400 (PositionLimit "005930" 5 0)).
Proof. vm_compute. reflexivity. Qed.

End SettingFacts.

(* ------------------------------------------------------------------ *)
(** ** The audited order                                                *)
(* ------------------------------------------------------------------ *)

Section AuditFacts.
Import Database KISBroker TradingApi.
Open Scope string_scope.

Variable py : PyLib.

(** The broker hands back a response only when it is a dict whose [rt_cd] is
    absent or "0". *)
Lemma checked_response_ok (http : http_outcome) (js : json) :
  checked_response http = Ok js ->
  exists members, js = JObj members /\ none_or_zero_code (assoc "rt_cd" members) = true.
Proof.
  unfold checked_response. destruct http as [e|status_code text parsed]; [discriminate|].
  destruct (negb (status_code =? 200)%Z); [discriminate|].
  set (j := match parsed with Some j => j | None => _ end).
  destruct j as [| | | | |members]; cbn [get bind]; try discriminate.
  destruct (none_or_zero_code (assoc "rt_cd" members)) eqn:E; cbn [negb]; [|discriminate].
  intro H. injection H as <-. now exists members.
Qed.

Lemma place_cash_order_ok (cfg : KISConfig) (http : http_outcome)
    (side stock_code : string) (quantity : Z) (js : json) :
  place_cash_order cfg http side stock_code quantity = Ok js ->
  checked_response http = Ok js.
Proof.
  unfold place_cash_order.
  repeat match goal with |- context [if ?b then _ else _] => destruct b end;
    try discriminate; trivial.
Qed.

(** Whenever [_place_market_order_internal] returns the broker's response,
    the row it adds has status OK and carries [json.dumps] of that response;
    the row is in the database when the commit goes through. *)
Lemma returned_order_is_audited_ok (w : World) (stock_code side : string)
    (quantity : Z) (res : json) (d' : Db) :
  _place_market_order_internal py w stock_code side quantity = (Ok res, d') ->
  exists o,
    d' = add_order w o /\
    order_status o = "OK" /\
    order_raw_response o = json_dumps py res /\
    (commit_ok w = true -> trade_orders d' = (trade_orders (db w) ++ [o])%list).
Proof.
  unfold _place_market_order_internal.
  destruct (negb _); [discriminate|].
  destruct (check_risk_limit _ _ _ _ _); [|discriminate].
  match goal with |- context [if ?b then buy_market ?c ?h ?s ?q else _] =>
    destruct (if b then buy_market c h s q else sell_market c h s q) as [r|e] eqn:E
  end; [|discriminate].
  intro H. injection H as <- <-.
  assert (C : checked_response (order_http w) = Ok r).
  { unfold buy_market, sell_market in E.
    destruct (String.eqb (upper side) "BUY"); exact (place_cash_order_ok _ _ _ _ _ _ E). }
  destruct (checked_response_ok _ _ C) as (members & -> & Hrt).
  eexists. split; [reflexivity|]. cbn [audit_row order_status order_raw_response].
  rewrite Hrt. repeat split.
  intro Hc. unfold add_order. now rewrite Hc.
Qed.

(** Whenever it raises, the database is as before: no row is written. *)
Lemma raised_order_is_not_audited (w : World) (stock_code side : string)
    (quantity : Z) (e : exn) (d' : Db) :
  _place_market_order_internal py w stock_code side quantity = (Raise e, d') ->
  d' = db w.
Proof.
  unfold _place_market_order_internal.
  destruct (negb _); [now intro H; injection H as _ <-|].
  destruct (check_risk_limit _ _ _ _ _); [|now intro H; injection H as _ <-].
  match goal with |- context [if ?b then buy_market ?c ?h ?s ?q else _] =>
    destruct (if b then buy_market c h s q else sell_market c h s q) as [r|x]
  end; [discriminate|].
  now intro H; injection H as _ <-.
Qed.

(** After the gate has passed, a failing broker call surfaces as status 500
    and leaves no row. *)
Lemma broker_failure_leaves_no_row (w : World) (stock_code : string)
    (quantity : Z) (e : exn) :
  check_risk_limit py w stock_code "BUY" quantity = Ok tt ->
  buy_market (broker_config w) (order_http w) stock_code quantity = Raise e ->
  _place_market_order_internal py w stock_code "BUY" quantity =
  (Raise (HTTPException 500 (OrderFailed e)), db w).
Proof.
  intros Hg Hb. unfold _place_market_order_internal.
  change (upper "BUY") with "BUY". cbn [String.eqb Ascii.eqb Bool.eqb orb negb].
  now rewrite Hg, Hb.
Qed.

End AuditFacts.

Section AuditExamples.
Import Database KISBroker TradingApi.
Open Scope string_scope.

(** C1 at three failing broker outcomes, each after the gate has passed
    (nothing held, no setting, BUY of one share).  A non-zero business code
    and a transport failure raise status 500 and persist no OrderRecord; a
    response that is no JSON but has status 200 is returned as a success and
    persisted with status OK.  No attempt persists a row of status ERROR. *)
Theorem C1_broker_failure_is_not_audited :
  let attempt answer :=
    _place_market_order_internal demo_py (Demo.world [] [] [] answer) "005930" "buy" 1 in
  check_risk_limit demo_py (Demo.world [] [] [] Demo.refused) "005930" "BUY" 1 = Ok tt /\
  attempt Demo.refused =
    (Raise (HTTPException 500 (OrderFailed RuntimeError)),
     {| trade_orders := []; account_snapshots := []; risk_settings := [] |}) /\
  attempt (HttpRaise ConnectionError) =
    (Raise (HTTPException 500 (OrderFailed ConnectionError)),
     {| trade_orders := []; account_snapshots := []; risk_settings := [] |}) /\
  trade_orders (snd (attempt (Demo.garbled 500))) = [] /\
  map order_status (trade_orders (snd (attempt (Demo.garbled 200)))) = ["OK"].
Proof. cbv zeta. repeat split; vm_compute; reflexivity. Qed.

(** The accepted order: one row, status OK, the response as dumped. *)
Example accepted_order_is_audited :
  let w := Demo.world [] [] [] Demo.accepted in
  exists res o,
    _place_market_order_internal demo_py w "005930" "buy" 1 =
    (Ok res, {| trade_orders := [o]; account_snapshots := []; risk_settings := [] |}) /\
    order_status o = "OK" /\ order_side o = "BUY" /\
    order_raw_response o = json_dumps demo_py res.
Proof. cbv zeta. do 2 eexists. repeat split. Qed.

End AuditExamples.

(* ================================================================== *)
(** * Further properties of the code                                   *)
(* ================================================================== *)

(* ------------------------------------------------------------------ *)
(** ** The simulation: invariants of a run                              *)
(* ------------------------------------------------------------------ *)

Section EnvInvariants.
Import TradingEnv.

Lemma step_locals_inv (e : Env) (st : EnvState) (a : Q) (l : StepLocals) :
  step_locals e st a = Ok l ->
  exists pp cp,
    py_index (prices e) (_current_step st - 1) = Ok pp /\
    py_index (prices e) (_current_step st) = Ok cp /\
    target_pos l = np_clip a (- max_position (config e)) (max_position (config e)) /\
    new_equity l = py_max (_equity st + pnl l) eps /\
    step_return l = (new_equity l - _equity st) / py_max (_equity st) eps /\
    reward l = reward_scale (config e) * step_return l.
Proof.
  intro H.
  destruct (py_index (prices e) (_current_step st - 1)) as [pp|x] eqn:Hp.
  2:{ unfold step_locals in H. rewrite Hp in H. discriminate. }
  destruct (py_index (prices e) (_current_step st)) as [cp|x] eqn:Hc.
  2:{ unfold step_locals in H. rewrite Hp, Hc in H. discriminate. }
  pose proof (step_locals_ok e st a pp cp Hp Hc) as Hl. cbv zeta in Hl.
  rewrite Hl in H. injection H as <-. exists pp, cp. cbn. repeat split.
Qed.

Lemma np_clip_bounds (a m : Q) : 0 <= m -> - m <= np_clip a (- m) m <= m.
Proof.
  intro Hm. unfold np_clip. split.
  - apply Q.min_glb; [apply Q.le_max_r | lra].
  - apply Q.le_min_r.
Qed.

(** X1.  Whatever the actions and the prices, every state a completed run of
    steps passes through has an equity of at least the floor 1e-6, and a
    position within [-max_position, max_position] when max_position is not
    negative. *)
Theorem X1_equity_floor_and_position_bound (e : Env) (actions : list Q) :
  forall st sts,
    steps e st actions = Ok sts ->
    Forall (fun s => eps <= _equity s /\
                     (0 <= max_position (config e) ->
                      Qabs (_position s) <= max_position (config e))) sts.
Proof.
  induction actions as [|a rest IH]; intros st sts H; cbn [steps] in H.
  - injection H as <-. constructor.
  - destruct (step e st a) as [[st' r]|x] eqn:Hs; cbn [bind fst] in H; [|discriminate].
    destruct (steps e st' rest) as [sts'|x] eqn:Hr; cbn [bind] in H; [|discriminate].
    injection H as <-. constructor; [|exact (IH _ _ Hr)].
    destruct (step_installs e _ _ _ _ Hs) as (l & Hl & He & Hq & _).
    destruct (step_locals_inv e _ _ _ Hl) as (pp & cp & _ & _ & Ht & Hn & _).
    split.
    + rewrite He, Hn. apply py_max_lower.
    + intro Hm. rewrite Hq, Ht. apply Qabs_Qle_condition.
      now apply np_clip_bounds.
Qed.

Lemma X1_equity_floor_and_position_bound_witness :
  exists sts,
    steps demo_env_costs (demo_state 1) [5; - (7); 1 # 3] = Ok sts /\
    Forall (fun s => eps <= _equity s /\
                     (0 <= max_position (config demo_env_costs) ->
                      Qabs (_position s) <= max_position (config demo_env_costs))) sts.
Proof.
  eexists. split; [vm_compute; reflexivity|].
  apply (X1_equity_floor_and_position_bound demo_env_costs [5; - (7); 1 # 3] (demo_state 1)).
  vm_compute. reflexivity.
Defined.

(** A full long position over a bar that loses everything: the action 5 is
    clipped to 1 and the equity stops at the floor. *)
Example wiped_out_long :
  exists s, steps demo_env_costs (demo_state 2) [5] = Ok [s] /\
            _position s == 1 /\ _equity s == eps.
Proof.
  eexists. split; [vm_compute; reflexivity|]. split; vm_compute; reflexivity.
Qed.

Lemma py_index_raises {A : Type} (xs : list A) (i : Z) (x : exn) :
  py_index xs i = Raise x -> x = IndexError.
Proof.
  unfold py_index.
  destruct (_ <? 0)%Z; [now intro H; injection H as <-|].
  destruct (nth_error _ _); [discriminate|]. now intro H; injection H as <-.
Qed.

Lemma py_index_past_end {A : Type} (xs : list A) (i : Z) :
  (Z.of_nat (length xs) <= i)%Z -> py_index xs i = Raise IndexError.
Proof.
  intro H. unfold py_index.
  replace (i <? 0)%Z with false by (symmetry; apply Z.ltb_ge; lia).
  replace (i <? 0)%Z with false by (symmetry; apply Z.ltb_ge; lia).
  destruct (nth_error xs (Z.to_nat i)) eqn:E; [|reflexivity].
  assert (Z.to_nat i < length xs)%nat by (apply nth_error_Some; congruence). lia.
Qed.

(** A step with the cursor on a bar of the data completes. *)
Lemma step_in_range (e : Env) (st : EnvState) (a : Q) :
  well_formed e ->
  ~ _equity_start st == 0 ->
  (window_size (config e) <= _current_step st < n_steps e)%Z ->
  exists st' r, step e st a = Ok (st', r).
Proof.
  intros (Hlen & Hw & Hn) Hs Hc.
  destruct (py_index_wrap_ok (prices e) (_current_step st - 1)) as [pp Hpp].
  { rewrite Hlen. fold (n_steps e). lia. }
  destruct (py_index_wrap_ok (prices e) (_current_step st)) as [cp Hcp].
  { rewrite Hlen. fold (n_steps e). lia. }
  pose proof (step_locals_ok e st a pp cp Hpp Hcp) as Hl. cbv zeta in Hl.
  unfold step. rewrite Hl. cbn [bind].
  match goal with |- context [_get_observation e ?s] =>
    destruct (observation_ok e s) as [o Ho] end;
    [exact Hw | cbn; lia | exact Hs |].
  cbn [target_pos new_equity] in Ho |- *. rewrite Ho. cbn [bind].
  do 2 eexists. reflexivity.
Qed.

(** A step with the cursor behind the last bar raises [IndexError]. *)
Lemma step_past_end (e : Env) (st : EnvState) (a : Q) :
  (Z.of_nat (length (prices e)) <= _current_step st)%Z ->
  step e st a = Raise IndexError.
Proof.
  intro H. unfold step, step_locals.
  destruct (py_index (prices e) (_current_step st - 1)) as [pp|x] eqn:Hp; cbn [bind].
  - now rewrite (py_index_past_end _ _ H).
  - now rewrite (py_index_raises _ _ _ Hp).
Qed.

Lemma steps_until_the_end (e : Env) (actions : list Q) :
  well_formed e ->
  forall st,
    ~ _equity_start st == 0 ->
    (window_size (config e) <= _current_step st <= n_steps e)%Z ->
    ((_current_step st + Z.of_nat (length actions) <= n_steps e)%Z ->
     exists sts, steps e st actions = Ok sts /\ length sts = length actions) /\
    ((n_steps e < _current_step st + Z.of_nat (length actions))%Z ->
     steps e st actions = Raise IndexError).
Proof.
  intro Hwf. pose proof Hwf as (Hlen & Hw & Hn).
  induction actions as [|a rest IH]; intros st Hs Hc.
  - split; [now exists []|]. cbn [length]. lia.
  - cbn [length steps].
    destruct (Z.eq_dec (_current_step st) (n_steps e)) as [E|E].
    + split; [lia|]. intros _.
      rewrite step_past_end by (rewrite Hlen; fold (n_steps e); lia). reflexivity.
    + destruct (step_in_range e st a Hwf Hs) as (st' & r & Hst); [lia|].
      rewrite Hst. cbn [bind fst].
      destruct (step_installs e _ _ _ _ Hst) as (l & _ & _ & _ & Hcur & Hstart & _).
      destruct (IH st') as [Hin Hout].
      { now rewrite Hstart. }
      { rewrite Hcur. lia. }
      split; intro H.
      * destruct Hin as (sts & Hsts & Hl); [rewrite Hcur; lia|].
        rewrite Hsts. cbn [bind]. eexists. split; [reflexivity|]. cbn. now rewrite Hl.
      * rewrite Hout by (rewrite Hcur; lia). reflexivity.
Qed.

(** X2.  On data that passed the assertion of [__init__] and with an initial
    cash other than 0, an episode has room for exactly
    n_steps - window_size steps: a run of at most that many actions
    completes with one state per action, and a longer one raises
    [IndexError] when it steps behind the last bar. *)
Theorem X2_episode_length (e : Env) (actions : list Q) :
  well_formed e ->
  ~ initial_cash (config e) == 0 ->
  ((Z.of_nat (length actions) <= n_steps e - window_size (config e))%Z ->
   exists sts, run e actions = Ok sts /\ length sts = length actions) /\
  ((n_steps e - window_size (config e) < Z.of_nat (length actions))%Z ->
   run e actions = Raise IndexError).
Proof.
  intros Hwf Hcash. pose proof Hwf as (Hlen & Hw & Hn).
  unfold run, reset.
  match goal with |- context [_get_observation e ?s] =>
    destruct (observation_ok e s) as [o Ho] end;
    [exact Hw | cbn; lia | exact Hcash |].
  rewrite Ho. cbn [bind fst].
  match goal with |- context [steps e ?s actions] =>
    destruct (steps_until_the_end e actions Hwf s) as [Hin Hout] end;
    [exact Hcash | cbn; lia |].
  cbn [_current_step] in Hin, Hout.
  split; intro H; [apply Hin | apply Hout]; lia.
Qed.

Lemma X2_episode_length_witness :
  ((Z.of_nat (length [1; 0; - (1)]) <=
    n_steps demo_env_costs - window_size (config demo_env_costs))%Z ->
   exists sts, run demo_env_costs [1; 0; - (1)] = Ok sts /\
               length sts = length [1; 0; - (1)]) /\
  ((n_steps demo_env_costs - window_size (config demo_env_costs) <
    Z.of_nat (length [1; 0; - (1)]))%Z ->
   run demo_env_costs [1; 0; - (1)] = Raise IndexError).
Proof.
  apply (X2_episode_length demo_env_costs [1; 0; - (1)]).
  - repeat split; cbn; lia.
  - discriminate.
Defined.

(** Four bars and a window of one leave room for three steps, not four. *)
Example three_steps_then_index_error :
  (exists sts, run demo_env_costs [1; 0; - (1)] = Ok sts /\ length sts = 3%nat) /\
  run demo_env_costs [1; 0; - (1); 0] = Raise IndexError.
Proof.
  split.
  - eexists. split; [vm_compute; reflexivity | reflexivity].
  - vm_compute. reflexivity.
Qed.

Lemma In_firstn {A : Type} (n : nat) (xs : list A) (x : A) :
  In x (firstn n xs) -> In x xs.
Proof. intro H. rewrite <- (firstn_skipn n xs). apply in_or_app. now left. Qed.

Lemma In_skipn {A : Type} (n : nat) (xs : list A) (x : A) :
  In x (skipn n xs) -> In x xs.
Proof. intro H. rewrite <- (firstn_skipn n xs). apply in_or_app. now right. Qed.

(** X3.  [reset] puts the cursor at window_size with a flat position and the
    three money fields at initial_cash; with an initial cash of 0 it raises
    [ZeroDivisionError] (the cumulative return of the first observation
    divides by it), with any other initial cash it returns the state and an
    observation of window_size rows whose two last columns are 0. *)
Theorem X3_reset (e : Env) :
  well_formed e ->
  let c := initial_cash (config e) in
  let st0 := {| _current_step := window_size (config e); _position := 0;
                _cash := c; _equity := c; _equity_start := c |} in
  (c == 0 -> reset e = Raise ZeroDivisionError) /\
  (~ c == 0 ->
   exists o, reset e = Ok (st0, o) /\
             length o = Z.to_nat (window_size (config e)) /\
             Forall (fun row => exists feats x,
                       row = feats ++ [0; x] /\ x == 0 /\ In feats (features e)) o).
Proof.
  intros (Hlen & Hw & Hn) c st0. unfold reset, _get_observation.
  fold c. fold st0. cbn [_current_step _equity _equity_start _position st0].
  replace (window_size (config e) <? 0)%Z with false
    by (symmetry; apply Z.ltb_ge; lia).
  split; intro Hc.
  - unfold py_div. apply Qeqb_eq in Hc. now rewrite Hc.
  - rewrite py_div_ok by exact Hc. cbn [bind].
    assert (L : length (py_slice (features e)
                          (window_size (config e) - window_size (config e))
                          (window_size (config e))) =
                Z.to_nat (window_size (config e))).
    { rewrite py_slice_length by (unfold n_steps in Hn; lia). f_equal. lia. }
    rewrite L.
    replace (Z.of_nat (Z.to_nat (window_size (config e))) =? window_size (config e))%Z
      with true by (symmetry; apply Z.eqb_eq; lia).
    cbn [bind]. eexists. split; [reflexivity|]. split.
    + now rewrite length_map.
    + apply Forall_forall. intros row Hin.
      apply in_map_iff in Hin. destruct Hin as (feats & <- & Hf).
      exists feats, (c / c - 1). split; [reflexivity|]. split.
      * field. exact Hc.
      * unfold py_slice in Hf. now apply In_firstn, In_skipn in Hf.
Qed.

Lemma X3_reset_witness :
  let c := initial_cash (config demo_env_costs) in
  let st0 := {| _current_step := window_size (config demo_env_costs); _position := 0;
                _cash := c; _equity := c; _equity_start := c |} in
  (c == 0 -> reset demo_env_costs = Raise ZeroDivisionError) /\
  (~ c == 0 ->
   exists o, reset demo_env_costs = Ok (st0, o) /\
             length o = Z.to_nat (window_size (config demo_env_costs)) /\
             Forall (fun row => exists feats x,
                       row = feats ++ [0; x] /\ x == 0 /\
                       In feats (features demo_env_costs)) o).
Proof.
  apply (X3_reset demo_env_costs). repeat split; cbn; lia.
Defined.

(** An empty account cannot be reset. *)
Example reset_without_cash : reset (demo_env 0) = Raise ZeroDivisionError.
Proof. reflexivity. Qed.

(** X4.  An observation that [_get_observation] returns has window_size
    rows; each is a feature row of the data followed by the position and the
    cumulative return equity / equity_start - 1, so on features of width k
    every row has width k + 2. *)
Theorem X4_observation_shape (e : Env) (st : EnvState) (o : list (list Q)) :
  _get_observation e st = Ok o ->
  length o = Z.to_nat (window_size (config e)) /\
  Forall (fun row => exists feats,
            In feats (features e) /\
            row = feats ++ [_position st; _equity st / _equity_start st - 1]) o /\
  (forall k, Forall (fun feats => length feats = k) (features e) ->
             Forall (fun row => length row = (k + 2)%nat) o).
Proof.
  unfold _get_observation.
  destruct (window_size (config e) <? 0)%Z; [discriminate|].
  unfold py_div. destruct (Qeqb (_equity_start st) 0); [discriminate|]. cbn [bind].
  destruct (Z.of_nat _ =? _)%Z eqn:E; [|discriminate].
  intro H. injection H as <-. apply Z.eqb_eq in E.
  assert (R : Forall (fun row => exists feats,
                        In feats (features e) /\
                        row = feats ++ [_position st; _equity st / _equity_start st - 1])
                (map (fun row => row ++ [_position st; _equity st / _equity_start st - 1])
                     (py_slice (features e)
                        (_current_step st - window_size (config e)) (_current_step st)))).
  { apply Forall_forall. intros row Hin. apply in_map_iff in Hin.
    destruct Hin as (feats & <- & Hf). exists feats. split; [|reflexivity].
    unfold py_slice in Hf. now apply In_firstn, In_skipn in Hf. }
  split; [rewrite length_map; lia|]. split; [exact R|].
  intros k Hk. eapply Forall_impl; [|exact R].
  intros row (feats & Hin & ->). rewrite length_app. cbn [length].
  rewrite Forall_forall in Hk. rewrite (Hk feats Hin). lia.
Qed.

Lemma X4_observation_shape_witness :
  length [[110; 1 # 2; 100000 # 1000000]] = Z.to_nat (window_size (config demo_env_costs)) /\
  Forall (fun row => exists feats,
            In feats (features demo_env_costs) /\
            row = feats ++ [1 # 2; 1100000 / 1000000 - 1]) [[110; 1 # 2; 100000 # 1000000]] /\
  (forall k, Forall (fun feats => length feats = k) (features demo_env_costs) ->
             Forall (fun row => length row = (k + 2)%nat) [[110; 1 # 2; 100000 # 1000000]]).
Proof.
  apply (X4_observation_shape demo_env_costs
           {| _current_step := 2; _position := 1 # 2; _cash := 1000000;
              _equity := 1100000; _equity_start := 1000000 |}).
  vm_compute. reflexivity.
Defined.



End EnvInvariants.

(* ------------------------------------------------------------------ *)
(** ** The indicator engine: bounds and causality of the EMA            *)
(* ------------------------------------------------------------------ *)

Section EmaInvariants.
Import TechnicalIndicators.

Lemma ewm_alpha_range (span : Z) : (1 <= span)%Z -> 0 < ewm_alpha span /\ ewm_alpha span <= 1.
Proof.
  intro H. unfold ewm_alpha.
  assert (S : 1 <= inject_Z span) by (unfold Qle; cbn; lia).
  split.
  - apply Qlt_shift_div_l; lra.
  - apply Qle_shift_div_r; lra.
Qed.

Lemma ewm_from_within (alpha lo hi : Q) (xs : list Q) :
  0 <= alpha -> alpha <= 1 ->
  Forall (fun x => lo <= x <= hi) xs ->
  forall prev, lo <= prev <= hi ->
    Forall (fun y => lo <= y <= hi) (ewm_from alpha prev xs).
Proof.
  intros H0 H1 Hall. induction Hall as [|x xs [Hx1 Hx2] _ IH]; intros prev [Hp1 Hp2].
  - constructor.
  - cbn [ewm_from]. constructor; [|apply IH]; split; nra.
Qed.

Lemma add_ema_columns (close : list Q) (periods : list Z) (cols : list (Z * list Q)) :
  add_exponential_moving_averages close periods = Ok cols ->
  Forall (fun col => ewm_mean (fst col) close = Ok (snd col)) cols /\
  map fst cols = periods.
Proof.
  revert cols. induction periods as [|p rest IH]; intros cols H; cbn in H.
  - injection H as <-. split; constructor.
  - destruct (ewm_mean p close) as [c|] eqn:E; cbn [bind] in H; [|discriminate].
    destruct (add_exponential_moving_averages close rest) as [cs|]; cbn [bind] in H;
      [|discriminate].
    injection H as <-. destruct (IH cs eq_refl) as [HF HM].
    split; [constructor; assumption | cbn; now rewrite HM].
Qed.

Lemma ewm_mean_inv (span : Z) (xs ema : list Q) :
  ewm_mean span xs = Ok ema ->
  (1 <= span)%Z /\
  ema = match xs with
        | [] => []
        | x0 :: rest => x0 :: ewm_from (ewm_alpha span) x0 rest
        end.
Proof.
  unfold ewm_mean. destruct (span <? 1)%Z eqn:E; [discriminate|].
  intro H. injection H as <-. apply Z.ltb_ge in E. now split.
Qed.

(** X6.  Every value of every EMA column lies between the smallest and the
    largest close: if all closes are within [lo, hi], so is each EMA. *)
Theorem X6_ema_within_closes (close : list Q) (periods : list Z)
    (cols : list (Z * list Q)) (lo hi : Q) :
  add_exponential_moving_averages close periods = Ok cols ->
  Forall (fun c => lo <= c <= hi) close ->
  Forall (fun col => Forall (fun y => lo <= y <= hi) (snd col)) cols.
Proof.
  intros H Hall. destruct (add_ema_columns _ _ _ H) as [HF _].
  eapply Forall_impl; [|exact HF]. intros [p ema] He. cbn [fst snd] in *.
  destruct (ewm_mean_inv _ _ _ He) as [Hs ->].
  destruct close as [|x0 rest]; [constructor|].
  inversion Hall as [|? ? Hx Hrest]; subst.
  destruct (ewm_alpha_range p Hs) as [A0 A1].
  constructor; [exact Hx|].
  apply ewm_from_within; try assumption. now apply Qlt_le_weak.
Qed.

Lemma X6_ema_within_closes_witness :
  exists cols,
    add_exponential_moving_averages [100; 102; 101; 105] [12%Z; 26%Z] = Ok cols /\
    Forall (fun col => Forall (fun y => 100 <= y <= 105) (snd col)) cols.
Proof.
  eexists. split; [vm_compute; reflexivity|].
  apply (X6_ema_within_closes [100; 102; 101; 105] [12%Z; 26%Z]).
  - vm_compute. reflexivity.
  - repeat constructor; discriminate.
Defined.

Lemma ewm_from_app (alpha : Q) (xs ys : list Q) :
  forall prev,
    firstn (length xs) (ewm_from alpha prev (xs ++ ys)) = ewm_from alpha prev xs.
Proof.
  induction xs as [|x xs IH]; intro prev; [reflexivity|].
  cbn. now rewrite IH.
Qed.

Lemma ewm_mean_prefix (span : Z) (xs ys ema : list Q) :
  ewm_mean span (xs ++ ys) = Ok ema ->
  ewm_mean span xs = Ok (firstn (length xs) ema).
Proof.
  unfold ewm_mean. destruct (span <? 1)%Z; [discriminate|].
  intro H. injection H as <-. f_equal.
  destruct xs as [|x0 rest]; [reflexivity|].
  cbn. now rewrite ewm_from_app.
Qed.

(** X7.  The EMA columns do not look ahead: the columns computed on a series
    extended by later bars agree, on the rows of the original series, with
    the columns computed on the original series. *)
Theorem X7_ema_no_lookahead (close later : list Q) (periods : list Z)
    (cols' : list (Z * list Q)) :
  add_exponential_moving_averages (close ++ later) periods = Ok cols' ->
  add_exponential_moving_averages close periods =
  Ok (map (fun col => (fst col, firstn (length close) (snd col))) cols').
Proof.
  revert cols'. induction periods as [|p rest IH]; intros cols' H; cbn in H |- *.
  - now injection H as <-.
  - destruct (ewm_mean p (close ++ later)) as [c|] eqn:E; cbn [bind] in H; [|discriminate].
    destruct (add_exponential_moving_averages (close ++ later) rest) as [cs|];
      cbn [bind] in H; [|discriminate].
    injection H as <-.
    rewrite (ewm_mean_prefix _ _ _ _ E), (IH cs eq_refl). reflexivity.
Qed.

Lemma X7_ema_no_lookahead_witness :
  exists cols',
    add_exponential_moving_averages ([100; 102] ++ [101; 105]) [2%Z] = Ok cols' /\
    add_exponential_moving_averages [100; 102] [2%Z] =
    Ok (map (fun col => (fst col, firstn (length [100; 102]) (snd col))) cols').
Proof.
  eexists. split; [vm_compute; reflexivity|].
  apply (X7_ema_no_lookahead [100; 102] [101; 105] [2%Z]).
  vm_compute. reflexivity.
Defined.

End EmaInvariants.

(* ------------------------------------------------------------------ *)
(** ** The indicator engine: rolling windows, RSI, moving averages      *)
(* ------------------------------------------------------------------ *)

Section RollingInvariants.
Import TechnicalIndicators MovingAverages.

Lemma rolling_mean_length (period : nat) (xs : list fval) :
  length (rolling_mean period xs) = length xs.
Proof. unfold rolling_mean. now rewrite length_map, length_seq. Qed.

Lemma rolling_mean_nth (period : nat) (xs : list fval) (i : nat) :
  (i < length xs)%nat ->
  nth_error (rolling_mean period xs) i =
  Some (if (S i <? period)%nat || (period =? 0)%nat then NaN
        else match finite_values (window_at period xs i) with
             | Some qs => Fin (Qtotal qs / inject_Z (Z.of_nat period))
             | None => NaN
             end).
Proof.
  intro H. unfold rolling_mean. rewrite nth_error_map.
  rewrite nth_error_nth' with (d := 0%nat) by (now rewrite length_seq).
  rewrite seq_nth by exact H. reflexivity.
Qed.

Lemma zip_with_length {A B C : Type} (f : A -> B -> C) (xs : list A) (ys : list B) :
  length xs = length ys -> length (zip_with f xs ys) = length xs.
Proof.
  revert ys. induction xs as [|x xs IH]; intros [|y ys] H; cbn in *; try congruence.
  now rewrite IH by congruence.
Qed.

Lemma add_rsi_length (close : list Q) (period : nat) :
  length (add_rsi close period) = length close.
Proof.
  unfold add_rsi, rsi_gain, rsi_loss, where_.
  rewrite length_map, zip_with_length; rewrite !rolling_mean_length, !length_map;
    now rewrite ?diff_length.
Qed.

Lemma gain_cells_nonneg (ds : list fval) :
  Forall (fun d => d = NaN \/ exists q, d = Fin q) ds ->
  Forall nonneg_cell (where_ fgt0 (Fin 0) ds).
Proof.
  intro H. unfold where_. apply Forall_map. eapply Forall_impl; [|exact H].
  intros d [->|[q ->]]; cbn.
  - exists 0. split; [reflexivity|discriminate].
  - destruct (Qltb 0 q) eqn:E.
    + exists q. split; [reflexivity|]. apply Qltb_lt in E. now apply Qlt_le_weak.
    + exists 0. split; [reflexivity|discriminate].
Qed.

Lemma loss_cells_nonneg (ds : list fval) :
  Forall (fun d => d = NaN \/ exists q, d = Fin q) ds ->
  Forall nonneg_cell (map fneg (where_ flt0 (Fin 0) ds)).
Proof.
  intro H. unfold where_. rewrite map_map. apply Forall_map.
  eapply Forall_impl; [|exact H].
  intros d [->|[q ->]]; cbn.
  - exists (- 0). split; [reflexivity|discriminate].
  - destruct (Qltb q 0) eqn:E; cbn.
    + exists (- q). split; [reflexivity|]. apply Qltb_lt in E. lra.
    + exists (- 0). split; [reflexivity|discriminate].
Qed.

Lemma diff_from_cells (xs : list Q) :
  forall prev, Forall (fun d => d = NaN \/ exists q, d = Fin q) (diff_from prev xs).
Proof.
  induction xs as [|x xs IH]; intro prev; cbn; constructor; [right; eauto | apply IH].
Qed.

Lemma diff_cells (xs : list Q) :
  Forall (fun d => d = NaN \/ exists q, d = Fin q) (diff xs).
Proof.
  destruct xs; cbn; constructor; [now left | apply diff_from_cells].
Qed.

Lemma Forall_window {A : Type} (P : A -> Prop) (period : nat) (xs : list A) (i : nat) :
  Forall P xs -> Forall P (window_at period xs i).
Proof.
  intro H. apply Forall_forall. intros x Hin. rewrite Forall_forall in H. apply H.
  unfold window_at in Hin. now apply In_firstn, In_skipn in Hin.
Qed.

Lemma finite_values_nonneg (w : list fval) :
  Forall nonneg_cell w ->
  exists qs, finite_values w = Some qs /\ Forall (fun q => 0 <= q) qs.
Proof.
  induction 1 as [|c w (q & -> & Hq) _ (qs & E & Hqs)].
  - exists []. split; [reflexivity|constructor].
  - exists (q :: qs). cbn. rewrite E. split; [reflexivity|now constructor].
Qed.

Lemma Qtotal_nonneg (qs : list Q) : Forall (fun q => 0 <= q) qs -> 0 <= Qtotal qs.
Proof.
  induction 1 as [|q qs Hq _ IH]; unfold Qtotal in *; cbn [fold_right];
    [discriminate|]. lra.
Qed.

(** A rolling mean over such cells is NaN or a finite number that is not
    negative. *)
Lemma rolling_mean_nonneg (period : nat) (xs : list fval) (c : fval) :
  Forall nonneg_cell xs ->
  In c (rolling_mean period xs) ->
  c = NaN \/ nonneg_cell c.
Proof.
  intros Hxs Hin. unfold rolling_mean in Hin. apply in_map_iff in Hin.
  destruct Hin as (i & <- & _).
  destruct ((S i <? period)%nat || (period =? 0)%nat) eqn:E; [now left|].
  apply Bool.orb_false_iff in E. destruct E as [_ E0]. apply Nat.eqb_neq in E0.
  destruct (finite_values_nonneg _ (Forall_window _ period xs i Hxs)) as (qs & -> & Hqs).
  right. eexists. split; [reflexivity|].
  apply Qle_shift_div_l; [unfold Qlt; cbn; lia|].
  pose proof (Qtotal_nonneg qs Hqs). lra.
Qed.

Lemma rsi_cell_range (g l : fval) :
  g = NaN \/ nonneg_cell g -> l = NaN \/ nonneg_cell l ->
  rsi_cell (fdiv g l) = NaN \/
  exists r, rsi_cell (fdiv g l) = Fin r /\ 0 <= r <= 100.
Proof.
  intros [->|(a & -> & Ha)] [->|(b & -> & Hb)]; try (now left).
  cbn [fdiv]. destruct (Qeqb b 0) eqn:Eb.
  - destruct (Qeqb a 0); [now left|]. right. exists 100.
    split; [now destruct (Qltb a 0)|]. split; discriminate.
  - right. apply Qeqb_neq in Eb.
    assert (Bpos : 0 < b) by (apply Qle_lt_or_eq in Hb; destruct Hb as [Hb|Hb]; [exact Hb|]; exfalso; apply Eb; now symmetry).
    assert (R : 0 <= a / b) by (apply Qle_shift_div_l; [exact Bpos|]; lra).
    unfold rsi_cell. cbn [fadd fdiv].
    assert (N : Qeqb (1 + a / b) 0 = false).
    { apply Qeqb_neq. intro E. lra. }
    rewrite N. cbn [fsub fneg fadd]. eexists. split; [reflexivity|].
    set (rs := a / b) in *.
    assert (D1 : 0 < 100 / (1 + rs)) by (apply Qlt_shift_div_l; lra).
    assert (D2 : 100 / (1 + rs) <= 100) by (apply Qle_shift_div_r; lra).
    split; lra.
Qed.

Lemma In_zip_with {A B C : Type} (f : A -> B -> C) (xs : list A) (ys : list B) (c : C) :
  In c (zip_with f xs ys) -> exists x y, In x xs /\ In y ys /\ c = f x y.
Proof.
  revert ys. induction xs as [|x xs IH]; intros [|y ys] H; cbn in H; try tauto.
  destruct H as [<-|H].
  - exists x, y. cbn. tauto.
  - destruct (IH ys H) as (x' & y' & Hx & Hy & ->). exists x', y'. cbn. tauto.
Qed.

(** X8.  The RSI column has one cell per close; during the warm-up (fewer
    than [period] rows so far) the cell is NaN; every cell is NaN or a
    number between 0 and 100, never an infinity and never out of range. *)
Theorem X8_rsi_range_and_warm_up (close : list Q) (period : nat) :
  length (add_rsi close period) = length close /\
  (forall i, (i < length close)%nat -> (S i < period)%nat ->
             nth_error (add_rsi close period) i = Some NaN) /\
  Forall (fun c => c = NaN \/ exists r, c = Fin r /\ 0 <= r <= 100)
         (add_rsi close period).
Proof.
  split; [apply add_rsi_length|]. split.
  - intros i Hi Hp.
    assert (G : nth_error (rsi_gain close period) i = Some NaN).
    { unfold rsi_gain. rewrite rolling_mean_nth
        by (unfold where_; now rewrite length_map, diff_length).
      apply Nat.ltb_lt in Hp. now rewrite Hp. }
    assert (L : nth_error (rsi_loss close period) i = Some NaN).
    { unfold rsi_loss. rewrite rolling_mean_nth
        by (unfold where_; now rewrite !length_map, diff_length).
      apply Nat.ltb_lt in Hp. now rewrite Hp. }
    now rewrite (add_rsi_cell close period i _ _ G L).
  - apply Forall_forall. intros c Hin. unfold add_rsi in Hin.
    apply in_map_iff in Hin. destruct Hin as (rs & <- & Hrs).
    apply In_zip_with in Hrs. destruct Hrs as (g & l & Hg & Hl & ->).
    apply rsi_cell_range.
    + eapply rolling_mean_nonneg; [|exact Hg]. apply gain_cells_nonneg, diff_cells.
    + eapply rolling_mean_nonneg; [|exact Hl]. apply loss_cells_nonneg, diff_cells.
Qed.

(** With the default period the first thirteen rows of the RSI are NaN and
    the fourteenth is defined. *)
Example rsi_first_rows :
  firstn 13 (add_rsi rising_closes 14) = repeat NaN 13 /\
  nth_error (add_rsi rising_closes 14) 13 = Some (Fin 100).
Proof. split; vm_compute; reflexivity. Qed.

Lemma firstn_seq0 (n m : nat) : (n <= m)%nat -> firstn n (seq 0 m) = seq 0 n.
Proof.
  intro H. replace m with (n + (m - n))%nat by lia.
  rewrite seq_app. rewrite firstn_app, length_seq.
  replace (n - n)%nat with 0%nat by lia.
  rewrite firstn_all2 by (rewrite length_seq; lia). cbn. now rewrite app_nil_r.
Qed.

Lemma window_at_app {A : Type} (period : nat) (xs ys : list A) (i : nat) :
  (period <= S i)%nat -> (i < length xs)%nat ->
  window_at period (xs ++ ys) i = window_at period xs i.
Proof.
  intros Hp Hi. unfold window_at. rewrite skipn_app.
  replace (S i - period - length xs)%nat with 0%nat by lia. cbn [skipn].
  rewrite firstn_app, length_skipn.
  replace (period - (length xs - (S i - period)))%nat with 0%nat by lia.
  cbn [firstn]. now rewrite app_nil_r.
Qed.

(** A rolling mean does not look ahead. *)
Lemma rolling_mean_prefix (period : nat) (xs ys : list fval) :
  firstn (length xs) (rolling_mean period (xs ++ ys)) = rolling_mean period xs.
Proof.
  unfold rolling_mean. rewrite firstn_map, length_app, firstn_seq0 by lia.
  apply map_ext_in. intros i Hi. apply in_seq in Hi.
  destruct (S i <? period)%nat eqn:E; [reflexivity|]. apply Nat.ltb_ge in E.
  cbn [orb]. destruct (period =? 0)%nat; [reflexivity|].
  rewrite window_at_app by lia. reflexivity.
Qed.

Lemma firstn_zip_with {A B C : Type} (f : A -> B -> C) (n : nat) (xs : list A) (ys : list B) :
  firstn n (zip_with f xs ys) = zip_with f (firstn n xs) (firstn n ys).
Proof.
  revert xs ys. induction n as [|n IH]; intros [|x xs] [|y ys]; cbn; try reflexivity.
  now rewrite IH.
Qed.

Lemma diff_from_app (xs ys : list Q) :
  forall prev, exists rest,
    diff_from prev (xs ++ ys) = diff_from prev xs ++ rest.
Proof.
  induction xs as [|x xs IH]; intro prev; cbn.
  - eexists. reflexivity.
  - destruct (IH x) as [rest ->]. eexists. reflexivity.
Qed.

Lemma diff_app (xs ys : list Q) : exists rest, diff (xs ++ ys) = diff xs ++ rest.
Proof.
  destruct xs as [|x xs]; cbn.
  - eexists. reflexivity.
  - destruct (diff_from_app xs ys x) as [rest ->]. eexists. reflexivity.
Qed.

(** X9.  The RSI does not look ahead: on a series extended by later bars the
    cells of the original rows are the cells computed on the original
    series. *)
Theorem X9_rsi_no_lookahead (close later : list Q) (period : nat) :
  firstn (length close) (add_rsi (close ++ later) period) = add_rsi close period.
Proof.
  unfold add_rsi, rsi_gain, rsi_loss, where_.
  destruct (diff_app close later) as [rest ->].
  rewrite firstn_map, firstn_zip_with, !map_app.
  set (f := fun x => if fgt0 x then x else Fin 0).
  set (g := fun x => if flt0 x then x else Fin 0).
  assert (L1 : length close = length (map f (diff close)))
    by (now rewrite length_map, diff_length).
  assert (L2 : length close = length (map fneg (map g (diff close))))
    by (now rewrite !length_map, diff_length).
  rewrite L1 at 1. rewrite rolling_mean_prefix.
  rewrite L2 at 1. rewrite rolling_mean_prefix. reflexivity.
Qed.

(** The cells of a moving average of closes within [lo, hi]. *)
Lemma Qtotal_within (lo hi : Q) (qs : list Q) :
  Forall (fun q => lo <= q <= hi) qs ->
  inject_Z (Z.of_nat (length qs)) * lo <= Qtotal qs <=
  inject_Z (Z.of_nat (length qs)) * hi.
Proof.
  induction 1 as [|q qs [H1 H2] _ IH]; unfold Qtotal in *; cbn [fold_right length].
  - change (inject_Z (Z.of_nat 0)) with 0. split; lra.
  - rewrite Nat2Z.inj_succ, <- Z.add_1_r, inject_Z_plus.
    change (inject_Z 1) with 1. split; lra.
Qed.

Lemma finite_values_Fin (qs : list Q) : finite_values (map Fin qs) = Some qs.
Proof. induction qs as [|q qs IH]; cbn; [reflexivity|]. now rewrite IH. Qed.

Lemma window_at_length {A : Type} (period : nat) (xs : list A) (i : nat) :
  (period <= S i)%nat -> (i < length xs)%nat ->
  length (window_at period xs i) = period.
Proof.
  intros Hp Hi. unfold window_at. rewrite length_firstn, length_skipn. lia.
Qed.

(** X10.  Each column of [add_moving_averages] has one cell per close; the
    cell is NaN while fewer than [period] rows are there, and from then on it
    is a number between the smallest and the largest close; and the column
    does not look ahead. *)
Theorem X10_moving_averages (close later : list Q) (periods : list nat) (lo hi : Q) :
  Forall (fun c => lo <= c <= hi) close ->
  Forall (fun col =>
            length (snd col) = length close /\
            forall i, (i < length close)%nat ->
              ((S i < fst col)%nat \/ fst col = 0%nat ->
               nth_error (snd col) i = Some NaN) /\
              ((0 < fst col <= S i)%nat ->
               exists m, nth_error (snd col) i = Some (Fin m) /\ lo <= m <= hi))
         (add_moving_averages close periods) /\
  add_moving_averages close periods =
  map (fun col => (fst col, firstn (length close) (snd col)))
      (add_moving_averages (close ++ later) periods).
Proof.
  intro Hall. split.
  - unfold add_moving_averages. apply Forall_map. apply Forall_forall.
    intros period _. cbn [fst snd]. split.
    + now rewrite rolling_mean_length, length_map.
    + intros i Hi. rewrite rolling_mean_nth by (now rewrite length_map). split.
      * intros [H|H].
        -- apply Nat.ltb_lt in H. now rewrite H.
        -- subst period. now rewrite Bool.orb_true_r.
      * intros [H0 H1].
        replace (S i <? period)%nat with false by (symmetry; apply Nat.ltb_ge; lia).
        replace (period =? 0)%nat with false by (symmetry; apply Nat.eqb_neq; lia).
        cbn [orb]. rewrite window_at_map, finite_values_Fin.
        eexists. split; [reflexivity|].
        pose proof (Qtotal_within lo hi _ (Forall_window _ period close i Hall)) as T.
        rewrite window_at_length in T by lia.
        assert (P : 0 < inject_Z (Z.of_nat period)) by (unfold Qlt; cbn; lia).
        split.
        -- apply Qle_shift_div_l; [exact P|]. lra.
        -- apply Qle_shift_div_r; [exact P|]. lra.
  - unfold add_moving_averages. rewrite map_map. apply map_ext. intro period.
    cbn [fst snd]. rewrite map_app.
    replace (length close) with (length (map Fin close)) by apply length_map.
    now rewrite rolling_mean_prefix.
Qed.

Lemma X10_moving_averages_witness :
  Forall (fun col =>
            length (snd col) = length rising_closes /\
            forall i, (i < length rising_closes)%nat ->
              ((S i < fst col)%nat \/ fst col = 0%nat ->
               nth_error (snd col) i = Some NaN) /\
              ((0 < fst col <= S i)%nat ->
               exists m, nth_error (snd col) i = Some (Fin m) /\ 100 <= m <= 113))
         (add_moving_averages rising_closes default_ma_periods) /\
  add_moving_averages rising_closes default_ma_periods =
  map (fun col => (fst col, firstn (length rising_closes) (snd col)))
      (add_moving_averages (rising_closes ++ [90; 95]) default_ma_periods).
Proof.
  apply (X10_moving_averages rising_closes [90; 95] default_ma_periods 100 113).
  repeat constructor; discriminate.
Defined.

(** The five-bar average of the rising closes: four NaN rows, then 102. *)
Example ma5_of_rising_closes :
  exists col, nth_error (add_moving_averages rising_closes default_ma_periods) 0
              = Some (5%nat, col) /\
              firstn 4 col = repeat NaN 4 /\
              exists m, nth_error col 4 = Some (Fin m) /\ m == 102.
Proof.
  eexists. split; [reflexivity|]. split; [vm_compute; reflexivity|].
  eexists. split; vm_compute; reflexivity.
Qed.

End RollingInvariants.

(* ------------------------------------------------------------------ *)
(** ** The indicator engine: MACD                                       *)
(* ------------------------------------------------------------------ *)

Section MacdInvariants.
Import TechnicalIndicators MovingAverages.

Lemma ewm_mean_within (span : Z) (xs ema : list Q) (lo hi : Q) :
  ewm_mean span xs = Ok ema ->
  Forall (fun x => lo <= x <= hi) xs ->
  Forall (fun y => lo <= y <= hi) ema.
Proof.
  intros He Hall. destruct (ewm_mean_inv _ _ _ He) as [Hs ->].
  destruct xs as [|x0 rest]; [constructor|].
  inversion Hall as [|? ? Hx Hrest]; subst.
  destruct (ewm_alpha_range span Hs) as [A0 A1].
  constructor; [exact Hx|].
  apply ewm_from_within; try assumption. now apply Qlt_le_weak.
Qed.

Lemma ewm_mean_length (span : Z) (xs ema : list Q) :
  ewm_mean span xs = Ok ema -> length ema = length xs.
Proof.
  intro He. destruct (ewm_mean_inv _ _ _ He) as [_ ->].
  destruct xs; cbn; [reflexivity|]. now rewrite ewm_from_length.
Qed.

Lemma Forall_zip_with {A B C : Type} (f : A -> B -> C)
    (P : A -> Prop) (R : B -> Prop) (S : C -> Prop) (xs : list A) (ys : list B) :
  (forall x y, P x -> R y -> S (f x y)) ->
  Forall P xs -> Forall R ys -> Forall S (zip_with f xs ys).
Proof.
  intros Hf Hx. revert ys. induction Hx as [|x xs Hx _ IH]; intros ys Hy; [constructor|].
  destruct Hy as [|y ys Hy Hys]; cbn; constructor; [now apply Hf | now apply IH].
Qed.

(** X11.  When [add_macd] returns, its three columns have one row per close,
    and for closes within [lo, hi] the MACD line and the signal line stay
    within hi - lo of zero and the histogram within twice that; on a flat
    series all three are zero. *)
Theorem X11_macd_bounds (close : list Q) (fast slow signal : Z) (m : Macd) (lo hi : Q) :
  add_macd close fast slow signal = Ok m ->
  Forall (fun c => lo <= c <= hi) close ->
  length (MACD m) = length close /\
  length (MACD_Signal m) = length close /\
  length (MACD_Hist m) = length close /\
  Forall (fun x => Qabs x <= hi - lo) (MACD m) /\
  Forall (fun x => Qabs x <= hi - lo) (MACD_Signal m) /\
  Forall (fun x => Qabs x <= 2 * (hi - lo)) (MACD_Hist m).
Proof.
  unfold add_macd. intros H Hall.
  destruct (ewm_mean fast close) as [ef|] eqn:Ef; cbn [bind] in H; [|discriminate].
  destruct (ewm_mean slow close) as [es|] eqn:Es; cbn [bind] in H; [|discriminate].
  destruct (ewm_mean signal _) as [sg|] eqn:Eg; cbn [bind] in H; [|discriminate].
  injection H as <-. cbn [MACD MACD_Signal MACD_Hist].
  pose proof (ewm_mean_length _ _ _ Ef) as Lf.
  pose proof (ewm_mean_length _ _ _ Es) as Ls.
  pose proof (ewm_mean_length _ _ _ Eg) as Lg.
  assert (Lm : length (zip_with Qminus ef es) = length close)
    by (rewrite zip_with_length; congruence).
  assert (Bm : Forall (fun x => - (hi - lo) <= x <= hi - lo) (zip_with Qminus ef es)).
  { eapply Forall_zip_with;
      [|exact (ewm_mean_within _ _ _ _ _ Ef Hall)|exact (ewm_mean_within _ _ _ _ _ Es Hall)].
    cbv beta. intros x y [X1 X2] [Y1 Y2]. split; lra. }
  pose proof (ewm_mean_within _ _ _ _ _ Eg Bm) as Bs.
  split; [exact Lm|]. split; [congruence|].
  split; [rewrite zip_with_length; congruence|].
  split; [|split].
  - eapply Forall_impl; [|exact Bm]. intros x Hx. now apply Qabs_Qle_condition.
  - eapply Forall_impl; [|exact Bs]. intros x Hx. now apply Qabs_Qle_condition.
  - eapply Forall_zip_with; [|exact Bm|exact Bs].
    cbv beta. intros x y [X1 X2] [Y1 Y2].
    apply (proj2 (Qabs_Qle_condition _ _)). split; lra.
Qed.

Lemma X11_macd_bounds_witness :
  exists m,
    add_macd flat_closes 12 26 9 = Ok m /\
    length (MACD m) = length flat_closes /\
    length (MACD_Signal m) = length flat_closes /\
    length (MACD_Hist m) = length flat_closes /\
    Forall (fun x => Qabs x <= 100 - 100) (MACD m) /\
    Forall (fun x => Qabs x <= 100 - 100) (MACD_Signal m) /\
    Forall (fun x => Qabs x <= 2 * (100 - 100)) (MACD_Hist m).
Proof.
  eexists. split; [vm_compute; reflexivity|].
  apply (X11_macd_bounds flat_closes 12 26 9).
  - vm_compute. reflexivity.
  - repeat constructor; discriminate.
Defined.

(** A span below 1 makes [add_macd] raise, as [ewm] does. *)
Example macd_rejects_span_zero :
  add_macd rising_closes 12 26 0 = Raise ValueError.
Proof. vm_compute. reflexivity. Qed.

End MacdInvariants.

(* ------------------------------------------------------------------ *)
(** ** The broker: what is sent and what is handed back                 *)
(* ------------------------------------------------------------------ *)

Section BrokerFacts.
Import KISBroker.
Open Scope string_scope.

Lemma checked_response_iff (http : http_outcome) (js : json) :
  checked_response http = Ok js <->
  exists text parsed members,
    http = HttpResponse 200 text parsed /\
    js = answered text parsed /\
    js = JObj members /\
    none_or_zero_code (assoc "rt_cd" members) = true.
Proof.
  split.
  - unfold checked_response. destruct http as [e|status_code text parsed]; [discriminate|].
    destruct (status_code =? 200)%Z eqn:Es; cbn [negb]; [|discriminate].
    apply Z.eqb_eq in Es. subst status_code.
    fold (answered text parsed).
    destruct (answered text parsed) as [| | | | |members] eqn:Ea;
      cbn [get bind]; try discriminate.
    destruct (none_or_zero_code (assoc "rt_cd" members)) eqn:E; cbn [negb]; [|discriminate].
    intro H. injection H as <-. exists text, parsed, members. now rewrite Ea.
  - intros (text & parsed & members & -> & Ha & Hm & Hrt).
    unfold checked_response. fold (answered text parsed). rewrite <- Ha, Hm.
    cbn [Z.eqb Pos.eqb negb get bind]. now rewrite Hrt.
Qed.

(** X12.  [place_cash_order] hands back a document exactly when the side is
    BUY or SELL, the quantity is positive, the transaction id of that side
    is configured, the answer has status 200 and the document is a dict
    whose [rt_cd] is absent or "0" (an answer that is no JSON is wrapped
    as {"raw": text} and passes).  With a side that is neither, or a
    quantity of 0 or less, it raises [ValueError] whatever the broker would
    answer. *)
Theorem X12_place_cash_order (cfg : KISConfig) (http : http_outcome)
    (side stock_code : string) (quantity : Z) :
  (forall js,
     place_cash_order cfg http side stock_code quantity = Ok js <->
     (side = "BUY" \/ side = "SELL") /\
     (0 < quantity)%Z /\
     (if String.eqb side "BUY" then tr_id_order_cash_buy cfg
      else tr_id_order_cash_sell cfg) <> "" /\
     exists text parsed members,
       http = HttpResponse 200 text parsed /\
       js = answered text parsed /\
       js = JObj members /\
       none_or_zero_code (assoc "rt_cd" members) = true) /\
  ((side <> "BUY" /\ side <> "SELL") \/ (quantity <= 0)%Z ->
   place_cash_order cfg http side stock_code quantity = Raise ValueError).
Proof.
  assert (T : forall tr js,
             (if (quantity <=? 0)%Z then Raise ValueError
              else if String.eqb tr "" then Raise ValueError
                   else checked_response http) = Ok js <->
             (0 < quantity)%Z /\ tr <> "" /\
             exists text parsed members,
               http = HttpResponse 200 text parsed /\
               js = answered text parsed /\
               js = JObj members /\
               none_or_zero_code (assoc "rt_cd" members) = true).
  { intros tr js. destruct (quantity <=? 0)%Z eqn:Eq.
    - apply Z.leb_le in Eq. split; [discriminate|]. intros [H _]. lia.
    - apply Z.leb_gt in Eq. destruct (String.eqb tr "") eqn:Et.
      + apply String.eqb_eq in Et. split; [discriminate|]. intros (_ & H & _). contradiction.
      + apply String.eqb_neq in Et. rewrite checked_response_iff. tauto. }
  split.
  - intro js. unfold place_cash_order.
    destruct (String.eqb side "BUY") eqn:Eb.
    + apply String.eqb_eq in Eb. cbn [orb negb]. rewrite T. tauto.
    + destruct (String.eqb side "SELL") eqn:Es; cbn [orb negb].
      * apply String.eqb_eq in Es. rewrite T. tauto.
      * apply String.eqb_neq in Eb, Es. split; [discriminate|].
        intros [[H|H] _]; contradiction.
  - unfold place_cash_order. intros [[Hb Hs]|Hq].
    + apply String.eqb_neq in Hb, Hs. now rewrite Hb, Hs.
    + destruct (negb _); [reflexivity|]. apply Z.leb_le in Hq. now rewrite Hq.
Qed.

(** X13.  [get_balance] hands back only a dict that came with status 200 and
    an [rt_cd] that is absent or "0"; without a configured transaction id
    it raises [ValueError] whatever the broker would answer, and any other
    status or business code raises. *)
Theorem X13_get_balance (cfg : KISConfig) (http : http_outcome) :
  (forall bal,
     get_balance cfg http = Ok bal <->
     tr_id_inquire_balance cfg <> "" /\
     exists text parsed members,
       http = HttpResponse 200 text parsed /\
       bal = answered text parsed /\
       bal = JObj members /\
       none_or_zero_code (assoc "rt_cd" members) = true) /\
  (tr_id_inquire_balance cfg = "" -> get_balance cfg http = Raise ValueError) /\
  (tr_id_inquire_balance cfg <> "" ->
   forall status_code text parsed,
     http = HttpResponse status_code text parsed ->
     status_code <> 200%Z ->
     get_balance cfg http = Raise RuntimeError).
Proof.
  unfold get_balance. split; [|split].
  - intro bal. destruct (String.eqb (tr_id_inquire_balance cfg) "") eqn:Et.
    + apply String.eqb_eq in Et. split; [discriminate|]. intros [H _]. contradiction.
    + apply String.eqb_neq in Et. rewrite checked_response_iff. tauto.
  - intros ->. reflexivity.
  - intros Ht status_code text parsed -> Hs.
    apply String.eqb_neq in Ht. rewrite Ht. unfold checked_response.
    apply Z.eqb_neq in Hs. now rewrite Hs.
Qed.

(** A gateway error page instead of the balance. *)
Example balance_behind_a_failing_gateway :
  get_balance Demo.config (Demo.garbled 503) = Raise RuntimeError /\
  get_balance Demo.config (Demo.garbled 200) = Ok (JObj [("raw", JStr "<html>")]).
Proof. split; reflexivity. Qed.

End BrokerFacts.

(* ------------------------------------------------------------------ *)
(** ** The risk gate: sales, the share cap, the weight cap              *)
(* ------------------------------------------------------------------ *)

Section GateBranches.
Import Database KISBroker TradingApi.
Open Scope string_scope.

(** Holdings of other instruments change nothing but the total. *)
Lemma scan_holdings_others (py : PyLib) (stock_code : string) (hs : list json) :
  listed hs stock_code = false ->
  forall acc s,
    scan_holdings py stock_code acc hs = Ok s ->
    current_qty s = current_qty acc /\ sellable s = sellable acc /\
    current_eval s = current_eval acc /\ current_price s = current_price acc.
Proof.
  induction hs as [|h hs IH]; intros Hl acc s Hs.
  - cbn in Hs. now injection Hs as <-.
  - cbn [listed existsb] in Hl. apply Bool.orb_false_iff in Hl. destruct Hl as [Hh Hrest].
    cbn [scan_holdings] in Hs.
    destruct h; cbn [scan_holding bind] in Hs; try discriminate.
    rewrite Hh in Hs. cbn [bind] in Hs.
    destruct (IH Hrest _ _ Hs) as (A & B & C & D). cbn in A, B, C, D. tauto.
Qed.

Lemma unlisted_account (py : PyLib) (w : World) (stock_code : string) (bal : json)
    (hs : list json) (s : Scan) (total_value : Q) :
  get_balance (broker_config w) (balance_http w) = Ok bal ->
  holdings_of (raw_of bal) = Ok hs ->
  listed hs stock_code = false ->
  read_account py w stock_code = Ok (s, total_value) ->
  current_qty s = 0 /\ sellable s = 0 /\ current_eval s = 0 /\ current_price s = None.
Proof.
  intros Hb Hh Hl Hacct.
  destruct (read_account_inv py w stock_code s total_value Hacct)
    as (bal' & hs' & Hb' & Hh' & Hs).
  rewrite Hb in Hb'. injection Hb' as <-. rewrite Hh in Hh'. injection Hh' as <-.
  exact (scan_holdings_others py stock_code hs Hl _ _ Hs).
Qed.

(** X14.  Any side other than "BUY" is checked as a sale, and a sale is
    decided by the sellable quantity alone: it is rejected with status 400
    when the quantity exceeds it and passes otherwise, whatever the caps on
    shares, weight and daily amount are; an instrument that is not among the
    holdings has a sellable quantity of 0. *)
Theorem X14_sell_is_bounded_by_sellable (py : PyLib) (w : World) (stock_code side : string)
    (quantity : Z) (s : Scan) (total_value : Q) :
  read_account py w stock_code = Ok (s, total_value) ->
  side <> "BUY" ->
  (sellable s < inject_Z quantity ->
   check_risk_limit py w stock_code side quantity =
   Raise (HTTPException 400 (SellLimit (sellable s)))) /\
  (inject_Z quantity <= sellable s ->
   check_risk_limit py w stock_code side quantity = Ok tt) /\
  (forall bal hs,
     get_balance (broker_config w) (balance_http w) = Ok bal ->
     holdings_of (raw_of bal) = Ok hs ->
     listed hs stock_code = false ->
     sellable s = 0).
Proof.
  intros Hacct Hside. unfold check_risk_limit. rewrite Hacct. cbn [bind fst snd].
  apply String.eqb_neq in Hside. rewrite Hside.
  split; [|split].
  - intro H. apply Qltb_lt in H. now rewrite H.
  - intro H. apply Qltb_ge in H. now rewrite H.
  - intros bal hs Hb Hh Hl.
    now destruct (unlisted_account py w stock_code bal hs s total_value Hb Hh Hl Hacct)
      as (_ & E & _).
Qed.

Lemma X14_sell_is_bounded_by_sellable_witness :
  (sellable capped_scan < inject_Z 9 ->
   check_risk_limit demo_py capped_world "005930" "SELL" 9 =
   Raise (HTTPException 400 (SellLimit (sellable capped_scan)))) /\
  (inject_Z 9 <= sellable capped_scan ->
   check_risk_limit demo_py capped_world "005930" "SELL" 9 = Ok tt) /\
  (forall bal hs,
     get_balance (broker_config capped_world) (balance_http capped_world) = Ok bal ->
     holdings_of (raw_of bal) = Ok hs ->
     listed hs "005930" = false ->
     sellable capped_scan = 0).
Proof.
  apply (X14_sell_is_bounded_by_sellable demo_py capped_world "005930" "SELL" 9
           capped_scan 1000800).
  - vm_compute. reflexivity.
  - discriminate.
Defined.

(** Eight shares are sellable: eight may be sold, nine may not. *)
Example sell_eight_of_eight :
  check_risk_limit demo_py capped_world "005930" "SELL" 8 = Ok tt /\
  check_risk_limit demo_py capped_world "005930" "SELL" 9 =
  Raise (HTTPException 400 (SellLimit 8)).
Proof. split; vm_compute; reflexivity. Qed.

(** The weight cap raises its own rejection or fails on the unbound
    variable; it never reports the share cap. *)
Lemma weight_cap_not_position (stock_code : string) (lim : Limits) (s : Scan)
    (total_value : Q) (quantity : Z) (c : string) (m : Z) (q : Q) :
  check_weight_cap stock_code lim s total_value quantity
  <> Raise (HTTPException 400 (PositionLimit c m q)).
Proof.
  unfold check_weight_cap.
  repeat match goal with
         | |- context [if ?b then _ else _] => destruct b
         | |- context [match ?x with Some _ => _ | None => _ end] => destruct x
         end; discriminate.
Qed.

(** X15.  A BUY that the daily cap lets through is rejected by the share cap
    exactly when the held quantity plus the requested quantity exceeds
    max_position_shares; the rejection names the cap and the held
    quantity. *)
Theorem X15_share_cap (py : PyLib) (w : World) (stock_code : string) (quantity : Z)
    (s : Scan) (total_value : Q) :
  read_account py w stock_code = Ok (s, total_value) ->
  let lim := resolve_limits (defaults w) (select_risk_setting (db w) stock_code) in
  check_daily_cap w lim s quantity = Ok tt ->
  (inject_Z (max_shares lim) < current_qty s + inject_Z quantity <->
   check_risk_limit py w stock_code "BUY" quantity =
   Raise (HTTPException 400 (PositionLimit stock_code (max_shares lim) (current_qty s)))).
Proof.
  intros Hacct lim Hd.
  rewrite (check_risk_limit_buy py w stock_code quantity s total_value Hacct).
  cbv zeta. fold lim. rewrite Hd. cbn [bind]. unfold check_position_cap.
  destruct (Qltb (inject_Z (max_shares lim)) (current_qty s + inject_Z quantity)) eqn:E.
  - apply Qltb_lt in E. cbn [bind]. tauto.
  - apply Qltb_ge in E. cbn [bind]. split.
    + intro H. exfalso. exact (Qlt_not_le _ _ H E).
    + intro H. exfalso. exact (weight_cap_not_position _ _ _ _ _ _ _ _ H).
Qed.

Lemma X15_share_cap_witness :
  let w := Demo.world [] [] [Demo.holding "005930" "8" "8" "800" "100"] Demo.accepted in
  let lim := resolve_limits (defaults w) (select_risk_setting (db w) "005930") in
  (inject_Z (max_shares lim) < current_qty capped_scan + inject_Z 3 <->
   check_risk_limit demo_py w "005930" "BUY" 3 =
   Raise (HTTPException 400
            (PositionLimit "005930" (max_shares lim) (current_qty capped_scan)))).
Proof.
  cbv zeta.
  apply (X15_share_cap demo_py
           (Demo.world [] [] [Demo.holding "005930" "8" "8" "800" "100"] Demo.accepted)
           "005930" 3 capped_scan 1000800).
  - vm_compute. reflexivity.
  - vm_compute. reflexivity.
Defined.

(** X16.  For an instrument that is not among the holdings, a BUY is decided
    by the share cap alone: it passes exactly when the quantity does not
    exceed max_position_shares, and is otherwise rejected with that cap and a
    held quantity of 0; neither the daily cap nor the weight cap is ever
    applied to it. *)
Theorem X16_first_purchase (py : PyLib) (w : World) (stock_code : string)
    (quantity : Z) (bal : json) (hs : list json) (s : Scan) (total_value : Q) :
  get_balance (broker_config w) (balance_http w) = Ok bal ->
  holdings_of (raw_of bal) = Ok hs ->
  listed hs stock_code = false ->
  read_account py w stock_code = Ok (s, total_value) ->
  let cap := max_shares (resolve_limits (defaults w)
                           (select_risk_setting (db w) stock_code)) in
  ((quantity <= cap)%Z ->
   check_risk_limit py w stock_code "BUY" quantity = Ok tt) /\
  ((cap < quantity)%Z ->
   check_risk_limit py w stock_code "BUY" quantity =
   Raise (HTTPException 400 (PositionLimit stock_code cap 0))).
Proof.
  intros Hb Hh Hl Hacct cap.
  destruct (unlisted_account py w stock_code bal hs s total_value Hb Hh Hl Hacct)
    as (Hq & _ & _ & Hp).
  rewrite (check_risk_limit_buy py w stock_code quantity s total_value Hacct).
  cbv zeta. fold cap.
  assert (D : check_daily_cap w (resolve_limits (defaults w)
                (select_risk_setting (db w) stock_code)) s quantity = Ok tt).
  { unfold check_daily_cap. rewrite Hp. cbn [estimated_amount or_zero].
    change (Qltb 0 0) with false. cbn [andb]. now destruct (negb _ && _). }
  rewrite D. cbn [bind]. unfold check_position_cap, check_weight_cap.
  rewrite Hq, Hp. fold cap.
  assert (E : Qltb (inject_Z cap) (0 + inject_Z quantity) = (cap <? quantity)%Z).
  { unfold Qltb. cbn. f_equal; lia. }
  rewrite E. split; intro H.
  - replace (cap <? quantity)%Z with false by (symmetry; apply Z.ltb_ge; lia).
    cbn [bind]. change (Qltb 0 0) with false. cbn [andb].
    now destruct (Qltb 0 total_value).
  - replace (cap <? quantity)%Z with true by (symmetry; apply Z.ltb_lt; lia).
    reflexivity.
Qed.

Lemma X16_first_purchase_witness :
  let cap := max_shares (resolve_limits (defaults unpriced_world)
                           (select_risk_setting (db unpriced_world) "035720")) in
  ((100000 <= cap)%Z ->
   check_risk_limit demo_py unpriced_world "035720" "BUY" 100000 = Ok tt) /\
  ((cap < 100000)%Z ->
   check_risk_limit demo_py unpriced_world "035720" "BUY" 100000 =
   Raise (HTTPException 400 (PositionLimit "035720" cap 0))).
Proof.
  cbv zeta.
  apply (X16_first_purchase demo_py unpriced_world "035720" 100000 unpriced_balance
           [Demo.holding "005930" "8" "8" "800" "100"]
           {| total_eval := 800; current_qty := 0; sellable := 0; current_eval := 0;
              current_price := None |} 1000800);
    vm_compute; reflexivity.
Defined.

(** X17.  For a held instrument with a positive last price p, a positive
    total value and a quantity that is not negative, a BUY that the daily cap
    and the share cap let through is rejected by the weight cap exactly when
    (eval + p * quantity) / (total + p * quantity) exceeds max_weight_pct by
    more than 1e-9, and passes otherwise; the unbound [weight] is never
    reached. *)
Theorem X17_weight_cap (py : PyLib) (w : World) (stock_code : string)
    (quantity : Z) (s : Scan) (total_value p : Q) :
  read_account py w stock_code = Ok (s, total_value) ->
  let lim := resolve_limits (defaults w) (select_risk_setting (db w) stock_code) in
  check_daily_cap w lim s quantity = Ok tt ->
  current_qty s + inject_Z quantity <= inject_Z (max_shares lim) ->
  0 < total_value ->
  current_price s = Some p ->
  0 < p ->
  (0 <= quantity)%Z ->
  let stock_value := current_eval s + p * inject_Z quantity in
  let weight := stock_value / (total_value - current_eval s + stock_value) in
  (max_weight_pct lim + (1 # 1000000000) < weight ->
   check_risk_limit py w stock_code "BUY" quantity =
   Raise (HTTPException 400 (WeightLimit stock_code weight (max_weight_pct lim)))) /\
  (weight <= max_weight_pct lim + (1 # 1000000000) ->
   check_risk_limit py w stock_code "BUY" quantity = Ok tt).
Proof.
  intros Hacct lim Hd Hcap Htot Hprice Hp Hq stock_value weight.
  rewrite (check_risk_limit_buy py w stock_code quantity s total_value Hacct).
  cbv zeta. fold lim. rewrite Hd. cbn [bind]. unfold check_position_cap.
  apply Qltb_ge in Hcap. rewrite Hcap. cbn [bind].
  unfold check_weight_cap. rewrite Hprice.
  assert (Q0 : 0 <= inject_Z quantity) by (unfold Qle; cbn; lia).
  assert (T : 0 < total_value - current_eval s + stock_value).
  { unfold stock_value. nra. }
  apply Qltb_lt in Htot. rewrite Htot.
  assert (P1 : Qleb p 0 = false) by (now apply Qleb_gt).
  assert (P2 : Qeqb p 0 = false).
  { apply Qeqb_neq. intro E. rewrite E in Hp. now apply Qlt_irrefl in Hp. }
  apply Qltb_lt in Hp. rewrite P1. cbn [andb]. rewrite P2, Hp. cbn [negb andb].
  fold stock_value. apply Qltb_lt in T. rewrite T. fold weight.
  split; intro H.
  - apply Qltb_lt in H. now rewrite H.
  - apply Qltb_ge in H. now rewrite H.
Qed.

Lemma X17_weight_cap_witness :
  let lim := resolve_limits (defaults capped_world)
               (select_risk_setting (db capped_world) "005930") in
  let stock_value := current_eval capped_scan + 100 * inject_Z 1 in
  let weight := stock_value / (1000800 - current_eval capped_scan + stock_value) in
  (max_weight_pct lim + (1 # 1000000000) < weight ->
   check_risk_limit demo_py capped_world "005930" "BUY" 1 =
   Raise (HTTPException 400 (WeightLimit "005930" weight (max_weight_pct lim)))) /\
  (weight <= max_weight_pct lim + (1 # 1000000000) ->
   check_risk_limit demo_py capped_world "005930" "BUY" 1 = Ok tt).
Proof.
  cbv zeta.
  apply (X17_weight_cap demo_py capped_world "005930" 1 capped_scan 1000800 100);
    try (vm_compute; reflexivity).
  - vm_compute. discriminate.
  - lia.
Defined.

(** A holding worth 2,000,000 beside a cash of 1,000,000 is already above
    half of the account: one more share is rejected by the weight cap.  With
    a negative quantity the projected total can fail to be positive, and the
    gate then fails on the unbound [weight]. *)
Example weight_cap_examples :
  (exists weight,
     check_risk_limit demo_py
       (Demo.world [] [] [Demo.holding "005930" "8" "8" "2000000" "100"] Demo.accepted)
       "005930" "BUY" 1 =
     Raise (HTTPException 400 (WeightLimit "005930" weight (1 # 2))) /\
     weight == 2000100 # 3000100) /\
  check_risk_limit demo_py
    (Demo.world [] [] [Demo.holding "005930" "8" "8" "800" "100"] Demo.accepted)
    "005930" "BUY" (-20000) = Raise UnboundLocalError.
Proof.
  split.
  - eexists. split; vm_compute; reflexivity.
  - vm_compute. reflexivity.
Qed.

End GateBranches.

(* ------------------------------------------------------------------ *)
(** ** The risk gate: which row is selected                             *)
(* ------------------------------------------------------------------ *)

Section SettingSelection.
Import Database TradingApi.
Open Scope string_scope.

Lemma In_insert_by {A : Type} (before : A -> A -> bool) (r x : A) (l : list A) :
  In x (insert_by before r l) <-> x = r \/ In x l.
Proof.
  induction l as [|h t IH]; cbn.
  - intuition congruence.
  - destruct (before r h); cbn; [intuition congruence|]. rewrite IH. intuition congruence.
Qed.

Lemma In_order_by {A : Type} (before : A -> A -> bool) (x : A) (l : list A) :
  In x (order_by before l) <-> In x l.
Proof.
  unfold order_by. induction l as [|h t IH]; cbn; [tauto|].
  rewrite In_insert_by, IH. intuition congruence.
Qed.

Lemma leb_refl (s : string) : String.leb s s = true.
Proof. now destruct (String.leb_total s s). Qed.

(** In a descending order the first row carries a key that bounds all the
    others. *)
Lemma order_by_desc_head {A : Type} (key : A -> string) (kmax : string) (l : list A) :
  (forall x, In x l -> String.leb (key x) kmax = true) ->
  (forall x, In x l -> key x <> kmax -> String.leb kmax (key x) = false) ->
  (exists x, In x l /\ key x = kmax) ->
  exists r, hd_error (order_by (fun a b => String.leb (key b) (key a)) l) = Some r /\
            key r = kmax.
Proof.
  induction l as [|x l IH]; intros Hub Hstrict (y & Hy & Ky); [destruct Hy|].
  unfold order_by. cbn [fold_right]. fold (order_by (fun a b => String.leb (key b) (key a)) l).
  set (sorted := order_by (fun a b => String.leb (key b) (key a)) l) in *.
  destruct (string_dec (key x) kmax) as [Kx|Kx].
  - exists x. split; [|exact Kx].
    destruct sorted as [|h t] eqn:Es; [reflexivity|]. cbn [insert_by].
    assert (Hh : In h l) by (apply (In_order_by (fun a b => String.leb (key b) (key a)));
                              fold sorted; rewrite Es; now left).
    rewrite Kx, (Hub h (or_intror Hh)). reflexivity.
  - assert (Hy' : In y l) by (destruct Hy as [->|Hy]; [contradiction|exact Hy]).
    destruct IH as (r & Hr & Kr).
    + intros z Hz. apply Hub. now right.
    + intros z Hz. apply Hstrict. now right.
    + now exists y.
    + exists r. split; [|exact Kr].
      destruct sorted as [|h t]; [discriminate|]. cbn in Hr. injection Hr as ->.
      cbn [insert_by]. rewrite Kr, (Hstrict x (or_introl eq_refl) Kx). reflexivity.
Qed.

Lemma applicable_filter (d : Db) (stock_code : string) (r : RiskSetting) :
  In r (filter (fun r =>
                  rs_active r &&
                  match rs_stock_code r with
                  | Some c => String.eqb c stock_code || String.eqb c "ALL"
                  | None => false
                  end) (risk_settings d)) <->
  In r (risk_settings d) /\ applicable stock_code r.
Proof.
  rewrite filter_In. unfold applicable. split.
  - intros [Hin H]. apply Bool.andb_true_iff in H. destruct H as [Ha Hc].
    destruct (rs_stock_code r) as [c|]; [|discriminate].
    apply Bool.orb_true_iff in Hc. split; [exact Hin|]. split; [exact Ha|].
    destruct Hc as [Hc|Hc]; apply String.eqb_eq in Hc; subst; tauto.
  - intros (Hin & Ha & Hc). split; [exact Hin|]. rewrite Ha. cbn [andb].
    destruct Hc as [-> | ->]; rewrite String.eqb_refl; [reflexivity|].
    now rewrite Bool.orb_true_r.
Qed.

(** X18.  The row the gate applies is always an active row of the table
    whose code is the requested one or "ALL", and there is none exactly when
    the table has no such row.  Of an instrument row and the wildcard row
    the one whose code sorts last is taken: the instrument's own row when
    "ALL" <= stock_code, the wildcard row when stock_code sorts before
    "ALL" (as every code of digits does). *)
Theorem X18_selected_setting (d : Db) (stock_code : string) :
  (forall r, select_risk_setting d stock_code = Some r ->
             In r (risk_settings d) /\ applicable stock_code r) /\
  (select_risk_setting d stock_code = None <->
   forall r, In r (risk_settings d) -> ~ applicable stock_code r) /\
  (String.leb "ALL" stock_code = true ->
   (exists r, In r (risk_settings d) /\ rs_active r = true /\
              rs_stock_code r = Some stock_code) ->
   exists r, select_risk_setting d stock_code = Some r /\
             rs_stock_code r = Some stock_code) /\
  (String.leb "ALL" stock_code = false ->
   (exists r, In r (risk_settings d) /\ rs_active r = true /\
              rs_stock_code r = Some "ALL") ->
   exists r, select_risk_setting d stock_code = Some r /\
             rs_stock_code r = Some "ALL").
Proof.
  unfold select_risk_setting.
  set (rows := filter _ (risk_settings d)).
  assert (R : forall r, In r rows <-> In r (risk_settings d) /\ applicable stock_code r)
    by (intro r; apply applicable_filter).
  set (before := fun a b : RiskSetting => String.leb (setting_code b) (setting_code a)).
  assert (K : forall r, In r rows ->
                        setting_code r = stock_code \/ setting_code r = "ALL").
  { intros r Hr. apply R in Hr. destruct Hr as (_ & _ & [E|E]);
      unfold setting_code; rewrite E; tauto. }
  assert (C : forall r c, In r rows -> setting_code r = c -> rs_stock_code r = Some c).
  { intros r c Hr <-. apply R in Hr. destruct Hr as (_ & _ & [E|E]);
      unfold setting_code; now rewrite E. }
  split; [|split; [|split]].
  - intros r Hr. apply R. apply (In_order_by before).
    destruct (order_by before rows); [discriminate|]. cbn in Hr. injection Hr as ->.
    now left.
  - split.
    + intros H r Hin Ha.
      assert (Hr : In r (order_by before rows)) by (apply In_order_by, R; tauto).
      destruct (order_by before rows); [destruct Hr|discriminate].
    + intro H. destruct (order_by before rows) as [|h t] eqn:E; [reflexivity|].
      exfalso. assert (Hh : In h rows) by (apply (In_order_by before); rewrite E; now left).
      apply R in Hh. destruct Hh as [Hin Ha]. exact (H h Hin Ha).
  - intros Hle (r & Hin & Ha & Hc).
    destruct (order_by_desc_head setting_code stock_code rows) as (r' & Hr' & Kr').
    + intros x Hx. destruct (K x Hx) as [-> | ->]; [apply leb_refl|exact Hle].
    + intros x Hx Hne. destruct (K x Hx) as [E|E]; [contradiction|]. rewrite E.
      destruct (String.leb stock_code "ALL") eqn:L; [|reflexivity].
      exfalso. apply Hne. rewrite E. now apply String.leb_antisym.
    + exists r. split; [apply R; unfold applicable; tauto|].
      unfold setting_code. now rewrite Hc.
    + exists r'. split; [exact Hr'|]. apply C; [|exact Kr'].
      apply (In_order_by before). fold before in Hr'.
      destruct (order_by before rows); [discriminate|]. cbn in Hr'. injection Hr' as ->.
      now left.
  - intros Hlt (r & Hin & Ha & Hc).
    destruct (order_by_desc_head setting_code "ALL" rows) as (r' & Hr' & Kr').
    + intros x Hx. destruct (K x Hx) as [-> | ->]; [|apply leb_refl].
      destruct (String.leb_total stock_code "ALL") as [L|L]; [exact L|congruence].
    + intros x Hx Hne. destruct (K x Hx) as [E|E]; [|contradiction]. now rewrite E.
    + exists r. split; [apply R; unfold applicable; tauto|].
      unfold setting_code. now rewrite Hc.
    + exists r'. split; [exact Hr'|]. apply C; [|exact Kr'].
      apply (In_order_by before). fold before in Hr'.
      destruct (order_by before rows); [discriminate|]. cbn in Hr'. injection Hr' as ->.
      now left.
Qed.

(** A row that was switched off is not applied: the defaults are. *)
Example inactive_row_is_ignored :
  let off := {| rs_stock_code := Some "005930"; rs_max_position_shares := Some 1%Z;
                rs_max_weight_pct := None; rs_max_daily_buy_amount := None;
                rs_active := false |} in
  select_risk_setting
    {| trade_orders := []; account_snapshots := []; risk_settings := [off] |} "005930"
  = None.
Proof. reflexivity. Qed.

End SettingSelection.

(* ------------------------------------------------------------------ *)
(** ** The audited order: what is written and when                      *)
(* ------------------------------------------------------------------ *)

Section OrderFacts.
Import Database KISBroker TradingApi.
Open Scope string_scope.

(** The broker call of [_place_market_order_internal]. *)
Lemma place_inv (py : PyLib) (w : World) (stock_code side : string) (quantity : Z)
    (out : result json) (d' : Db) :
  _place_market_order_internal py w stock_code side quantity = (out, d') ->
  (upper side <> "BUY" /\ upper side <> "SELL" /\
   out = Raise (HTTPException 400 BadSide) /\ d' = db w) \/
  ((upper side = "BUY" \/ upper side = "SELL") /\
   ((exists e, check_risk_limit py w stock_code (upper side) quantity = Raise e /\
               out = Raise e /\ d' = db w) \/
    (check_risk_limit py w stock_code (upper side) quantity = Ok tt /\
     ((exists e,
         place_cash_order (broker_config w) (order_http w) (upper side) stock_code quantity
         = Raise e /\
         out = Raise (HTTPException 500 (OrderFailed e)) /\ d' = db w) \/
      (exists res,
         place_cash_order (broker_config w) (order_http w) (upper side) stock_code quantity
         = Ok res /\
         out = Ok res /\
         d' = add_order w (audit_row py (now w) stock_code (upper side) quantity res)))))).
Proof.
  unfold _place_market_order_internal. cbv zeta.
  destruct (String.eqb_spec (upper side) "BUY") as [Eb|Eb];
    destruct (String.eqb_spec (upper side) "SELL") as [Es|Es]; cbn [orb negb].
  4:{ intro H. injection H as <- <-. left. tauto. }
  all: intro H; right; split; [tauto|].
  all: destruct (check_risk_limit py w stock_code (upper side) quantity) as [[]|e];
    [|left; injection H as <- <-; now exists e].
  all: right; split; [reflexivity|].
  all: unfold buy_market, sell_market in H.
  1,2: rewrite Eb in H |- *.
  3: rewrite Es in H |- *.
  all: match type of H with
       | match ?c with _ => _ end = _ =>
           destruct c as [res|e];
           injection H as <- <-; [right; now exists res | left; now exists e]
       end.
Qed.



(** X20.  When [_place_market_order_internal] raises, no table is changed,
    and what it raises is one of three things: status 400 for a side that is
    neither BUY nor SELL, the exception of the risk gate passed on as it is,
    or, after the gate has passed, status 500 carrying the exception of the
    broker call. *)
Theorem X20_raised_order (py : PyLib) (w : World) (stock_code side : string)
    (quantity : Z) (e : exn) (d' : Db) :
  _place_market_order_internal py w stock_code side quantity = (Raise e, d') ->
  d' = db w /\
  ((upper side <> "BUY" /\ upper side <> "SELL" /\ e = HTTPException 400 BadSide) \/
   check_risk_limit py w stock_code (upper side) quantity = Raise e \/
   (check_risk_limit py w stock_code (upper side) quantity = Ok tt /\
    exists x,
      place_cash_order (broker_config w) (order_http w) (upper side) stock_code quantity
      = Raise x /\
      e = HTTPException 500 (OrderFailed x))).
Proof.
  intro H. apply place_inv in H.
  destruct H as [(A & B & H & ->)|(Hside & [(x & Hc & H & ->)|(Hg & [(x & Hp & H & ->)|(r & _ & H & _)])])];
    try discriminate; injection H as H; subst e; split; try reflexivity.
  - left. tauto.
  - right. left. exact Hc.
  - right. right. split; [exact Hg|]. now exists x.
Qed.

Lemma X20_raised_order_witness :
  exists e d',
    _place_market_order_internal demo_py capped_world "005930" "buy" 2 = (Raise e, d') /\
    d' = db capped_world /\
    ((upper "buy" <> "BUY" /\ upper "buy" <> "SELL" /\ e = HTTPException 400 BadSide) \/
     check_risk_limit demo_py capped_world "005930" (upper "buy") 2 = Raise e \/
     (check_risk_limit demo_py capped_world "005930" (upper "buy") 2 = Ok tt /\
      exists x,
        place_cash_order (broker_config capped_world) (order_http capped_world)
          (upper "buy") "005930" 2 = Raise x /\
        e = HTTPException 500 (OrderFailed x))).
Proof.
  do 2 eexists. split; [vm_compute; reflexivity|].
  apply (X20_raised_order demo_py capped_world "005930" "buy" 2).
  vm_compute. reflexivity.
Defined.

End OrderFacts.

(* ------------------------------------------------------------------ *)
(** ** The audit row and the daily total                                *)
(* ------------------------------------------------------------------ *)

Section OrderLedger.
Import Database KISBroker TradingApi.
Open Scope string_scope.










End OrderLedger.

(* ------------------------------------------------------------------ *)
(** ** Performance: the drawdown and the window of snapshots            *)
(* ------------------------------------------------------------------ *)

Section PerformanceFacts.
Import Database Metrics.

Lemma drawdown_loop_nonneg (vs : list Q) (peak m : Q) :
  0 <= m -> 0 <= drawdown_loop vs peak m.
Proof.
  revert peak m. induction vs as [|v vs IH]; intros peak m Hm; cbn [drawdown_loop].
  - exact Hm.
  - apply IH.
    destruct (Qltb 0 (if Qltb peak v then v else peak)); [|exact Hm].
    destruct (Qltb m _) eqn:E; [|exact Hm].
    apply Qltb_lt in E. apply Qlt_le_weak. eapply Qle_lt_trans; eassumption.
Qed.

Lemma drawdown_term_le_100 (p v : Q) : 0 < p -> 0 <= v -> (p - v) / p * 100 <= 100.
Proof.
  intros Hp Hv.
  setoid_replace 100 with (1 * 100) at 2 by ring.
  apply Qmult_le_compat_r; [|discriminate].
  apply Qle_shift_div_r; [exact Hp|]. lra.
Qed.

Lemma drawdown_loop_le_100 (vs : list Q) (peak m : Q) :
  Forall (fun v => 0 <= v) vs -> m <= 100 -> drawdown_loop vs peak m <= 100.
Proof.
  revert peak m. induction vs as [|v vs IH]; intros peak m Hvs Hm; cbn [drawdown_loop].
  - exact Hm.
  - inversion Hvs as [|? ? Hv Hrest]; subst.
    apply IH; [exact Hrest|].
    destruct (Qltb 0 (if Qltb peak v then v else peak)) eqn:Ep; [|exact Hm].
    destruct (Qltb m _); [|exact Hm].
    apply Qltb_lt in Ep. now apply drawdown_term_le_100.
Qed.

Lemma drawdown_loop_rising (vs : list Q) (peak : Q) :
  nondecreasing (peak :: vs) -> drawdown_loop vs peak 0 = 0.
Proof.
  revert peak. induction vs as [|v vs IH]; intros peak H; cbn [drawdown_loop].
  - reflexivity.
  - destruct H as [Hpv Hrest].
    set (p := if Qltb peak v then v else peak).
    assert (Hp : p == v).
    { unfold p. destruct (Qltb peak v) eqn:E; [reflexivity|].
      apply Qltb_ge in E. apply Qle_antisym; assumption. }
    assert (Hm : (if Qltb 0 p
                  then if Qltb 0 ((p - v) / p * 100) then (p - v) / p * 100 else 0
                  else 0) = 0).
    { destruct (Qltb 0 p); [|reflexivity].
      destruct (Qltb 0 ((p - v) / p * 100)) eqn:E; [|reflexivity].
      apply Qltb_lt in E. exfalso. apply (Qlt_irrefl 0).
      eapply Qlt_le_trans; [exact E|].
      rewrite Hp. unfold Qdiv. setoid_replace (v - v) with 0 by ring.
      rewrite !Qmult_0_l. apply Qle_refl. }
    rewrite Hm. apply IH.
    destruct vs as [|y vs']; cbn [nondecreasing] in *; [tauto|].
    destruct Hrest as [Hvy Hr]. split; [|exact Hr].
    rewrite Hp. exact Hvy.
Qed.

(** X23.  The largest drawdown of a performance summary is a percentage
    that is never negative; it is at most 100 when no snapshot value is
    negative; and it is exactly 0 when the values never fall from one
    snapshot to the next. *)
Theorem X23_drawdown_bounds (rows : list AccountSnapshot) :
  let s := summary (summarize rows) in
  0 <= max_drawdown_pct s /\
  (Forall (fun r => 0 <= value_of r) rows -> max_drawdown_pct s <= 100) /\
  (nondecreasing (map value_of rows) -> max_drawdown_pct s = 0).
Proof.
  destruct rows as [|r0 rest].
  - cbn. repeat split; try reflexivity; discriminate.
  - cbv zeta. cbn [summarize summary max_drawdown_pct].
    fold value_of. change (nth 0 (map value_of (r0 :: rest)) 0) with (value_of r0).
    split; [|split].
    + apply drawdown_loop_nonneg. apply Qle_refl.
    + intro H. apply drawdown_loop_le_100; [|discriminate].
      apply Forall_map. exact H.
    + intro H. apply drawdown_loop_rising.
      cbn [map nondecreasing] in *. split; [apply Qle_refl|exact H].
Qed.

Lemma insert_by_perm {A : Type} (before : A -> A -> bool) (r : A) (l : list A) :
  Permutation (insert_by before r l) (r :: l).
Proof.
  induction l as [|x xs IH]; cbn [insert_by]; [reflexivity|].
  destruct (before r x); [reflexivity|].
  rewrite IH. apply perm_swap.
Qed.

Lemma order_by_perm {A : Type} (before : A -> A -> bool) (l : list A) :
  Permutation (order_by before l) l.
Proof.
  induction l as [|x xs IH]; [reflexivity|].
  unfold order_by in *. cbn [fold_right].
  rewrite insert_by_perm. now apply perm_skip.
Qed.

(** The insertion sort sorts, for a key in [Z], in either direction. *)
Lemma insert_by_sorted {A : Type} (key : A -> Z) (r : A) (l : list A) :
  StronglySorted (fun a b => (key a <= key b)%Z) l ->
  StronglySorted (fun a b => (key a <= key b)%Z)
                 (insert_by (fun a b => (key a <=? key b)%Z) r l).
Proof.
  induction 1 as [|x xs Hs IH Hx]; cbn [insert_by].
  - constructor; constructor.
  - destruct (Z.leb_spec (key r) (key x)) as [Hrx|Hrx].
    + constructor; [constructor; assumption|].
      constructor; [exact Hrx|].
      eapply Forall_impl; [|exact Hx]. cbv beta. intros; lia.
    + constructor; [exact IH|].
      eapply Permutation_Forall; [symmetry; apply insert_by_perm|].
      constructor; [lia|exact Hx].
Qed.

Lemma order_by_sorted {A : Type} (key : A -> Z) (l : list A) :
  StronglySorted (fun a b => (key a <= key b)%Z)
                 (order_by (fun a b => (key a <=? key b)%Z) l).
Proof.
  induction l as [|x xs IH]; [constructor|].
  unfold order_by in *. cbn [fold_right]. now apply insert_by_sorted.
Qed.

Lemma StronglySorted_map {A B : Type} (f : A -> B) (R : B -> B -> Prop) (l : list A) :
  StronglySorted (fun a b => R (f a) (f b)) l -> StronglySorted R (map f l).
Proof.
  induction 1 as [|x xs Hs IH Hx]; cbn [map]; constructor; [exact IH|].
  apply Forall_map. exact Hx.
Qed.

(** X24.  The snapshots of a performance answer are those of the table
    that are not older than [days] days, each exactly once, the oldest
    first. *)
Theorem X24_performance_window (db : Db) (now days : Z) :
  let answer := snapshots (get_performance db now days) in
  Permutation answer
    (map to_snapshot (filter (in_window now days) (account_snapshots db))) /\
  StronglySorted (fun a b => (timestamp a <= timestamp b)%Z) answer /\
  Forall (fun s => (now - days * 86400 <= timestamp s)%Z) answer.
Proof.
  cbv zeta.
  assert (E : snapshots (get_performance db now days)
              = map to_snapshot (recent_snapshots db now days)).
  { unfold get_performance. destruct (recent_snapshots db now days); reflexivity. }
  rewrite E.
  assert (P : Permutation (recent_snapshots db now days)
                (filter (in_window now days) (account_snapshots db))).
  { unfold recent_snapshots. cbv zeta. apply order_by_perm. }
  split; [|split].
  - apply Permutation_map. exact P.
  - apply (StronglySorted_map to_snapshot (fun a b => (timestamp a <= timestamp b)%Z)).
    cbn [to_snapshot timestamp].
    unfold recent_snapshots. cbv zeta. apply (order_by_sorted snap_created_at).
  - apply Forall_map. cbn [to_snapshot timestamp].
    eapply Permutation_Forall; [symmetry; exact P|].
    apply Forall_forall. intros r Hr. apply filter_In in Hr.
    destruct Hr as [_ Hr]. unfold in_window in Hr. now apply Z.leb_le in Hr.
Qed.

End PerformanceFacts.

(* ------------------------------------------------------------------ *)
(** ** The order history                                                *)
(* ------------------------------------------------------------------ *)

Section HistoryFacts.
Import Database TradingApi Endpoints.
Open Scope string_scope.

(** The insertion sort sorts for every total and transitive order. *)
Lemma insert_by_sorted_total {A : Type} (before : A -> A -> bool)
    (Htrans : forall a b c, before a b = true -> before b c = true -> before a c = true)
    (Htotal : forall a b, before a b = false -> before b a = true)
    (r : A) (l : list A) :
  StronglySorted (fun a b => before a b = true) l ->
  StronglySorted (fun a b => before a b = true) (insert_by before r l).
Proof.
  induction 1 as [|x xs Hs IH Hx]; cbn [insert_by].
  - constructor; constructor.
  - destruct (before r x) eqn:E.
    + constructor; [constructor; assumption|].
      constructor; [exact E|].
      eapply Forall_impl; [|exact Hx]. cbv beta. intros b Hb. eapply Htrans; eassumption.
    + constructor; [exact IH|].
      eapply Permutation_Forall; [symmetry; apply insert_by_perm|].
      constructor; [apply Htotal; exact E|exact Hx].
Qed.

Lemma order_by_sorted_total {A : Type} (before : A -> A -> bool)
    (Htrans : forall a b c, before a b = true -> before b c = true -> before a c = true)
    (Htotal : forall a b, before a b = false -> before b a = true)
    (l : list A) :
  StronglySorted (fun a b => before a b = true) (order_by before l).
Proof.
  induction l as [|x xs IH]; [constructor|].
  unfold order_by in *. cbn [fold_right]. now apply insert_by_sorted_total.
Qed.

Lemma order_by_desc_sorted {A : Type} (key : A -> Z) (l : list A) :
  StronglySorted (fun a b => (key b <= key a)%Z)
                 (order_by (fun a b => (key b <=? key a)%Z) l).
Proof.
  assert (S := order_by_sorted_total (fun a b => (key b <=? key a)%Z)).
  cbv beta in S.
  eapply StronglySorted_ind with
    (P := fun l => StronglySorted (fun a b => (key b <= key a)%Z) l);
    [constructor| |apply S].
  - intros a l' _ IH Ha. constructor; [exact IH|].
    eapply Forall_impl; [|exact Ha]. cbv beta. intros b Hb. now apply Z.leb_le.
  - intros a b c H1 H2. apply Z.leb_le in H1, H2. apply Z.leb_le. lia.
  - intros a b H. apply Z.leb_gt in H. apply Z.leb_le. lia.
Qed.

(** In a sorted list whatever comes first is before whatever comes later. *)
Lemma sorted_split {A : Type} (R : A -> A -> Prop) (n : nat) (l : list A) :
  StronglySorted R l ->
  forall a b, In a (firstn n l) -> In b (skipn n l) -> R a b.
Proof.
  intro H. revert n. induction H as [|x xs Hs IH Hx]; intros n a b Ha Hb.
  - rewrite firstn_nil in Ha. destruct Ha.
  - destruct n as [|n]; [destruct Ha|].
    cbn [firstn skipn] in Ha, Hb. destruct Ha as [<-|Ha].
    + rewrite Forall_forall in Hx. apply Hx. eapply In_skipn. exact Hb.
    + eapply IH; eassumption.
Qed.

Lemma StronglySorted_firstn {A : Type} (R : A -> A -> Prop) (n : nat) (l : list A) :
  StronglySorted R l -> StronglySorted R (firstn n l).
Proof.
  intro H. revert n. induction H as [|x xs Hs IH Hx]; intro n.
  - rewrite firstn_nil. constructor.
  - destruct n as [|n]; [constructor|]. cbn [firstn].
    constructor; [apply IH|].
    rewrite Forall_forall in *. intros y Hy. apply Hx. eapply In_firstn. exact Hy.
Qed.

(** X25.  What the order history answers.  The request is served only for a
    limit from 1 to 1000.  The answer then holds the newest rows of the
    table that carry the wanted code (every row when no code or an empty one
    is given): as many as there are, up to the limit; newest first; and no
    row that is left out is newer than a row that is shown. *)
Theorem X25_order_history (d : Db) (stock_code : option string) (limit : Z)
    (items : list OrderHistoryItem) :
  get_order_history d stock_code limit = Some items ->
  (1 <= limit <= 1000)%Z /\
  length items
  = Nat.min (Z.to_nat limit) (length (filter (wanted stock_code) (trade_orders d))) /\
  StronglySorted (fun a b => (item_created_at b <= item_created_at a)%Z) items /\
  (forall c, stock_code = Some c -> c <> "" ->
             Forall (fun i => item_stock_code i = c) items) /\
  exists shown rest,
    items = map to_item shown /\
    Permutation (shown ++ rest) (filter (wanted stock_code) (trade_orders d)) /\
    forall a b, In a shown -> In b rest ->
                (order_created_at b <= order_created_at a)%Z.
Proof.
  unfold get_order_history.
  destruct ((1 <=? limit)%Z && (limit <=? 1000)%Z) eqn:El; [|discriminate].
  intro H. injection H as <-.
  apply andb_true_iff in El. destruct El as [E1 E2].
  apply Z.leb_le in E1, E2.
  set (n := Z.to_nat limit).
  assert (P : Permutation (history_rows d stock_code)
                (filter (wanted stock_code) (trade_orders d))).
  { apply order_by_perm. }
  assert (S : StronglySorted (fun a b => (order_created_at b <= order_created_at a)%Z)
                (history_rows d stock_code)).
  { apply (order_by_desc_sorted order_created_at). }
  split; [lia|]. split; [|split; [|split]].
  - rewrite length_map, length_firstn. now rewrite (Permutation_length P).
  - apply (StronglySorted_map to_item
             (fun a b => (item_created_at b <= item_created_at a)%Z)).
    cbn [to_item item_created_at]. now apply StronglySorted_firstn.
  - intros c -> Hc. apply Forall_map. cbn [to_item item_stock_code].
    apply Forall_forall. intros r Hr. apply In_firstn in Hr.
    eapply Permutation_in in Hr; [|exact P].
    apply filter_In in Hr. destruct Hr as [_ Hr]. unfold wanted in Hr.
    destruct (String.eqb_spec c ""); [contradiction|].
    now apply String.eqb_eq.
  - exists (firstn n (history_rows d stock_code)), (skipn n (history_rows d stock_code)).
    split; [reflexivity|]. split.
    + rewrite firstn_skipn. exact P.
    + intros a b Ha Hb.
      exact (sorted_split _ n _ S a b Ha Hb).
Qed.

Lemma X25_order_history_witness :
  exists items,
    get_order_history (db capped_world) (Some "000660") 10 = Some items /\
    (1 <= 10 <= 1000)%Z /\
    length items
    = Nat.min (Z.to_nat 10)
        (length (filter (wanted (Some "000660")) (trade_orders (db capped_world)))) /\
    StronglySorted (fun a b => (item_created_at b <= item_created_at a)%Z) items /\
    (forall c, Some "000660" = Some c -> c <> "" ->
               Forall (fun i => item_stock_code i = c) items) /\
    exists shown rest,
      items = map to_item shown /\
      Permutation (shown ++ rest)
        (filter (wanted (Some "000660")) (trade_orders (db capped_world))) /\
      forall a b, In a shown -> In b rest ->
                  (order_created_at b <= order_created_at a)%Z.
Proof.
  eexists. split; [vm_compute; reflexivity|].
  apply (X25_order_history (db capped_world) (Some "000660") 10).
  vm_compute. reflexivity.
Defined.

End HistoryFacts.

(* ------------------------------------------------------------------ *)
(** ** The account page, the balance snapshot and the risk gate          *)
(* ------------------------------------------------------------------ *)

Section AccountFacts.
Import Database KISBroker TradingApi Metrics Endpoints.
Open Scope string_scope.

(** The loop of the account page and the loop of the risk gate end alike,
    and with the same total. *)
Lemma info_scan_agrees (py : PyLib) (stock_code : string) (hs : list json) :
  forall (t : Q) (acc : Scan),
    t == total_eval acc ->
    match info_scan py t hs, scan_holdings py stock_code acc hs with
    | Ok t', Ok s' => t' == total_eval s'
    | Raise e, Raise e' => e = e'
    | _, _ => False
    end.
Proof.
  induction hs as [|h hs IH]; intros t acc Ht.
  - cbn. exact Ht.
  - cbn [info_scan scan_holdings].
    destruct h as [| | | | |members]; cbn [scan_holding bind]; try reflexivity.
    destruct (is_str (assoc "pdno" members) stock_code); cbn [bind]; apply IH;
      cbn [total_eval]; unfold float_or_else;
      destruct (py_float py _); rewrite Ht; ring.
Qed.

(** X26.  The account page and the risk gate read the same account.  For
    every instrument, [api_account_info] returns exactly when the gate's
    reading of the balance succeeds; the balance it shows is then the total
    value against which the gate measures the weight of a position, and its
    cash is that total less the value of the holdings.  When the balance
    query fails the page answers status 500 with the exception the gate
    would raise, and any other exception escapes both in the same way. *)
Theorem X26_account_page_agrees_with_gate (py : PyLib) (w : World)
    (stock_code : string) :
  match api_account_info py w, read_account py w stock_code with
  | Returned info, Ok (s, total_value) =>
      info_balance info == total_value /\
      info_cash info == total_value - total_eval s
  | BalanceFailed e, Raise e' =>
      e = e' /\ get_balance (broker_config w) (balance_http w) = Raise e
  | Escaped e, Raise e' =>
      e = e' /\ exists bal, get_balance (broker_config w) (balance_http w) = Ok bal
  | _, _ => False
  end.
Proof.
  unfold api_account_info, after_balance, read_account.
  destruct (get_balance (broker_config w) (balance_http w)) as [bal|e]; cbn [bind];
    [|split; reflexivity].
  destruct (summary_of (raw_of bal)) as [summary|e]; cbn [bind];
    [|split; [reflexivity|now exists bal]].
  destruct (holdings_of (raw_of bal)) as [hs|e]; cbn [bind];
    [|split; [reflexivity|now exists bal]].
  assert (A := info_scan_agrees py stock_code hs 0 scan_start (Qeq_refl 0)).
  destruct (info_scan py 0 hs) as [t|e];
    destruct (scan_holdings py stock_code scan_start hs) as [s|e']; cbn [bind];
    try contradiction.
  - destruct (cash_of py summary) as [cash|e]; cbn [bind];
      [|split; [reflexivity|now exists bal]].
    cbn [info_balance info_cash]. split; [rewrite A; reflexivity|ring].
  - split; [exact A|now exists bal].
Qed.

End AccountFacts.

Section BalanceFacts.
Import Database KISBroker TradingApi Metrics Endpoints.
Open Scope string_scope.
Open Scope list_scope.








End BalanceFacts.

(* ------------------------------------------------------------------ *)
(** ** Saving a risk setting and reading it back                        *)
(* ------------------------------------------------------------------ *)

Section SavedSettingFacts.
Import Database KISBroker TradingApi Endpoints.
Open Scope string_scope.
Open Scope list_scope.

Lemma has_code_apply_body (c : string) (body : RiskSettingIn) (r : RiskSetting) :
  has_code c (apply_body body r) = has_code c r.
Proof. reflexivity. Qed.

Lemma has_code_new (c : string) : has_code c (new_setting c) = true.
Proof. unfold has_code, new_setting. cbn. apply String.eqb_refl. Qed.

Lemma has_code_other (c c' : string) (r : RiskSetting) :
  c <> c' -> has_code c' r = true -> has_code c r = false.
Proof.
  unfold has_code. destruct (rs_stock_code r) as [x|]; [|discriminate].
  intros Hc H. apply String.eqb_eq in H. subst x.
  apply String.eqb_neq. congruence.
Qed.

Lemma find_put_setting (c : string) (body : RiskSettingIn) (rows : list RiskSetting) :
  find (has_code c) (put_setting c body rows) = Some (apply_body body (row_before c rows)).
Proof.
  unfold row_before. induction rows as [|r rest IH]; cbn [put_setting find].
  - rewrite has_code_apply_body, has_code_new. reflexivity.
  - destruct (has_code c r) eqn:E; cbn [find].
    + now rewrite has_code_apply_body, E.
    + now rewrite E.
Qed.

Lemma filter_other_put_setting (c c' : string) (body : RiskSettingIn)
    (rows : list RiskSetting) :
  c <> c' ->
  filter (has_code c) (put_setting c' body rows) = filter (has_code c) rows.
Proof.
  intro Hc. induction rows as [|r rest IH]; cbn [put_setting filter].
  - rewrite has_code_apply_body.
    now rewrite (has_code_other c c' (new_setting c') Hc (has_code_new c')).
  - destruct (has_code c' r) eqn:E; cbn [filter].
    + rewrite has_code_apply_body.
      now rewrite (has_code_other c c' r Hc E).
    + now rewrite IH.
Qed.

Lemma filter_same_put_setting (c : string) (body : RiskSettingIn)
    (rows : list RiskSetting) :
  (length (filter (has_code c) rows) <= 1)%nat ->
  filter (has_code c) (put_setting c body rows) = [apply_body body (row_before c rows)].
Proof.
  unfold row_before. induction rows as [|r rest IH]; cbn [put_setting filter find].
  - intros _. now rewrite has_code_apply_body, has_code_new.
  - destruct (has_code c r) eqn:E; cbn [filter length]; intro H.
    + rewrite has_code_apply_body, E.
      destruct (filter (has_code c) rest); [reflexivity|cbn in H; lia].
    + rewrite E. now apply IH.
Qed.

Lemma filter_andb {A : Type} (f g : A -> bool) (l : list A) :
  filter (fun x => f x && g x) l = filter f (filter g l).
Proof.
  induction l as [|x xs IH]; [reflexivity|]. cbn [filter].
  destruct (g x); cbn [filter]; rewrite ?andb_true_r, ?andb_false_r;
    [destruct (f x)|]; now rewrite IH.
Qed.

(** What the gate selects once the row of the instrument is the only
    candidate. *)
Lemma select_after_put (d : Db) (c : string) (r : RiskSetting) :
  filter (has_code c) (risk_settings d) = [r] ->
  rs_active r = true ->
  c = "ALL" \/ filter (fun x => rs_active x && has_code "ALL" x) (risk_settings d) = [] ->
  select_risk_setting d c = Some r.
Proof.
  intros Hc Ha Hall. unfold select_risk_setting. cbv zeta.
  assert (E : filter (fun x => rs_active x &&
                        match rs_stock_code x with
                        | Some k => String.eqb k c || String.eqb k "ALL"
                        | None => false
                        end) (risk_settings d)
              = filter (fun x => rs_active x && has_code c x) (risk_settings d)).
  { apply filter_ext_in. intros x Hx. unfold has_code.
    destruct (rs_active x) eqn:Ex; [|reflexivity]. cbn [andb].
    destruct (rs_stock_code x) as [k|] eqn:Ek; [|reflexivity].
    destruct (String.eqb k c) eqn:Ekc; [reflexivity|]. cbn [orb].
    destruct Hall as [->|Hall]; [exact Ekc|].
    destruct (String.eqb k "ALL") eqn:Eka; [|reflexivity].
    exfalso.
    assert (In x (filter (fun x => rs_active x && has_code "ALL" x) (risk_settings d))).
    { apply filter_In. split; [exact Hx|]. unfold has_code. now rewrite Ex, Ek, Eka. }
    rewrite Hall in H. destruct H. }
  rewrite E, filter_andb, Hc. cbn [filter]. rewrite Ha. reflexivity.
Qed.

(** X28.  Saving a risk setting and reading it back.  When
    [upsert_risk_setting] saves, looking the code up in the table gives the
    row it returns; the rows of every other code, the orders and the
    snapshots are as they were.  With at most one row per code before (the
    unique index), a saved row that is active is the one the risk gate
    selects for that code, provided the code is ALL or no active ALL row
    exists, and every limit given in the body is then the limit the gate
    enforces. *)
Theorem X28_saved_setting_reaches_gate (expected_key x_api_key : option string)
    (w : World) (stock_code : string) (body : RiskSettingIn)
    (r : RiskSetting) (d' : Db) :
  upsert_risk_setting expected_key x_api_key w stock_code body = Saved r d' ->
  (length (filter (has_code stock_code) (risk_settings (db w))) <= 1)%nat ->
  find (has_code stock_code) (risk_settings d') = Some r /\
  (forall c, c <> stock_code ->
             filter (has_code c) (risk_settings d')
             = filter (has_code c) (risk_settings (db w))) /\
  trade_orders d' = trade_orders (db w) /\
  account_snapshots d' = account_snapshots (db w) /\
  (rs_active r = true ->
   stock_code = "ALL" \/
   filter (fun x => rs_active x && has_code "ALL" x) (risk_settings (db w)) = [] ->
   select_risk_setting d' stock_code = Some r /\
   let lim := resolve_limits (defaults w) (select_risk_setting d' stock_code) in
   (forall n, in_max_position_shares body = Some n -> max_shares lim = n) /\
   (forall q, in_max_weight_pct body = Some q -> max_weight_pct lim = q) /\
   (forall q, in_max_daily_buy_amount body = Some q -> max_daily_buy_amount lim = q)).
Proof.
  unfold upsert_risk_setting.
  destruct (key_refused expected_key x_api_key); [discriminate|].
  destruct (commit_ok w); [|discriminate].
  fold (row_before stock_code (risk_settings (db w))).
  intro H. injection H as <- <-. intro Hu.
  cbn [risk_settings trade_orders account_snapshots].
  split; [apply find_put_setting|].
  split; [intros c Hc; now apply filter_other_put_setting|].
  split; [reflexivity|]. split; [reflexivity|].
  intros Ha Hall.
  set (r := apply_body body (row_before stock_code (risk_settings (db w)))) in *.
  set (d' := {| trade_orders := trade_orders (db w) |}).
  assert (S : select_risk_setting d' stock_code = Some r).
  { apply select_after_put.
    - apply filter_same_put_setting. exact Hu.
    - exact Ha.
    - destruct Hall as [->|Hall]; [now left|].
      destruct (String.eqb_spec stock_code "ALL") as [->|Hne]; [now left|].
      right. cbn [d' risk_settings].
      rewrite filter_andb, filter_other_put_setting by congruence.
      rewrite <- filter_andb. exact Hall. }
  split; [exact S|].
  cbv zeta. rewrite S. unfold resolve_limits.
  cbn [max_shares max_weight_pct max_daily_buy_amount].
  unfold r, apply_body.
  cbn [rs_max_position_shares rs_max_weight_pct rs_max_daily_buy_amount].
  repeat split; intros v ->; reflexivity.
Qed.

Lemma X28_saved_setting_reaches_gate_witness :
  exists r d',
    let body := {| in_max_position_shares := Some 7%Z; in_max_weight_pct := None;
                   in_max_daily_buy_amount := Some 500; in_active := Some true |} in
    upsert_risk_setting None None watched_world "ALL" body = Saved r d' /\
    (length (filter (has_code "ALL") (risk_settings (db watched_world))) <= 1)%nat /\
    find (has_code "ALL") (risk_settings d') = Some r /\
    (forall c, c <> "ALL" ->
               filter (has_code c) (risk_settings d')
               = filter (has_code c) (risk_settings (db watched_world))) /\
    trade_orders d' = trade_orders (db watched_world) /\
    account_snapshots d' = account_snapshots (db watched_world) /\
    (rs_active r = true ->
     "ALL" = "ALL" \/
     filter (fun x => rs_active x && has_code "ALL" x)
            (risk_settings (db watched_world)) = [] ->
     select_risk_setting d' "ALL" = Some r /\
     let lim := resolve_limits (defaults watched_world) (select_risk_setting d' "ALL") in
     (forall n, in_max_position_shares body = Some n -> max_shares lim = n) /\
     (forall q, in_max_weight_pct body = Some q -> max_weight_pct lim = q) /\
     (forall q, in_max_daily_buy_amount body = Some q -> max_daily_buy_amount lim = q)).
Proof.
  do 2 eexists. cbv zeta. split; [vm_compute; reflexivity|].
  split; [vm_compute; lia|].
  eapply (X28_saved_setting_reaches_gate None None watched_world "ALL").
  - vm_compute. reflexivity.
  - vm_compute. lia.
Defined.

End SavedSettingFacts.

(* ------------------------------------------------------------------ *)
(** ** Orders by amount                                                 *)
(* ------------------------------------------------------------------ *)

Section AmountFacts.
Import Database KISBroker TradingApi Endpoints.
Open Scope string_scope.
Open Scope list_scope.









Example quantity_for_250 :
  _infer_quantity_from_amount demo_prices "005930" 250 = inr 2%Z /\
  _infer_quantity_from_amount demo_prices "005930" 99 = inl AmountTooSmall /\
  _infer_quantity_from_amount demo_prices "035720" 250 = inl NoPriceData.
Proof. repeat split; vm_compute; reflexivity. Qed.

End AmountFacts.

Section AmountOrders.
Import Database KISBroker TradingApi Endpoints.
Open Scope string_scope.
Open Scope list_scope.



Example amount_order_answers :
  exists res d',
    api_trade_buy demo_prices demo_py capped_world "005930" 150 = (inr (Ok (1%Z, res)), d').
Proof. do 2 eexists. vm_compute. reflexivity. Qed.

End AmountOrders.
